(** * LavaFlow Mapper Suite: ingestion merge, distance tagging, breakthrough speed

    A shallow embedding of the three computational stages of the suite:
    - [Download.process_download]  (FIRMS_download.py, the per-source merge),
    - [Mapper.get_layout]          (LavaFlow_mapper.py, filter + Haversine tag),
    - [Speed.process_speed_data]   (LavaFlow_speed.py, breakthrough events).

    Conventions.  A pandas DataFrame is a list of row records, a Series a
    list of cells.  A finite float64 is idealised as a rational ([Q]) where
    the code only compares, rounds and divides, and as a real ([R]) where it
    calls [np.sin], [np.cos], [np.arcsin], [np.sqrt]; the IEEE special values
    the code can produce ([NaN], the infinities) are explicit constructors.
    A calendar date is its day number ([Z]).

    Four further modules each drop one simplification of the three above:
    - [MapperRun]      parses the date window of the configuration
                       (LavaFlow_mapper.py, lines 81-82);
    - [DownloadReply]  has the [except] branch of the download loop;
    - [DownloadFloat]  rounds the coordinates as float64 products;
    - [SpeedFrame]     admits empty distance cells and leaves the order of
                       same-day rows to the sort. *)

From Stdlib Require Import List ZArith QArith Qround Qabs Bool String Ascii.
From Stdlib Require Import DecimalString.
From Stdlib Require Import Lia Lra Permutation Sorted.
From Stdlib Require Lqa.
From Stdlib Require Import Reals Ratan Machin Qreals.
Import ListNotations.

Set Implicit Arguments.

(** ** pandas / numpy primitives used by the three scripts *)
Module Pandas.

(** A float64 cell: a finite number, an infinity or NaN. *)
Inductive float64 : Type :=
| Fin (q : Q)
| PInf
| NInf
| NaN.

Definition Qgtb (a b : Q) : bool := negb (Qle_bool a b).
Definition Qltb (a b : Q) : bool := negb (Qle_bool b a).

(** [a / b] on float64 columns (numpy true division, errors ignored):
    a division by zero yields a signed infinity or NaN, never an exception. *)
Definition truediv (a b : float64) : float64 :=
  match a, b with
  | NaN, _ | _, NaN => NaN
  | Fin x, Fin y =>
      if Qeq_bool y 0
      then (if Qeq_bool x 0 then NaN else if Qltb 0 x then PInf else NInf)
      else Fin (x / y)
  | Fin _, (PInf | NInf) => Fin 0
  | PInf, Fin y => if Qltb y 0 then NInf else PInf
  | NInf, Fin y => if Qltb y 0 then PInf else NInf
  | (PInf | NInf), (PInf | NInf) => NaN
  end.

Definition np_maximum (a b : Q) : Q := if Qle_bool a b then b else a.

(** [Series.cummax()] on a column without missing values. *)
Fixpoint cummax_from (m : Q) (xs : list Q) : list Q :=
  match xs with
  | [] => []
  | x :: t => let m' := np_maximum m x in m' :: cummax_from m' t
  end.

Definition cummax (xs : list Q) : list Q :=
  match xs with
  | [] => []
  | x :: t => x :: cummax_from x t
  end.

(** [Series.shift(1, fill_value=fill)]. *)
Fixpoint shift {A : Type} (fill : A) (xs : list A) : list A :=
  match xs with
  | [] => []
  | x :: t => fill :: shift x t
  end.

(** [Series.diff()] on timestamps: the first cell is NaT ([None]). *)
Fixpoint diff_from (prev : Z) (xs : list Z) : list (option Z) :=
  match xs with
  | [] => []
  | x :: t => Some (x - prev)%Z :: diff_from x t
  end.

Definition diff (xs : list Z) : list (option Z) :=
  match xs with
  | [] => []
  | x :: t => None :: diff_from x t
  end.

(** [DataFrame.sort_values(key)], ascending.  The order among rows with
    equal keys is left to the sorting algorithm (numpy sorts short runs by
    insertion); here such rows keep their order. *)
Section Sort.
Variable A : Type.
Variable key : A -> Z.

Fixpoint insert_row (x : A) (l : list A) : list A :=
  match l with
  | [] => [x]
  | y :: t => if (key y <? key x)%Z then y :: insert_row x t else x :: l
  end.

Fixpoint sort_values (l : list A) : list A :=
  match l with
  | [] => []
  | x :: t => insert_row x (sort_values t)
  end.

(** The order a frame sorted on [key] is in. *)
Definition le_key (a b : A) : Prop := (key a <= key b)%Z.
End Sort.

End Pandas.

(** ** The detection rows shared by the downloader and the mapper *)
Module Firms.

(** A cell of a numeric CSV column: text that parses as a float, text that
    does not, or an empty cell (read as NaN). *)
Inductive cell : Type :=
| Num (q : Q)
| Text (s : string)
| Blank.

(** [pd.to_numeric(c, errors='coerce')]: [None] is NaN. *)
Definition to_numeric (c : cell) : option Q :=
  match c with
  | Num q => Some q
  | Text _ | Blank => None
  end.

(** The cell a coerced column holds afterwards. *)
Definition coerce (c : cell) : cell :=
  match to_numeric c with
  | Some q => Num q
  | None => Blank
  end.

Definition isna (c : cell) : bool :=
  match c with
  | Blank => true
  | _ => false
  end.

(** One FIRMS row.  [acq_date] is the calendar day, [acq_time] the integer
    the CSV reader infers for the HHMM column (930 for 09:30). *)
Record Detection : Type := mkDetection {
  latitude : cell;
  longitude : cell;
  acq_date : Z;
  acq_time : nat;
  frp : cell;
  track : cell
}.

Fixpoint zeros (n : nat) : string :=
  match n with
  | O => EmptyString
  | S k => String "0"%char (zeros k)
  end.

(** [str.zfill(width)] *)
Definition zfill (width : nat) (s : string) : string :=
  append (zeros (width - String.length s)) s.

(** [.astype(str).str.zfill(4)] on the acq_time column. *)
Definition acq_time_str (r : Detection) : string :=
  zfill 4 (NilEmpty.string_of_uint (Nat.to_uint (acq_time r))).

End Firms.

(** ** FIRMS_download.py *)
Module Download.
Import Pandas Firms.

Inductive source_id : Type :=
| VIIRS_SNPP_NRT
| VIIRS_NOAA21_NRT
| VIIRS_NOAA20_NRT
| MODIS_NRT.

Definition sources : list source_id :=
  [VIIRS_SNPP_NRT; VIIRS_NOAA21_NRT; VIIRS_NOAA20_NRT; MODIS_NRT].

Definition source_eqb (a b : source_id) : bool :=
  match a, b with
  | VIIRS_SNPP_NRT, VIIRS_SNPP_NRT
  | VIIRS_NOAA21_NRT, VIIRS_NOAA21_NRT
  | VIIRS_NOAA20_NRT, VIIRS_NOAA20_NRT
  | MODIS_NRT, MODIS_NRT => true
  | _, _ => false
  end.

(** The reply of the FIRMS area API for one source. *)
Record response : Type := mkResponse {
  status_code : Z;
  text : list Detection
}.

(** One line of the returned log. *)
Inductive log_entry : Type :=
| ApiError (src : source_id) (status : Z)
| NoData (src : source_id)
| Merged (src : source_id) (current_batch_count total : nat).

(** [Series.round(4)] on the exact decimal value: round half to even at
    four decimals, kept as the integer number of 1e-4 units.
    [DownloadFloat.round4] rounds the float64 product instead. *)
Definition rint (x : Q) : Z :=
  let f := Qfloor x in
  let d := x - inject_Z f in
  if Qltb d (1 # 2) then f
  else if Qltb (1 # 2) d then (f + 1)%Z
  else if Z.even f then f else (f + 1)%Z.

Definition round4 (x : Q) : Z := rint (x * 10000).

(** [dates_to_refresh = df_new['acq_date'].unique()] *)
Fixpoint unique (l : list Z) : list Z :=
  match l with
  | [] => []
  | x :: t => x :: filter (fun y => negb (y =? x)%Z) (unique t)
  end.

(** [Series.isin(values)] *)
Definition isin (x : Z) (values : list Z) : bool :=
  existsb (Z.eqb x) values.

(** Lines 133-134: latitude and longitude coerced to numbers. *)
Definition coerce_lat_lon (r : Detection) : Detection :=
  {| latitude := coerce (latitude r); longitude := coerce (longitude r);
     acq_date := acq_date r; acq_time := acq_time r;
     frp := frp r; track := track r |}.

(** [dropna(subset=['latitude', 'longitude'])] *)
Definition dropna (df : list Detection) : list Detection :=
  filter (fun r => negb (isna (latitude r) || isna (longitude r))) df.

(** The [subset] columns of [drop_duplicates]:
    lat_round, lon_round, acq_date, acq_time. *)
Definition subset_key : Type := option Z * option Z * Z * string.

Definition key (r : Detection) : subset_key :=
  (option_map round4 (to_numeric (latitude r)),
   option_map round4 (to_numeric (longitude r)),
   acq_date r, acq_time_str r).

Definition optZ_eqb (a b : option Z) : bool :=
  match a, b with
  | Some x, Some y => (x =? y)%Z
  | None, None => true
  | _, _ => false
  end.

Definition key_eqb (a b : subset_key) : bool :=
  let '(la, lo, d, t) := a in
  let '(la', lo', d', t') := b in
  optZ_eqb la la' && optZ_eqb lo lo' && (d =? d')%Z && String.eqb t t'.

(** [drop_duplicates(subset=...)], keep='first'. *)
Fixpoint drop_duplicates_seen (seen : list subset_key) (df : list Detection)
  : list Detection :=
  match df with
  | [] => []
  | r :: t =>
      if existsb (key_eqb (key r)) seen
      then drop_duplicates_seen seen t
      else r :: drop_duplicates_seen (key r :: seen) t
  end.

Definition drop_duplicates (df : list Detection) : list Detection :=
  drop_duplicates_seen [] df.

(** Line 130: the archive rows outside the refreshed dates. *)
Definition refresh (df_hist df_new : list Detection) : list Detection :=
  let dates_to_refresh := unique (map acq_date df_new) in
  filter (fun r => negb (isin (acq_date r) dates_to_refresh)) df_hist.

(** Lines 132-135. *)
Definition combine_frames (df_hist df_new : list Detection) : list Detection :=
  let df_combined := refresh df_hist df_new ++ df_new in
  dropna (map coerce_lat_lon df_combined).

(** Lines 124-144: the frame written back for a non-empty batch. *)
Definition merge_frames (file : option (list Detection))
           (df_new : list Detection) : list Detection :=
  match file with
  | Some df_hist => drop_duplicates (combine_frames df_hist df_new)
  | None => df_new
  end.

(** One iteration of the loop over [sources] for a request that is answered
    and a body that is read into a frame: the archive file afterwards and
    the log line.  The rows are typed, so the [except] branch (a column
    missing, a date that does not parse) has no counterpart here;
    [DownloadReply.process_source] has it. *)
Definition process_source (src : source_id) (resp : response)
           (file : option (list Detection))
  : option (list Detection) * log_entry :=
  if negb (status_code resp =? 200)%Z then (file, ApiError src (status_code resp))
  else
    let df_new := text resp in
    match df_new with
    | [] => (file, NoData src)
    | _ :: _ =>
        let current_batch_count := List.length df_new in
        let df_final := merge_frames file df_new in
        (Some df_final, Merged src current_batch_count (List.length df_final))
    end.

(** The archive files, one per source. *)
Definition files : Type := source_id -> option (list Detection).

Definition write (fs : files) (src : source_id) (f : option (list Detection))
  : files :=
  fun s => if source_eqb s src then f else fs s.

Fixpoint download_loop (api : source_id -> response) (srcs : list source_id)
         (fs : files) (log : list log_entry) : files * list log_entry :=
  match srcs with
  | [] => (fs, log)
  | src :: rest =>
      let '(f, entry) := process_source src (api src) (fs src) in
      download_loop api rest (write fs src f) (log ++ [entry])
  end.

Definition process_download (api : source_id -> response) (fs : files)
  : files * list log_entry :=
  download_loop api sources fs [].

(** The merge of one batch into one archive, as the spec names it. *)
Definition merge (src : source_id) (batch : list Detection)
           (existing_archive : option (list Detection))
  : option (list Detection) :=
  fst (process_source src {| status_code := 200; text := batch |}
                      existing_archive).

(** The dedup key of the archive invariant: the subset key within the
    archive of one source. *)
Definition dedup_key (src : source_id) (r : Detection)
  : source_id * subset_key :=
  (src, key r).

Definition in_refresh_window (df_new : list Detection) (r : Detection) : bool :=
  isin (acq_date r) (unique (map acq_date df_new)).

(** Example rows: day 19723, 09:30, two readings of one hot spot. *)
Definition spot_a : Detection :=
  mkDetection (Num (1940001 # 100000)) (Num (-15528 # 100)) 19723 930
              (Num 10) (Num (4 # 10)).

Definition spot_b : Detection :=
  mkDetection (Num (1940002 # 100000)) (Num (-15528 # 100)) 19723 930
              (Num 12) (Num (4 # 10)).

Definition bad_frp : Detection :=
  mkDetection (Num (1940001 # 100000)) (Num (-15528 # 100)) 19723 930
              (Text "n/a") (Num (4 # 10)).

Definition bad_latitude : Detection :=
  mkDetection (Text "--") (Num (-15528 # 100)) 19723 1015
              (Num 7) (Num (4 # 10)).

Definition day_before : Detection :=
  mkDetection (Num (1941 # 100)) (Num (-15529 # 100)) 19722 2210
              (Num 5) (Num (5 # 10)).

Definition elsewhere : Detection :=
  mkDetection (Num (1942 # 100)) (Num (-15530 # 100)) 19723 1110
              (Num 3) (Num (4 # 10)).

(** An archive holding three rows for day 19723 and one for the day
    before. *)
Definition old_archive : list Detection :=
  [day_before; spot_a; elsewhere; bad_frp].

(** Lines 132-135 on one frame. *)
Definition clean (df : list Detection) : list Detection :=
  dropna (map coerce_lat_lon df).

End Download.

(** ** LavaFlow_mapper.py *)
Module Mapper.
Import Pandas Firms.

(** A value of the dictionary [load_global_config] builds from config.txt:
    'true'/'false' become booleans, text with a dot that parses becomes a
    float, other text that parses an int, everything else stays a string. *)
Inductive value : Type :=
| VBool (b : bool)
| VInt (z : Z)
| VFloat (q : Q)
| VStr (s : string).

Definition config : Type := string -> option value.

(** [cfg.get(k, default)] *)
Definition get (cfg : config) (k : string) (default : value) : value :=
  match cfg k with
  | Some v => v
  | None => default
  end.

(** The number a value stands for in float arithmetic and comparisons;
    a string there raises TypeError ([None]). *)
Definition as_number (v : value) : option Q :=
  match v with
  | VBool true => Some 1%Q
  | VBool false => Some 0%Q
  | VInt z => Some (inject_Z z)
  | VFloat q => Some q
  | VStr _ => None
  end.

(** A row of [comb]: the archive row with its four numeric columns
    coerced, plus the [date], [satellite] and [source] columns. *)
Record Tagged : Type := mkTagged {
  det : Detection;
  date : Z;               (* seconds since the epoch *)
  satellite : string;
  source : Z
}.

Record sat_config : Type := mkSatConfig {
  pattern : string;
  name : string;
  id : Z
}.

Definition configs : list sat_config :=
  [ {| pattern := "*SNPP*.csv"; name := "SNPP"; id := 1 |};
    {| pattern := "*NOAA20*.csv"; name := "NOAA20"; id := 2 |};
    {| pattern := "*NOAA21*.csv"; name := "NOAA21"; id := 3 |} ].

Definition digit (c : ascii) : option Z :=
  let n := nat_of_ascii c in
  if ((48 <=? n) && (n <=? 57))%nat then Some (Z.of_nat (n - 48)) else None.

(** The "%H%M" part of the format on the zero-padded time: seconds since
    midnight, or [None] where the text does not match (ValueError). *)
Definition strptime_HM (s : string) : option Z :=
  match s with
  | String a (String b (String c (String d EmptyString))) =>
      match digit a, digit b, digit c, digit d with
      | Some a, Some b, Some c, Some d =>
          let h := (10 * a + b)%Z in
          let m := (10 * c + d)%Z in
          if ((h <=? 23) && (m <=? 59))%Z then Some (3600 * h + 60 * m)%Z
          else None
      | _, _, _, _ => None
      end
  | _ => None
  end.

(** [pd.to_datetime(acq_date + " " + acq_time.zfill(4), format=...)] *)
Definition timestamp (r : Detection) : option Z :=
  match strptime_HM (acq_time_str r) with
  | Some s => Some (86400 * acq_date r + s)%Z
  | None => None
  end.

(** Lines 58-59: the four numeric columns coerced. *)
Definition coerce_columns (r : Detection) : Detection :=
  {| latitude := coerce (latitude r); longitude := coerce (longitude r);
     acq_date := acq_date r; acq_time := acq_time r;
     frp := coerce (frp r); track := coerce (track r) |}.

(** Lines 57-63 for one row of one file. *)
Definition tag_row (c : sat_config) (r : Detection) : option Tagged :=
  match timestamp r with
  | Some t => Some {| det := coerce_columns r; date := t;
                      satellite := name c; source := id c |}
  | None => None
  end.

(** Every element mapped, [None] as soon as one raises. *)
Fixpoint traverse {A B : Type} (f : A -> option B) (l : list A)
  : option (list B) :=
  match l with
  | [] => Some []
  | x :: t =>
      match f x, traverse f t with
      | Some y, Some ys => Some (y :: ys)
      | _, _ => None
      end
  end.

(** [load_and_tag_data]; [glob p] is the content of the files matching
    pattern [p].  [None]: a timestamp failed to parse (ValueError). *)
Definition load_and_tag_data (glob : string -> list (list Detection))
  : option (list Tagged) :=
  let read_files c := traverse (traverse (tag_row c)) (glob (pattern c)) in
  match traverse read_files configs with
  | Some all_data => Some (List.concat (List.concat all_data))
  | None => None
  end.

(** [comb[col] <= v] and [comb[col] >= v] on one coerced cell: a NaN cell
    compares false. *)
Definition cell_le (c : cell) (v : Q) : bool :=
  match c with
  | Num q => Qle_bool q v
  | _ => false
  end.

Definition cell_ge (c : cell) (v : Q) : bool :=
  match c with
  | Num q => Qle_bool v q
  | _ => false
  end.

(** The mask of lines 84-86 on one row. *)
Definition mask (filter_track filter_frp : Q) (start_dt end_dt : Z)
           (r : Tagged) : bool :=
  cell_le (track (det r)) filter_track
  && cell_ge (frp (det r)) filter_frp
  && (start_dt <=? date r)%Z && (date r <=? end_dt)%Z.

(** Lines 91-96 on one detection; angles in degrees. *)
Definition distance (LATS_vent LONGS_vent latitude longitude : R) : R :=
  let R_earth := 6371%R in
  let p := (PI / 180)%R in
  let lat1 := (LATS_vent * p)%R in
  let lon1 := (LONGS_vent * p)%R in
  let lat2 := (latitude * p)%R in
  let lon2 := (longitude * p)%R in
  let a := ((sin ((lat2 - lat1) / 2)) ^ 2
            + cos lat1 * cos lat2 * (sin ((lon2 - lon1) / 2)) ^ 2)%R in
  (R_earth * 2 * asin (sqrt a))%R.

(** A row of [filtered] after line 96; [None] is a NaN distance. *)
Record FilteredDetection : Type := mkFiltered {
  tagged : Tagged;
  distance_km : option R
}.

Definition tag_distance (LATS_vent LONGS_vent : Q) (r : Tagged)
  : FilteredDetection :=
  {| tagged := r;
     distance_km :=
       match latitude (det r), longitude (det r) with
       | Num la, Num lo =>
           Some (distance (Q2R LATS_vent) (Q2R LONGS_vent) (Q2R la) (Q2R lo))
       | _, _ => None
       end |}.

(** What a call of [get_layout] ends in. *)
Inductive layout : Type :=
| Raised                   (* an exception leaves get_layout *)
| NoDataFiles              (* "Error: No data files found." *)
| NoAnomalies              (* "No anomalies found in this range." *)
| Report (filtered : list FilteredDetection).

(** [get_layout] up to line 99 for a date window already parsed: [start_dt]
    and [end_dt] are the timestamps, in whole seconds, that lines 81-82 read
    from 'start_day_str' and 'end_day_str'.  [MapperRun.get_layout] includes
    the parsing and what follows when it gives no timestamp. *)
Definition get_layout (cfg : config) (start_dt end_dt : Z)
           (glob : string -> list (list Detection)) : layout :=
  let LATS_vent := get cfg "lats_vent" (VFloat 0) in
  let LONGS_vent := get cfg "longs_vent" (VFloat 0) in
  match load_and_tag_data glob with
  | None => Raised
  | Some [] => NoDataFiles
  | Some comb =>
      match as_number (get cfg "filter_track" (VFloat 1)),
            as_number (get cfg "filter_frp" (VFloat 0)) with
      | Some filter_track, Some filter_frp =>
          let filtered :=
            sort_values date
              (filter (mask filter_track filter_frp start_dt end_dt) comb) in
          match filtered with
          | [] => NoAnomalies
          | _ :: _ =>
              match as_number LATS_vent, as_number LONGS_vent with
              | Some lat, Some lon => Report (map (tag_distance lat lon) filtered)
              | _, _ => Raised
              end
          end
      | _, _ => Raised
      end
  end.

(** The Haversine formula as the design states it, angles in radians. *)
Definition R_mean : R := 6371%R.

Definition radians (deg : R) : R := (deg * PI / 180)%R.

Definition haversine (lat1 lon1 lat2 lon2 : R) : R :=
  let a := ((sin ((lat2 - lat1) / 2))² 
            + cos lat1 * cos lat2 * (sin ((lon2 - lon1) / 2))²)%R in
  (2 * R_mean * asin (sqrt a))%R.

(** The number the run uses for key [k]: the default [d] of [cfg.get]
    when the key is missing, [None] when the value present is text. *)
Definition setting (cfg : config) (k : string) (d : Q) : option Q :=
  match cfg k with
  | None => Some d
  | Some v => as_number v
  end.

(** The run once thresholds and reference point are numbers. *)
Definition proceed (comb : list Tagged) (filter_track filter_frp : Q)
           (lat lon : Q) (start_dt end_dt : Z) : layout :=
  match comb with
  | [] => NoDataFiles
  | _ :: _ =>
      match sort_values date
              (filter (mask filter_track filter_frp start_dt end_dt) comb) with
      | [] => NoAnomalies
      | r :: rest => Report (map (tag_distance lat lon) (r :: rest))
      end
  end.

(** The rows of [filtered] a call leaves behind. *)
Definition filtered_rows (out : layout) : list Tagged :=
  match out with
  | Report filtered => map tagged filtered
  | _ => []
  end.

(** Example: no configuration at all, one SNPP archive with three rows. *)
Definition no_config : config := fun _ => None.

Definition snpp_rows : list Detection :=
  [ mkDetection (Num 0) (Num (1 # 100)) 19724 1200 (Num 20) (Num (3 # 10));
    mkDetection (Num (1 # 1000)) (Num 0) 19723 0 (Num 10) (Num (3 # 10));
    mkDetection (Num (2 # 1000)) (Num 0) 19723 30 (Num 15) (Num 2) ].

Definition one_archive (p : string) : list (list Detection) :=
  if String.eqb p "*SNPP*.csv" then [snpp_rows] else [].

Definition snpp_comb : list Tagged :=
  [ mkTagged (mkDetection (Num 0) (Num (1 # 100)) 19724 1200
                          (Num 20) (Num (3 # 10)))
             1704196800 "SNPP" 1;
    mkTagged (mkDetection (Num (1 # 1000)) (Num 0) 19723 0
                          (Num 10) (Num (3 # 10)))
             1704067200 "SNPP" 1;
    mkTagged (mkDetection (Num (2 # 1000)) (Num 0) 19723 30
                          (Num 15) (Num 2))
             1704069000 "SNPP" 1 ].

End Mapper.

(** ** LavaFlow_speed.py *)
Module Speed.
Import Pandas.

(** One row of max_distance_per_day_VIIRS.csv with every cell filled
    ([SpeedFrame.DailyExtent] admits empty cells). *)
Record DailyExtent : Type := mkDailyExtent {
  date_only : Z;          (* calendar day *)
  satellite : string;
  distance_km : Q;
  frp : Q;
  latitude : Q;
  longitude : Q;
  source : Z
}.

(** One row of LavaFlow_propagation.csv: the input row plus the derived
    columns. *)
Record Breakthrough : Type := mkBreakthrough {
  row : DailyExtent;
  date : Z;               (* seconds since the epoch, midnight of date_only *)
  max_distance : Q;
  prev_max : Q;
  time_diff : float64;
  distance_diff : Q;
  speed : float64
}.

(** [pd.to_datetime(df['date_only'])]. *)
Definition to_datetime (d : Z) : Z := (86400 * d)%Z.

(** [.dt.total_seconds() / 3600] *)
Definition hours (dt : option Z) : float64 :=
  match dt with
  | None => NaN
  | Some s => Fin (inject_Z s / 3600)
  end.

(** The frame after lines 46-53: each row with its [date], [max_distance]
    and [prev_max] cells. *)
Definition with_columns (csv : list DailyExtent)
  : list (DailyExtent * Q * Q) :=
  let df := sort_values (fun r => to_datetime (date_only r)) csv in
  let max_distance := cummax (map distance_km df) in
  let prev_max := shift 0 max_distance in
  combine (combine df max_distance) prev_max.

(** [df[df['distance_km'] > df['prev_max']]] *)
Definition is_breakthrough (t : DailyExtent * Q * Q) : bool :=
  Qgtb (distance_km (fst (fst t))) (snd t).

Definition finish (t : DailyExtent * Q * Q) (dt : option Z) : Breakthrough :=
  let '(r, m, p) := t in
  let td := hours dt in
  let dd := (m - p) * 1000 in
  {| row := r; date := to_datetime (date_only r);
     max_distance := m; prev_max := p;
     time_diff := td; distance_diff := dd;
     speed := truediv (Fin dd) td |}.

Fixpoint zip_with {A B C : Type} (f : A -> B -> C) (l : list A) (l' : list B)
  : list C :=
  match l, l' with
  | a :: t, b :: t' => f a b :: zip_with f t t'
  | _, _ => []
  end.

Definition speed_columns (processed : list (DailyExtent * Q * Q))
  : list Breakthrough :=
  let dates := map (fun t => to_datetime (date_only (fst (fst t)))) processed in
  zip_with finish processed (diff dates).

(** [process_speed_data]: [None] when the input file does not exist. *)
Definition process_speed_data (input_file : option (list DailyExtent))
  : option (list Breakthrough) :=
  match input_file with
  | None => None
  | Some csv =>
      let processed := filter is_breakthrough (with_columns csv) in
      Some (speed_columns processed)
  end.

(** Lines 50-54 read row by row: [p] is the [prev_max] cell of the next
    row, [m] the running maximum so far ([None] before the first row). *)
Fixpoint scan (p : Q) (m : option Q) (df : list DailyExtent)
  : list (DailyExtent * Q * Q) :=
  match df with
  | [] => []
  | r :: t =>
      let m' := match m with
                | None => distance_km r
                | Some c => np_maximum c (distance_km r)
                end in
      (if Qgtb (distance_km r) p then [(r, m', p)] else [])
        ++ scan m' (Some m') t
  end.

Definition day (t : DailyExtent * Q * Q) : Z := date_only (fst (fst t)).

(** The cells of an output row that come from the filtered frame. *)
Definition core (e : Breakthrough) : DailyExtent * Q * Q :=
  (row e, max_distance e, prev_max e).

(** Two satellites reporting on the same day, the second further out. *)
Definition same_day_rows : list DailyExtent :=
  [ mkDailyExtent 19723 "SNPP" 1 10 0 0 1;
    mkDailyExtent 19723 "NOAA20" (3 # 2) 12 0 0 2 ].

End Speed.

(** ** The log of [process_download] *)
Module DownloadLog.
Import Firms Download.

(** The source a log line is about. *)
Definition entry_source (e : log_entry) : source_id :=
  match e with
  | ApiError src _ => src
  | NoData src => src
  | Merged src _ _ => src
  end.

(** An archive whose rows have numeric coordinates. *)
Definition numeric_coordinates (r : Detection) : Prop :=
  exists la lo, latitude r = Num la /\ longitude r = Num lo.

Definition no_files : files := fun _ => None.

Definition modis_only : files :=
  fun s => match s with
           | MODIS_NRT => Some old_archive
           | _ => None
           end.

End DownloadLog.

(** ** LavaFlow_speed.py: the report of [get_layout] *)
Module SpeedReport.
Import Pandas Speed.

(** [Series.isna()] on one cell. *)
Definition isna (x : float64) : bool :=
  match x with
  | NaN => true
  | _ => false
  end.

(** The larger of two cells that are not NaN. *)
Definition fmax (a b : float64) : float64 :=
  match a, b with
  | NaN, x => x
  | x, NaN => x
  | PInf, _ => PInf
  | _, PInf => PInf
  | NInf, x => x
  | x, NInf => x
  | Fin x, Fin y => Fin (np_maximum x y)
  end.

(** The sum of two cells. *)
Definition fadd (a b : float64) : float64 :=
  match a, b with
  | NaN, _ => NaN
  | _, NaN => NaN
  | PInf, NInf => NaN
  | NInf, PInf => NaN
  | PInf, _ => PInf
  | _, PInf => PInf
  | NInf, _ => NInf
  | _, NInf => NInf
  | Fin x, Fin y => Fin (x + y)
  end.

Definition dropna (l : list float64) : list float64 :=
  filter (fun x => negb (isna x)) l.

(** [Series.max()]: the largest cell that is not NaN, NaN when there is
    none. *)
Definition series_max (l : list float64) : float64 :=
  fold_left fmax (dropna l) NaN.

(** [Series.mean()]: the sum of the cells that are not NaN over their
    number, NaN when there is none. *)
Definition series_mean (l : list float64) : float64 :=
  match dropna l with
  | [] => NaN
  | x :: rest =>
      truediv (fold_left fadd (x :: rest) (Fin 0))
              (Fin (inject_Z (Z.of_nat (List.length (x :: rest)))))
  end.

(** [max()] and [min()] of a column that has a first cell. *)
Definition column_max (x : Q) (l : list Q) : Q := fold_left np_maximum l x.
Definition date_min (x : Z) (l : list Z) : Z := fold_left Z.min l x.
Definition date_max (x : Z) (l : list Z) : Z := fold_left Z.max l x.

(** What the page shows: the "no propagation data" message, or the period
    in the title and the three numbers of the propagation summary. *)
Inductive report : Type :=
| NoPropagation
| Propagation (start_date end_date : Z) (max_dist : Q)
              (max_speed avg_speed : float64).

(** [get_layout], lines 74-105. *)
Definition get_layout (input_file : option (list DailyExtent)) : report :=
  match process_speed_data input_file with
  | None => NoPropagation
  | Some [] => NoPropagation
  | Some (e :: rest) =>
      let data := e :: rest in
      let speeds := map speed data in
      let all_na := forallb isna speeds in
      Propagation
        (date_min (date e) (map date rest))
        (date_max (date e) (map date rest))
        (column_max (max_distance e) (map max_distance rest))
        (if negb all_na then series_max speeds else Fin 0)
        (if negb all_na then series_mean speeds else Fin 0)
  end.

End SpeedReport.

(** ** LavaFlow_mapper.py: reading the archives *)
Module MapperLoad.
Import Pandas Firms Mapper.

(** The seconds since midnight an HHMM integer stands for, when its hour is
    at most 23 and its minute at most 59. *)
Definition hhmm_seconds (n : nat) : option Z :=
  if ((n / 100 <=? 23) && (n mod 100 <=? 59))%nat
  then Some (3600 * Z.of_nat (n / 100) + 60 * Z.of_nat (n mod 100))%Z
  else None.

Definition hhmm_agrees (n : nat) : bool :=
  match strptime_HM (zfill 4 (NilEmpty.string_of_uint (Nat.to_uint n))),
        hhmm_seconds n with
  | Some a, Some b => (a =? b)%Z
  | None, None => true
  | _, _ => false
  end.

(** The rows of the files matching the pattern of [c], in file order. *)
Definition rows_of (glob : string -> list (list Detection)) (c : sat_config)
  : list Detection :=
  List.concat (glob (pattern c)).

(** The cells of a row of [comb] other than its [date]. *)
Definition tagged_cells (t : Tagged) : Detection * string * Z :=
  (det t, satellite t, source t).

(** [tag_row] on a row whose time parses. *)
Definition tag_parsed (c : sat_config) (r : Detection) : Tagged :=
  {| det := coerce_columns r;
     date := match timestamp r with Some t => t | None => 0%Z end;
     satellite := name c; source := id c |}.

(** An SNPP archive whose second row carries the time 2460. *)
Definition bad_time_archive (p : string) : list (list Detection) :=
  if String.eqb p "*SNPP*.csv"
  then [[ mkDetection (Num 0) (Num (1 # 100)) 19724 1200 (Num 20) (Num (3 # 10));
          mkDetection (Num 0) (Num (1 # 100)) 19724 2460 (Num 20) (Num (3 # 10)) ]]
  else [].

End MapperLoad.

(** ** LavaFlow_mapper.py: the daily maximum per satellite (lines 101-107) *)
Module DailySummary.
Import Pandas.

(** [daily_max['date'].dt.date]: the day of a timestamp in seconds. *)
Definition dt_date (f : Mapper.FilteredDetection) : Z :=
  (Mapper.date (Mapper.tagged f) / 86400)%Z.

(** The group a row falls in: [groupby(['date_only', 'satellite'])]. *)
Definition group_key (f : Mapper.FilteredDetection) : Z * string :=
  (dt_date f, Mapper.satellite (Mapper.tagged f)).

(** The order the group keys are sorted in: by day, then by name. *)
Definition key_compare (a b : Z * string) : comparison :=
  match (fst a ?= fst b)%Z with
  | Eq => String.compare (snd a) (snd b)
  | c => c
  end.

Definition key_eqb (a b : Z * string) : bool :=
  (fst a =? fst b)%Z && String.eqb (snd a) (snd b).

Fixpoint insert_key (k : Z * string) (l : list (Z * string))
  : list (Z * string) :=
  match l with
  | [] => [k]
  | h :: t =>
      match key_compare k h with
      | Lt => k :: l
      | Eq => l
      | Gt => h :: insert_key k t
      end
  end.

(** The distinct group keys, sorted. *)
Definition group_keys (rows : list Mapper.FilteredDetection)
  : list (Z * string) :=
  fold_right (fun f acc => insert_key (group_key f) acc) [] rows.

(** ['max'] on float cells: the largest cell that is not NaN. *)
Definition max_cell (acc x : option R) : option R :=
  match acc, x with
  | None, y => y
  | Some a, None => Some a
  | Some a, Some b => Some (Rmax a b)
  end.

Definition agg_max (l : list (option R)) : option R :=
  fold_left max_cell l None.

Definition max_cell_Q (acc x : option Q) : option Q :=
  match acc, x with
  | None, y => y
  | Some a, None => Some a
  | Some a, Some b => Some (np_maximum a b)
  end.

Definition agg_max_Q (l : list (option Q)) : option Q :=
  fold_left max_cell_Q l None.

(** ['first']: the first cell of the group that is not NaN. *)
Fixpoint agg_first {A : Type} (l : list (option A)) : option A :=
  match l with
  | [] => None
  | Some x :: _ => Some x
  | None :: t => agg_first t
  end.

(** One row of max_distance_per_day_VIIRS.csv. *)
Record DailyMax : Type := mkDailyMax {
  date_only : Z;
  satellite : string;
  distance_km : option R;
  frp : option Q;
  latitude : option Q;
  longitude : option Q;
  source : option Z
}.

Definition group_of (rows : list Mapper.FilteredDetection) (k : Z * string)
  : list Mapper.FilteredDetection :=
  filter (fun f => key_eqb (group_key f) k) rows.

Definition aggregate (rows : list Mapper.FilteredDetection) (k : Z * string)
  : DailyMax :=
  let g := map Mapper.tagged (group_of rows k) in
  {| date_only := fst k;
     satellite := snd k;
     distance_km := agg_max (map Mapper.distance_km (group_of rows k));
     frp := agg_max_Q
              (map (fun t => Firms.to_numeric (Firms.frp (Mapper.det t))) g);
     latitude := agg_first
              (map (fun t => Firms.to_numeric (Firms.latitude (Mapper.det t))) g);
     longitude := agg_first
              (map (fun t => Firms.to_numeric (Firms.longitude (Mapper.det t))) g);
     source := agg_first (map (fun t => Some (Mapper.source t)) g) |}.

(** [summary]: one aggregated row per group, in key order. *)
Definition summary (filtered : list Mapper.FilteredDetection) : list DailyMax :=
  map (aggregate filtered) (group_keys filtered).

Definition key_lt (a b : Z * string) : Prop := key_compare a b = Lt.

(** The group key a summary row stands for. *)
Definition day_key (s : DailyMax) : Z * string := (date_only s, satellite s).

(** Two satellites on one day, one of them twice. *)
Definition two_satellites : list Mapper.FilteredDetection :=
  [ Mapper.mkFiltered
      (Mapper.mkTagged
         (Firms.mkDetection (Firms.Num 0) (Firms.Num 0) 19723 10
                            (Firms.Num 10) (Firms.Num (3 # 10)))
         1704067800 "SNPP" 1) (Some 1%R);
    Mapper.mkFiltered
      (Mapper.mkTagged
         (Firms.mkDetection (Firms.Num 0) (Firms.Num 0) 19723 130
                            (Firms.Num 30) (Firms.Num (3 # 10)))
         1704072600 "NOAA20" 2) (Some 2%R);
    Mapper.mkFiltered
      (Mapper.mkTagged
         (Firms.mkDetection (Firms.Num 0) (Firms.Num 0) 19723 1210
                            (Firms.Num 20) (Firms.Num (3 # 10)))
         1704111000 "SNPP" 1) (Some 3%R) ].

End DailySummary.

(** ** The configuration loader ([load_global_config] of FIRMS_download.py,
    LavaFlow_mapper.py and LavaFlow_speed.py) *)
Module Config.
Import Mapper.

(** Text is ASCII.  The characters [str.strip()] removes. *)
Definition is_space (c : ascii) : bool :=
  let n := nat_of_ascii c in
  (((9 <=? n) && (n <=? 13)) || ((28 <=? n) && (n <=? 32)))%nat.

(** [str.lstrip()], [str.rstrip()] and [str.strip()]. *)
Fixpoint lstrip (s : string) : string :=
  match s with
  | EmptyString => EmptyString
  | String c t => if is_space c then lstrip t else s
  end.

Fixpoint rstrip (s : string) : string :=
  match s with
  | EmptyString => EmptyString
  | String c t =>
      match rstrip t with
      | EmptyString => if is_space c then EmptyString else String c EmptyString
      | r => String c r
      end
  end.

Definition strip (s : string) : string := rstrip (lstrip s).

(** [c in s] for a one-character [c]. *)
Fixpoint contains (c : ascii) (s : string) : bool :=
  match s with
  | EmptyString => false
  | String a t => Ascii.eqb a c || contains c t
  end.

(** [s.startswith("#")] *)
Definition is_comment (s : string) : bool :=
  match s with
  | String "#"%char _ => true
  | _ => false
  end.

(** [s.split("=", 1)] on a string that holds "=". *)
Fixpoint split_eq (s : string) : string * string :=
  match s with
  | EmptyString => (EmptyString, EmptyString)
  | String c t =>
      if Ascii.eqb c "="%char then (EmptyString, t)
      else let (k, v) := split_eq t in (String c k, v)
  end.

(** [str.lower()] *)
Definition lower_char (c : ascii) : ascii :=
  let n := nat_of_ascii c in
  if ((65 <=? n) && (n <=? 90))%nat then ascii_of_nat (n + 32) else c.

Fixpoint lower (s : string) : string :=
  match s with
  | EmptyString => EmptyString
  | String c t => String (lower_char c) (lower t)
  end.

(** The stripped key and value of a line that is read, [None] for a line
    that is skipped. *)
Definition parse_line (raw : string) : option (string * string) :=
  let line := strip raw in
  if contains "="%char line && negb (is_comment line)
  then let (key, value) := split_eq line in Some (strip key, strip value)
  else None.

(** [config[k] = v] *)
Definition assign (cfg : config) (k : string) (v : value) : config :=
  fun k' => if String.eqb k' k then Some v else cfg k'.

Definition empty : config := fun _ => None.

Section Loader.
(** Python's [float] and [int] on text, [None] where they raise ValueError. *)
Variable py_float : string -> option Q.
Variable py_int : string -> option Z.

(** Lines 33-41 of the mapper: the value stored for the text [val]. *)
Definition classify (val : string) : value :=
  if String.eqb (lower val) "true" then VBool true
  else if String.eqb (lower val) "false" then VBool false
  else if contains "."%char val
       then match py_float val with
            | Some q => VFloat q
            | None => VStr val
            end
       else match py_int val with
            | Some z => VInt z
            | None => VStr val
            end.

Definition read_line (cfg : config) (raw : string) : config :=
  match parse_line raw with
  | Some (k, v) => assign cfg k (classify v)
  | None => cfg
  end.

(** [load_global_config] of LavaFlow_mapper.py and LavaFlow_speed.py;
    [config_txt] is the lines of config.txt, [None] when the file is
    missing. *)
Definition load_global_config (config_txt : option (list string)) : config :=
  match config_txt with
  | None => empty
  | Some lines => fold_left read_line lines empty
  end.

(** [default_params] of FIRMS_download.py. *)
Definition default_params : list (string * value) :=
  [ ("volcano", VStr "Volcano Name");
    ("lats_vent", VFloat 0);
    ("longs_vent", VFloat 0);
    ("start_day_str", VStr "01/01/2024 00:00");
    ("end_day_str", VStr "01/01/2026 00:00");
    ("filter_frp", VInt 0);
    ("filter_track", VFloat (1 # 2));
    ("map_key", VStr "INSERT_YOUR_MAP_KEY_HERE");
    ("include_reference_radius", VBool true);
    ("ref_radius_m", VInt 3000);
    ("include_shapefile", VBool false);
    ("shapefile_path", VStr "");
    ("include_reference_waypoint", VBool false);
    ("wpt_names", VStr "Reference Point");
    ("wpt_lats", VStr "0.0");
    ("wpt_lons", VStr "0.0");
    ("wpt_symbols", VStr "circle") ]%string.

(** The dictionary an association list stands for (first entry wins; the
    keys of [default_params] are distinct). *)
Fixpoint dict (l : list (string * value)) : config :=
  match l with
  | [] => empty
  | (k, v) :: t => fun k' => if String.eqb k' k then Some v else dict t k'
  end.

(** The lines [f.write(f"{key}={value}\n")] produces for [default_params],
    each ending in the newline character. *)
Definition newline : string := String (ascii_of_nat 10) EmptyString.

Definition default_lines : list string :=
  map (fun s => append s newline)
  [ "volcano=Volcano Name";
    "lats_vent=0.0";
    "longs_vent=0.0";
    "start_day_str=01/01/2024 00:00";
    "end_day_str=01/01/2026 00:00";
    "filter_frp=0";
    "filter_track=0.5";
    "map_key=INSERT_YOUR_MAP_KEY_HERE";
    "include_reference_radius=True";
    "ref_radius_m=3000";
    "include_shapefile=False";
    "shapefile_path=";
    "include_reference_waypoint=False";
    "wpt_names=Reference Point";
    "wpt_lats=0.0";
    "wpt_lons=0.0";
    "wpt_symbols=circle" ]%string.

(** [final_config = default_params.copy(); final_config.update(config)] *)
Definition update (base over : config) : config :=
  fun k => match over k with
           | Some v => Some v
           | None => base k
           end.

(** [load_global_config] of FIRMS_download.py: the configuration returned
    and the content of config.txt afterwards. *)
Definition load_global_config_firms (config_txt : option (list string))
  : config * list string :=
  match config_txt with
  | None => (dict default_params, default_lines)
  | Some lines =>
      (update (dict default_params) (fold_left read_line lines empty), lines)
  end.

End Loader.

(** The value of the last line that assigns [k], if any. *)
Fixpoint last_assignment (k : string) (lines : list string) : option string :=
  match lines with
  | [] => None
  | raw :: rest =>
      match last_assignment k rest with
      | Some v => Some v
      | None =>
          match parse_line raw with
          | Some (k', v) => if String.eqb k k' then Some v else None
          | None => None
          end
      end
  end.

(** [float] and [int] on the texts of [default_lines], for examples. *)
Definition float_of_defaults (s : string) : option Q :=
  if String.eqb s "0.0" then Some 0
  else if String.eqb s "0.5" then Some (1 # 2)
  else None.

Definition int_of_defaults (s : string) : option Z :=
  if String.eqb s "0" then Some 0%Z
  else if String.eqb s "3000" then Some 3000%Z
  else None.

End Config.

(** ** FIRMS_download.py: the bounding box *)
Module Bbox.

(** [round(x, 5)] on a finite float read as a real: the nearest multiple of
    1e-5, a tie going to the even one. *)
Definition rint_R (x : R) : Z :=
  let f := Int_part x in
  let d := (x - IZR f)%R in
  if Rlt_dec d (1 / 2) then f
  else if Rlt_dec (1 / 2) d then (f + 1)%Z
  else if Z.even f then f else (f + 1)%Z.

Definition round5 (x : R) : R := (IZR (rint_R (x * 100000)) / 100000)%R.

(** The list [bbox] of [calculate_bbox]: min_lon, min_lat, max_lon, max_lat
    (the function returns these four numbers joined by commas). *)
Definition bbox (lat lon radius_m : R) : list R :=
  let lat_offset := (radius_m / 111320)%R in
  let lon_offset := (radius_m / (111320 * cos (lat * (PI / 180))))%R in
  [ round5 (lon - lon_offset);
    round5 (lat - lat_offset);
    round5 (lon + lon_offset);
    round5 (lat + lat_offset) ].

(** [days] of [process_download] for a start and an end day. *)
Definition request_days (start_date end_date : Z) : Z :=
  let days := (end_date - start_date + 1)%Z in
  if (days <? 1)%Z then 1%Z else days.

End Bbox.

(** ** Anomalies_count.py: the weekly bins of [update_charts] *)
Module Weekly.

(** [dt.dayofweek] of a day number: Monday is 0; day 0 (1970-01-01) was a
    Thursday. *)
Definition dayofweek (d : Z) : Z := ((d + 3) mod 7)%Z.

(** [acq_date - to_timedelta((dayofweek - week_day) % 7, unit='d')] *)
Definition week_label (week_day d : Z) : Z :=
  (d - (dayofweek d - week_day) mod 7)%Z.

End Weekly.

(** ** LavaFlow_mapper.py: [get_layout] with its date window *)
Module MapperRun.
Import Pandas Firms Mapper.

(** What [pd.to_datetime(v, dayfirst=True)] hands back for one value. *)
Inductive datetime : Type :=
| Timestamp (t : Q)    (* a time without zone, in seconds since the epoch *)
| NaT
| Unordered.           (* None, or a time with a zone: ordering the date
                          column against it raises TypeError *)

(** [comb['date'] >= start_dt] and [comb['date'] <= end_dt] as tests on the
    [date] cell; [None]: the comparison raises.  Against NaT every row
    compares false. *)
Definition date_ge (start_dt : datetime) : option (Z -> bool) :=
  match start_dt with
  | Timestamp t => Some (fun d => Qle_bool t (inject_Z d))
  | NaT => Some (fun _ => false)
  | Unordered => None
  end.

Definition date_le (end_dt : datetime) : option (Z -> bool) :=
  match end_dt with
  | Timestamp t => Some (fun d => Qle_bool (inject_Z d) t)
  | NaT => Some (fun _ => false)
  | Unordered => None
  end.

(** The mask of lines 84-86 on one row, the two date tests given. *)
Definition mask (filter_track filter_frp : Q) (ge_start le_end : Z -> bool)
           (r : Tagged) : bool :=
  cell_le (track (det r)) filter_track
  && cell_ge (frp (det r)) filter_frp
  && ge_start (date r) && le_end (date r).

(** The mask for a window of two timestamps. *)
Definition window_mask (filter_track filter_frp start_dt end_dt : Q)
  : Tagged -> bool :=
  mask filter_track filter_frp
       (fun d => Qle_bool start_dt (inject_Z d))
       (fun d => Qle_bool (inject_Z d) end_dt).

Section Run.

(** [pd.to_datetime(v, dayfirst=True)] on what [cfg.get(key)] returns, a
    value or None for a missing key; the result [None]: it raises. *)
Variable to_datetime : option value -> option datetime.

(** [get_layout], lines 73-99. *)
Definition get_layout (cfg : config)
           (glob : string -> list (list Detection)) : layout :=
  let LATS_vent := get cfg "lats_vent" (VFloat 0) in
  let LONGS_vent := get cfg "longs_vent" (VFloat 0) in
  match load_and_tag_data glob with
  | None => Raised
  | Some [] => NoDataFiles
  | Some comb =>
      match to_datetime (cfg "start_day_str"%string),
            to_datetime (cfg "end_day_str"%string) with
      | Some start_dt, Some end_dt =>
          match as_number (get cfg "filter_track" (VFloat 1)),
                as_number (get cfg "filter_frp" (VFloat 0)),
                date_ge start_dt, date_le end_dt with
          | Some filter_track, Some filter_frp, Some ge_start, Some le_end =>
              let filtered :=
                sort_values date
                  (filter (mask filter_track filter_frp ge_start le_end)
                          comb) in
              match filtered with
              | [] => NoAnomalies
              | _ :: _ =>
                  match as_number LATS_vent, as_number LONGS_vent with
                  | Some lat, Some lon =>
                      Report (map (tag_distance lat lon) filtered)
                  | _, _ => Raised
                  end
              end
          | _, _, _, _ => Raised
          end
      | _, _ => Raised
      end
  end.

End Run.

(** The run once thresholds, reference point and window are in hand. *)
Definition proceed (comb : list Tagged) (filter_track filter_frp : Q)
           (lat lon : Q) (start_dt end_dt : Q) : layout :=
  match comb with
  | [] => NoDataFiles
  | _ :: _ =>
      match sort_values date
              (filter (window_mask filter_track filter_frp start_dt end_dt)
                      comb) with
      | [] => NoAnomalies
      | r :: rest => Report (map (tag_distance lat lon) (r :: rest))
      end
  end.



End MapperRun.
(** ** FIRMS_download.py: requests and replies that fail *)
Module DownloadReply.
Import Firms Download DownloadLog.

(** What lines 115-121 make of the body of a reply. *)
Inductive csv : Type :=
| Unreadable                      (* an exception: [pd.read_csv] raises
                                     EmptyDataError on an empty body; a frame
                                     with rows but no acq_time or acq_date
                                     column raises KeyError *)
| Frame (rows : list Detection).  (* the frame read, without rows when the
                                     body holds a header line only *)

(** What [requests.get(url)] gives for one source. *)
Inductive reply : Type :=
| RequestError                    (* the call raises *)
| Reply (status_code : Z) (body : csv).

(** One line of the returned log: a line of the [try] block, or the line
    of the [except] branch (line 151). *)
Inductive log_line : Type :=
| Line (entry : log_entry)
| Error (src : source_id).

(** One iteration of the loop over [sources], lines 107-151. *)
Definition process_source (src : source_id) (r : reply)
           (file : option (list Detection))
  : option (list Detection) * log_line :=
  match r with
  | RequestError => (file, Error src)
  | Reply status_code body =>
      if negb (status_code =? 200)%Z
      then (file, Line (ApiError src status_code))
      else
        match body with
        | Unreadable => (file, Error src)
        | Frame [] => (file, Line (NoData src))
        | Frame df_new =>
            let current_batch_count := List.length df_new in
            let df_final := merge_frames file df_new in
            (Some df_final,
             Line (Merged src current_batch_count (List.length df_final)))
        end
  end.

Fixpoint download_loop (api : source_id -> reply) (srcs : list source_id)
         (fs : files) (log : list log_line) : files * list log_line :=
  match srcs with
  | [] => (fs, log)
  | src :: rest =>
      let '(f, line) := process_source src (api src) (fs src) in
      download_loop api rest (write fs src f) (log ++ [line])
  end.

Definition process_download (api : source_id -> reply) (fs : files)
  : files * list log_line :=
  download_loop api sources fs [].

(** The ways an iteration ends without a merge, with the line it logs. *)
Inductive no_merge (src : source_id) : reply -> log_line -> Prop :=
| request_raises : no_merge src RequestError (Error src)
| api_error (status_code : Z) (body : csv) :
    status_code <> 200%Z ->
    no_merge src (Reply status_code body) (Line (ApiError src status_code))
| body_unreadable : no_merge src (Reply 200 Unreadable) (Error src)
| no_rows : no_merge src (Reply 200 (Frame [])) (Line (NoData src)).

(** Example: the SNPP reply is HTTP 200 with an empty body, the other
    sources answer with one row. *)
Definition snpp_empty_body (s : source_id) : reply :=
  match s with
  | VIIRS_SNPP_NRT => Reply 200 Unreadable
  | _ => Reply 200 (Frame [spot_b])
  end.

End DownloadReply.
(** ** FIRMS_download.py: the rounded coordinates in float64 *)
Module DownloadFloat.
Import Firms Download.

(** The unit roundoff of float64, 2^-53. *)
Definition u : Q := 1 # 9007199254740992.

Section Rounding.

(** The float64 a product is stored as: [fl y] for the exact product [y]. *)
Variable fl : Q -> Q.

(** [Series.round(4)] as numpy computes it, [rint(x * 10**4) / 10**4]: the
    product is a float64 before [rint] sees it.  The result is kept as the
    integer [rint] returns; between -1800000 and 1800000 two of them give
    the same quotient only when they are equal. *)
Definition round4 (x : Q) : Z := rint (fl (x * 10000)).

(** The [subset] columns of [drop_duplicates] with that rounding. *)
Definition key (r : Detection) : subset_key :=
  (option_map round4 (to_numeric (latitude r)),
   option_map round4 (to_numeric (longitude r)),
   acq_date r, acq_time_str r).

End Rounding.

(** Products stored without error, for examples. *)
Definition exact (y : Q) : Q := y.

End DownloadFloat.
(** ** LavaFlow_speed.py: empty cells, and same-day rows in any order *)
Module SpeedFrame.
Import Pandas.

(** One row of max_distance_per_day_VIIRS.csv.  A float cell is a number,
    or NaN ([None]) where the file has an empty cell: the mapper writes one
    for a (day, satellite) group whose rows have no numeric coordinates. *)
Record DailyExtent : Type := mkDailyExtent {
  date_only : Z;          (* calendar day *)
  satellite : string;
  distance_km : option Q;
  frp : option Q;
  latitude : option Q;
  longitude : option Q;
  source : Z
}.

(** One row of LavaFlow_propagation.csv. *)
Record Breakthrough : Type := mkBreakthrough {
  row : DailyExtent;
  date : Z;               (* seconds since the epoch, midnight of date_only *)
  max_distance : option Q;
  prev_max : option Q;
  time_diff : float64;
  distance_diff : float64;
  speed : float64
}.

(** [Series.cummax()] (skipna): a NaN cell stays NaN, and the running
    maximum goes on from the numbers before it.  [m] is the maximum so far,
    [None] before the first number. *)
Fixpoint cummax_from (m : option Q) (xs : list (option Q))
  : list (option Q) :=
  match xs with
  | [] => []
  | None :: t => None :: cummax_from m t
  | Some x :: t =>
      let m' := match m with
                | None => x
                | Some c => np_maximum c x
                end in
      Some m' :: cummax_from (Some m') t
  end.

Definition cummax (xs : list (option Q)) : list (option Q) :=
  cummax_from None xs.

(** [a > b] on two cells: false when either is NaN. *)
Definition cell_gt (a b : option Q) : bool :=
  match a, b with
  | Some x, Some y => Qgtb x y
  | _, _ => false
  end.

(** [(a - b) * 1000] on two cells. *)
Definition metres (a b : option Q) : float64 :=
  match a, b with
  | Some x, Some y => Fin ((x - y) * 1000)
  | _, _ => NaN
  end.

Definition cell_float (c : option Q) : float64 :=
  match c with
  | Some x => Fin x
  | None => NaN
  end.

(** [df[df['distance_km'] > df['prev_max']]] on one row with its
    [max_distance] and [prev_max] cells. *)
Definition is_breakthrough (t : DailyExtent * option Q * option Q) : bool :=
  cell_gt (distance_km (fst (fst t))) (snd t).

Definition finish (t : DailyExtent * option Q * option Q) (dt : option Z)
  : Breakthrough :=
  let '(r, m, p) := t in
  let td := Speed.hours dt in
  let dd := metres m p in
  {| row := r; date := Speed.to_datetime (date_only r);
     max_distance := m; prev_max := p;
     time_diff := td; distance_diff := dd;
     speed := truediv dd td |}.

Definition speed_columns (processed : list (DailyExtent * option Q * option Q))
  : list Breakthrough :=
  let dates :=
    map (fun t => Speed.to_datetime (date_only (fst (fst t)))) processed in
  Speed.zip_with finish processed (diff dates).

(** What the page shows: the "no propagation data" message, or the period
    in the title and the three numbers of the propagation summary. *)
Inductive report : Type :=
| NoPropagation
| Propagation (start_date end_date : Z)
              (max_dist max_speed avg_speed : float64).

Section Frame.

(** [df.sort_values('date')]: the rows in ascending order of date.  Which
    of the rows of one date comes first is left to the sorting algorithm
    (quicksort unless told otherwise, which is not stable). *)
Variable sort_values : list DailyExtent -> list DailyExtent.

(** The frame after lines 46-53: each row with its [max_distance] and
    [prev_max] cells. *)
Definition with_columns (csv : list DailyExtent)
  : list (DailyExtent * option Q * option Q) :=
  let df := sort_values csv in
  let max_distance := cummax (map distance_km df) in
  let prev_max := shift (Some 0) max_distance in
  combine (combine df max_distance) prev_max.

(** [process_speed_data]: [None] when the input file does not exist. *)
Definition process_speed_data (input_file : option (list DailyExtent))
  : option (list Breakthrough) :=
  match input_file with
  | None => None
  | Some csv =>
      let processed := filter is_breakthrough (with_columns csv) in
      Some (speed_columns processed)
  end.

(** [get_layout], lines 74-105. *)
Definition get_layout (input_file : option (list DailyExtent)) : report :=
  match process_speed_data input_file with
  | None => NoPropagation
  | Some [] => NoPropagation
  | Some (e :: rest) =>
      let data := e :: rest in
      let speeds := map speed data in
      let all_na := forallb SpeedReport.isna speeds in
      Propagation
        (SpeedReport.date_min (date e) (map date rest))
        (SpeedReport.date_max (date e) (map date rest))
        (SpeedReport.series_max
           (map (fun x => cell_float (max_distance x)) data))
        (if negb all_na then SpeedReport.series_max speeds else Fin 0)
        (if negb all_na then SpeedReport.series_mean speeds else Fin 0)
  end.

End Frame.

(** Lines 50-54 read row by row: [p] is the [prev_max] cell of the next
    row, [m] the running maximum so far. *)
Fixpoint scan (p m : option Q) (df : list DailyExtent)
  : list (DailyExtent * option Q * option Q) :=
  match df with
  | [] => []
  | r :: t =>
      match distance_km r with
      | None => scan None m t
      | Some x =>
          let m' := match m with
                    | None => x
                    | Some c => np_maximum c x
                    end in
          (if cell_gt (Some x) p then [(r, Some m', p)] else [])
            ++ scan (Some m') (Some m') t
      end
  end.

(** The cells of an output row that come from the filtered frame. *)
Definition core (e : Breakthrough) : DailyExtent * option Q * option Q :=
  (row e, max_distance e, prev_max e).

(** A frame in ascending order of date. *)
Definition by_date (df : list DailyExtent) : Prop :=
  StronglySorted (fun a b => (date_only a <= date_only b)%Z) df.

(** Successive output rows: each [prev_max] is a number strictly below the
    row's [max_distance] and at least [lo], the [max_distance] of the row
    before. *)
Fixpoint rising (lo : Q) (evs : list (DailyExtent * option Q * option Q))
  : Prop :=
  match evs with
  | [] => True
  | t :: rest =>
      exists x q, snd (fst t) = Some x /\ snd t = Some q
                  /\ lo <= q /\ q < x /\ rising x rest
  end.

(** The same with each [prev_max] equal to the [max_distance] before. *)
Fixpoint chained (lo : Q) (evs : list (DailyExtent * option Q * option Q))
  : Prop :=
  match evs with
  | [] => True
  | t :: rest =>
      exists x q, snd (fst t) = Some x /\ snd t = Some q
                  /\ q == lo /\ chained x rest
  end.

(** One of the orders [sort_values] may produce: rows of one date in the
    order of the file. *)
Definition in_file_order (csv : list DailyExtent) : list DailyExtent :=
  Pandas.sort_values (fun r => Speed.to_datetime (date_only r)) csv.

(** Distances 1, empty, 2, 3 on four successive days. *)
Definition gap_days : list DailyExtent :=
  [ mkDailyExtent 19723 "SNPP" (Some 1) (Some 10) (Some 0) (Some 0) 1;
    mkDailyExtent 19724 "SNPP" None None None None 1;
    mkDailyExtent 19725 "SNPP" (Some 2) (Some 11) (Some 0) (Some 0) 1;
    mkDailyExtent 19726 "SNPP" (Some 3) (Some 12) (Some 0) (Some 0) 1 ].

(** Three days of growth seen by one satellite. *)
Definition three_days : list DailyExtent :=
  [ mkDailyExtent 19723 "SNPP" (Some 1) (Some 10) (Some 0) (Some 0) 1;
    mkDailyExtent 19724 "SNPP" (Some (1 # 2)) (Some 11) (Some 0) (Some 0) 1;
    mkDailyExtent 19725 "SNPP" (Some (22 # 10)) (Some 12) (Some 0) (Some 0) 1 ].

End SpeedFrame.

(** * Properties *)

Unset Implicit Arguments.

(** ** Sorting *)
Section SortFacts.
Import Pandas.
Variable A : Type.
Variable key : A -> Z.

Lemma insert_row_perm (x : A) (l : list A) :
  Permutation (x :: l) (insert_row key x l).
Proof.
  induction l as [|y t IH]; simpl; [reflexivity|].
  destruct (key y <? key x)%Z; [|reflexivity].
  rewrite perm_swap. now constructor.
Qed.

Lemma sort_values_perm (l : list A) : Permutation l (sort_values key l).
Proof.
  induction l as [|x t IH]; simpl; [constructor|].
  rewrite <- insert_row_perm. now constructor.
Qed.

Lemma insert_row_sorted (x : A) (l : list A) :
  StronglySorted (le_key key) l ->
  StronglySorted (le_key key) (insert_row key x l).
Proof.
  induction 1 as [|y t Hs IH Hall]; simpl.
  - repeat constructor.
  - destruct (key y <? key x)%Z eqn:E.
    + constructor; [exact IH|].
      apply (Permutation_Forall (insert_row_perm x t)).
      constructor; [unfold le_key; lia|exact Hall].
    + constructor; [now constructor|].
      apply Z.ltb_ge in E. constructor; [exact E|].
      eapply Forall_impl; [|exact Hall].
      unfold le_key. intros; lia.
Qed.

Lemma sort_values_sorted (l : list A) :
  StronglySorted (le_key key) (sort_values key l).
Proof.
  induction l as [|x t IH]; simpl; [constructor|].
  now apply insert_row_sorted.
Qed.

Lemma sort_values_In (l : list A) (x : A) :
  In x (sort_values key l) <-> In x l.
Proof.
  split; apply Permutation_in;
    [symmetry|]; apply sort_values_perm.
Qed.
End SortFacts.

(** ** Breakthrough tracking (LavaFlow_speed.py) *)
Section SpeedFacts.
Import Pandas Speed.

Lemma Qgtb_true (a b : Q) : Qgtb a b = true <-> b < a.
Proof.
  unfold Qgtb. rewrite negb_true_iff.
  split; intro H.
  - apply Qnot_le_lt. intro Hle. apply Qle_bool_iff in Hle. congruence.
  - destruct (Qle_bool a b) eqn:E; [|reflexivity].
    apply Qle_bool_iff in E. exfalso. exact (Qlt_not_le _ _ H E).
Qed.

Lemma Qltb_true (a b : Q) : Qltb a b = true <-> a < b.
Proof. exact (Qgtb_true b a). Qed.

Lemma np_maximum_ge (a b : Q) : a <= np_maximum a b.
Proof.
  unfold np_maximum. destruct (Qle_bool a b) eqn:E.
  - now apply Qle_bool_iff.
  - apply Qle_refl.
Qed.

Lemma np_maximum_gt (a b : Q) : a < b -> np_maximum a b = b.
Proof.
  intro H. unfold np_maximum.
  destruct (Qle_bool a b) eqn:E; [reflexivity|].
  exfalso. apply Qlt_le_weak in H. apply Qle_bool_iff in H. congruence.
Qed.

Lemma columns_scan_from (df : list DailyExtent) : forall m p,
  filter is_breakthrough
    (combine (combine df (cummax_from m (map distance_km df)))
             (shift p (cummax_from m (map distance_km df))))
  = scan p (Some m) df.
Proof.
  induction df as [|r t IH]; intros m p; simpl; [reflexivity|].
  unfold is_breakthrough at 1; simpl.
  rewrite IH. now destruct (Qgtb (distance_km r) p).
Qed.

Lemma columns_scan (csv : list DailyExtent) :
  filter is_breakthrough (with_columns csv)
  = scan 0 None (sort_values (fun r => to_datetime (date_only r)) csv).
Proof.
  unfold with_columns.
  destruct (sort_values _ csv) as [|r t]; simpl; [reflexivity|].
  unfold is_breakthrough at 1; simpl.
  rewrite columns_scan_from. now destruct (Qgtb (distance_km r) 0).
Qed.

(** Every row emitted after the running maximum reached [p] lies above it. *)
Lemma scan_above (df : list DailyExtent) : forall p,
  Forall (fun t => p < snd (fst t) /\ snd t < snd (fst t))
         (scan p (Some p) df).
Proof.
  induction df as [|r t IH]; intros p; simpl; [constructor|].
  assert (Hrest : Forall (fun t0 => p < snd (fst t0) /\ snd t0 < snd (fst t0))
                    (scan (np_maximum p (distance_km r))
                          (Some (np_maximum p (distance_km r))) t)).
  { eapply Forall_impl; [|apply IH]. intros x [H1 H2]. split; [|exact H2].
    eapply Qle_lt_trans; [apply np_maximum_ge|exact H1]. }
  destruct (Qgtb (distance_km r) p) eqn:E; simpl; [|exact Hrest].
  apply Qgtb_true in E. constructor; [|exact Hrest].
  simpl. rewrite (np_maximum_gt _ _ E). now split.
Qed.

Lemma scan_increasing (df : list DailyExtent) : forall p,
  StronglySorted (fun a b => snd (fst a) < snd (fst b)) (scan p (Some p) df).
Proof.
  induction df as [|r t IH]; intros p; simpl; [constructor|].
  destruct (Qgtb (distance_km r) p) eqn:E; simpl; [|apply IH].
  constructor; [apply IH|].
  eapply Forall_impl; [|apply scan_above]. simpl. now intros x [H _].
Qed.

Lemma scan_first_increasing (df : list DailyExtent) :
  StronglySorted (fun a b => snd (fst a) < snd (fst b)) (scan 0 None df).
Proof.
  destruct df as [|r t]; simpl; [constructor|].
  destruct (Qgtb (distance_km r) 0) eqn:E; simpl;
    [|apply scan_increasing].
  constructor; [apply scan_increasing|].
  eapply Forall_impl; [|apply scan_above]. simpl. now intros x [H _].
Qed.

Lemma scan_first_gap (df : list DailyExtent) :
  Forall (fun t => snd t < snd (fst t)) (scan 0 None df).
Proof.
  destruct df as [|r t]; simpl; [constructor|].
  assert (Hrest : Forall (fun t0 => snd t0 < snd (fst t0))
                    (scan (distance_km r) (Some (distance_km r)) t)).
  { eapply Forall_impl; [|apply scan_above]. simpl. now intros x [_ H]. }
  destruct (Qgtb (distance_km r) 0) eqn:E; simpl; [|exact Hrest].
  constructor; [|exact Hrest]. simpl. now apply Qgtb_true.
Qed.

Lemma scan_rows (df : list DailyExtent) : forall p m x,
  In x (scan p m df) -> In (fst (fst x)) df.
Proof.
  induction df as [|r t IH]; intros p m x; simpl; [tauto|].
  rewrite in_app_iff. intros [H|H].
  - destruct (Qgtb (distance_km r) p); simpl in H; [|tauto].
    destruct H as [<-|[]]. now left.
  - right. eapply IH, H.
Qed.

Lemma scan_days_sorted (df : list DailyExtent) : forall p m,
  StronglySorted (fun a b => (date_only a <= date_only b)%Z) df ->
  StronglySorted (fun a b => (day a <= day b)%Z) (scan p m df).
Proof.
  induction df as [|r t IH]; intros p m Hs; simpl; [constructor|].
  apply StronglySorted_inv in Hs. destruct Hs as [Ht Hall].
  destruct (Qgtb (distance_km r) p); simpl; [|now apply IH].
  constructor; [now apply IH|].
  apply Forall_forall. intros x Hx. apply scan_rows in Hx.
  rewrite Forall_forall in Hall. exact (Hall _ Hx).
Qed.

Lemma sorted_days (csv : list DailyExtent) :
  StronglySorted (fun a b => (date_only a <= date_only b)%Z)
    (sort_values (fun r => to_datetime (date_only r)) csv).
Proof.
  pose proof (sort_values_sorted _ (fun r => to_datetime (date_only r)) csv) as H.
  induction H as [|a l Hs IH Hall]; constructor; [exact IH|].
  eapply Forall_impl; [|exact Hall].
  unfold le_key, to_datetime. intros; lia.
Qed.

Lemma core_finish (t : DailyExtent * Q * Q) (d : option Z) :
  core (finish t d) = t.
Proof. now destruct t as [[r m] p]. Qed.

Lemma later_core (l : list (DailyExtent * Q * Q)) : forall prev,
  map core
    (zip_with finish l
       (diff_from prev (map (fun t => to_datetime (date_only (fst (fst t)))) l)))
  = l.
Proof.
  induction l as [|t l IH]; intros prev; simpl; [reflexivity|].
  now rewrite core_finish, IH.
Qed.

Lemma speed_columns_core (l : list (DailyExtent * Q * Q)) :
  map core (speed_columns l) = l.
Proof.
  destruct l as [|t l]; [reflexivity|].
  unfold speed_columns. simpl. now rewrite core_finish, later_core.
Qed.

Lemma later_nth (l : list (DailyExtent * Q * Q)) : forall prev i a b,
  nth_error (prev :: l) i = Some a ->
  nth_error l i = Some b ->
  nth_error
    (zip_with finish l
       (diff_from (to_datetime (day prev))
          (map (fun t => to_datetime (date_only (fst (fst t)))) l))) i
  = Some (finish b (Some (to_datetime (day b) - to_datetime (day a))%Z)).
Proof.
  induction l as [|t l IH]; intros prev i a b Ha Hb.
  - now destruct i.
  - destruct i as [|i]; simpl in *.
    + now inversion Ha; inversion Hb; subst.
    + now apply IH.
Qed.

Lemma speed_columns_next (l : list (DailyExtent * Q * Q)) i a b :
  nth_error l i = Some a ->
  nth_error l (S i) = Some b ->
  nth_error (speed_columns l) (S i)
  = Some (finish b (Some (to_datetime (day b) - to_datetime (day a))%Z)).
Proof.
  destruct l as [|t l]; [now destruct i|].
  intros Ha Hb. unfold speed_columns. simpl.
  now apply later_nth.
Qed.

Lemma speed_columns_first (l : list (DailyExtent * Q * Q)) e :
  nth_error (speed_columns l) 0 = Some e ->
  exists t, nth_error l 0 = Some t /\ e = finish t None.
Proof.
  destruct l as [|t l]; unfold speed_columns; simpl; [discriminate|].
  intros [= <-]. now exists t.
Qed.

Lemma event_core_nth (l : list (DailyExtent * Q * Q)) i e :
  nth_error (speed_columns l) i = Some e -> nth_error l i = Some (core e).
Proof.
  intro H. rewrite <- (speed_columns_core l) at 1.
  rewrite nth_error_map, H. reflexivity.
Qed.

Lemma finish_date (t : DailyExtent * Q * Q) (d : option Z) :
  date (finish t d) = to_datetime (day t).
Proof. now destruct t as [[r m] p]. Qed.

Lemma finish_time_diff (t : DailyExtent * Q * Q) (d : option Z) :
  time_diff (finish t d) = hours d.
Proof. now destruct t as [[r m] p]. Qed.

Lemma finish_speed (t : DailyExtent * Q * Q) (d : option Z) :
  speed (finish t d)
  = truediv (Fin (distance_diff (finish t d))) (time_diff (finish t d)).
Proof. now destruct t as [[r m] p]. Qed.

Lemma finish_distance_diff (t : DailyExtent * Q * Q) (d : option Z) :
  distance_diff (finish t d)
  = (max_distance (finish t d) - prev_max (finish t d)) * 1000.
Proof. now destruct t as [[r m] p]. Qed.

(** Every output row is [finish] of its own frame cells. *)
Lemma event_shape (l : list (DailyExtent * Q * Q)) e :
  In e (speed_columns l) -> exists d, e = finish (core e) d.
Proof.
  intro H. apply In_nth_error in H. destruct H as [i Hi].
  destruct i as [|i].
  - apply speed_columns_first in Hi. destruct Hi as [t [_ ->]].
    exists None. now rewrite core_finish.
  - pose proof (event_core_nth _ _ _ Hi) as Hc.
    destruct (nth_error l i) as [a|] eqn:Ha.
    + rewrite (speed_columns_next l i a (core e) Ha Hc) in Hi.
      apply (f_equal (fun o => match o with Some x => x | None => e end)) in Hi.
      eexists. symmetry. exact Hi.
    + exfalso. apply nth_error_None in Ha.
      assert (nth_error l (S i) = None) by (apply nth_error_None; lia).
      congruence.
Qed.

Lemma sorted_map {A B : Type} (f : A -> B) (R : B -> B -> Prop) (l : list A) :
  StronglySorted R (map f l) ->
  StronglySorted (fun a b => R (f a) (f b)) l.
Proof.
  induction l as [|x l IH]; simpl; intro H; [constructor|].
  apply StronglySorted_inv in H. destruct H as [Hs Hall].
  constructor; [now apply IH|].
  rewrite Forall_map in Hall. exact Hall.
Qed.

Lemma sorted_combine {A B : Type} (R : A -> A -> Prop) (l : list A) :
  StronglySorted R l -> forall l' : list B,
  StronglySorted (fun a b => R (fst a) (fst b)) (combine l l').
Proof.
  induction 1 as [|x l Hs IH Hall]; intros l'; simpl; [constructor|].
  destruct l' as [|y l']; constructor; [apply IH|].
  apply Forall_forall. intros [a b] Hin. simpl.
  apply in_combine_l in Hin. rewrite Forall_forall in Hall. now apply Hall.
Qed.

Lemma with_columns_sorted (csv : list DailyExtent) :
  StronglySorted (fun a b => (day a <= day b)%Z) (with_columns csv).
Proof.
  unfold with_columns, day.
  apply (sorted_combine
           (fun a b => (date_only (fst a) <= date_only (fst b))%Z)).
  apply (sorted_combine (fun a b => (date_only a <= date_only b)%Z)).
  apply sorted_days.
Qed.

Lemma sorted_app_r {A : Type} (R : A -> A -> Prop) (l l' : list A) :
  StronglySorted R (l ++ l') -> StronglySorted R l'.
Proof.
  induction l as [|x l IH]; simpl; [tauto|].
  intro H. apply StronglySorted_inv in H. now apply IH.
Qed.

Lemma sorted_before {A : Type} (R : A -> A -> Prop) (l l' : list A) b :
  StronglySorted R (l ++ b :: l') -> Forall (fun a => R a b) l.
Proof.
  induction l as [|x l IH]; simpl; intro H; [constructor|].
  apply StronglySorted_inv in H. destruct H as [Hs Hall].
  constructor; [|now apply IH].
  rewrite Forall_forall in Hall. apply Hall, in_elt.
Qed.

End SpeedFacts.

Section SpeedClaims.
Import Pandas Speed.

Lemma sorted_impl_in {A : Type} (R R' : A -> A -> Prop) (l : list A) :
  (forall a b, In a l -> In b l -> R a b -> R' a b) ->
  StronglySorted R l -> StronglySorted R' l.
Proof.
  intros Himp Hs. induction Hs as [|x l Hs IH Hall]; [constructor|].
  constructor.
  - apply IH. intros a b Ha Hb. apply Himp; now right.
  - rewrite Forall_forall in *. intros b Hb.
    apply Himp; [now left|now right|now apply Hall].
Qed.

Lemma event_date (l : list (DailyExtent * Q * Q)) e :
  In e (speed_columns l) -> date e = to_datetime (day (core e)).
Proof.
  intro H. destruct (event_shape _ _ H) as [d Hd].
  rewrite Hd at 1. apply finish_date.
Qed.

(** C5 (amended): the emitted events are strictly increasing in
    [max_distance] (the cumulative maximum) and non-decreasing in [date]. *)
Theorem breakthroughs_increasing (csv : list DailyExtent) :
  exists evs,
    process_speed_data (Some csv) = Some evs
    /\ StronglySorted (fun a b => max_distance a < max_distance b) evs
    /\ StronglySorted (fun a b => (date a <= date b)%Z) evs.
Proof.
  eexists. split; [reflexivity|]. rewrite columns_scan. split.
  - apply (sorted_map core (fun a b => snd (fst a) < snd (fst b))).
    rewrite speed_columns_core. apply scan_first_increasing.
  - apply sorted_impl_in
      with (R := fun a b => (day (core a) <= day (core b))%Z).
    + intros a b Ha Hb Hab.
      rewrite (event_date _ _ Ha), (event_date _ _ Hb).
      unfold to_datetime. lia.
    + apply (sorted_map core (fun a b => (day a <= day b)%Z)).
      rewrite speed_columns_core. apply scan_days_sorted, sorted_days.
Qed.

(** C5 (as stated) fails: two satellites on one day, the second further
    out, give two events with the same date. *)
Lemma same_day_dates_not_strict :
  ~ (forall evs,
        process_speed_data (Some same_day_rows) = Some evs ->
        StronglySorted (fun a b => (date a < date b)%Z) evs).
Proof.
  intro H. pose proof (H _ eq_refl) as Hs.
  vm_compute in Hs.
  apply StronglySorted_inv in Hs. destruct Hs as [_ Hall].
  inversion Hall as [|x l Hlt _]. discriminate Hlt.
Qed.

Lemma hours_nonzero (s : Z) :
  (0 < s)%Z -> Qeq_bool (inject_Z s / 3600) 0 = false.
Proof.
  intro Hs. destruct (Qeq_bool (inject_Z s / 3600) 0) eqn:E; [|reflexivity].
  apply Qeq_bool_iff in E. exfalso.
  assert (H : inject_Z s == 0).
  { rewrite <- (Qmult_div_r (inject_Z s) 3600) by discriminate.
    rewrite E. reflexivity. }
  unfold Qeq, inject_Z in H. simpl in H. lia.
Qed.

(** C6: the first event has NaN [time_diff] and [speed]; every later event
    has [time_diff] the hours since the previous emitted event's date and
    [speed] = [distance_diff / time_diff], with
    [distance_diff = (max_distance - prev_max) * 1000]. *)
Theorem speed_of_breakthroughs (csv : list DailyExtent) :
  exists evs,
    process_speed_data (Some csv) = Some evs
    /\ (forall e, nth_error evs 0 = Some e ->
          time_diff e = NaN /\ speed e = NaN)
    /\ (forall i a e,
          nth_error evs i = Some a -> nth_error evs (S i) = Some e ->
          time_diff e = Fin (inject_Z (date e - date a) / 3600)
          /\ speed e = truediv (Fin (distance_diff e)) (time_diff e)
          /\ ((date a < date e)%Z ->
              speed e
              = Fin (distance_diff e / (inject_Z (date e - date a) / 3600))))
    /\ (forall e, In e evs ->
          distance_diff e = (max_distance e - prev_max e) * 1000).
Proof.
  eexists. split; [reflexivity|].
  set (l := filter is_breakthrough (with_columns csv)).
  split; [|split].
  - intros e He. apply speed_columns_first in He.
    destruct He as [[[r m] p] [_ ->]]. now split.
  - intros i a e Ha He.
    pose proof (event_date l a (nth_error_In _ _ Ha)) as Da.
    pose proof (event_date l e (nth_error_In _ _ He)) as De.
    pose proof (event_core_nth _ _ _ Ha) as Ca.
    pose proof (event_core_nth _ _ _ He) as Ce.
    rewrite (speed_columns_next l i (core a) (core e) Ca Ce) in He.
    apply (f_equal (fun o => match o with Some x => x | None => e end)) in He.
    rewrite <- Da, <- De in He.
    assert (Ht : time_diff e = Fin (inject_Z (date e - date a) / 3600)).
    { rewrite <- He at 1. apply finish_time_diff. }
    assert (Hsp : speed e = truediv (Fin (distance_diff e)) (time_diff e)).
    { rewrite <- He. apply finish_speed. }
    split; [exact Ht|]. split; [exact Hsp|].
    intro Hlt. rewrite Hsp, Ht. simpl.
    rewrite hours_nonzero by lia. reflexivity.
  - intros e He. destruct (event_shape _ _ He) as [d ->].
    apply finish_distance_diff.
Qed.

(** Breakthroughs at 1.0 km and 2.2 km one day apart: 1200 m in 24 h. *)
Example speed_fifty :
  match process_speed_data
          (Some [ mkDailyExtent 19723 "SNPP" 1 10 0 0 1;
                  mkDailyExtent 19724 "SNPP" (22 # 10) 12 0 0 1 ]) with
  | Some [e0; e1] =>
      speed e0 = NaN
      /\ match time_diff e1, speed e1 with
         | Fin h, Fin v => h == 24 /\ v == 50
         | _, _ => False
         end
  | _ => False
  end.
Proof. vm_compute. repeat split. Qed.

End SpeedClaims.

Section SameDay.
Import Pandas Speed.

Lemma nth_error_split {A : Type} (l r : list A) (a b : A) :
  nth_error (l ++ a :: b :: r) (List.length l) = Some a
  /\ nth_error (l ++ a :: b :: r) (S (List.length l)) = Some b.
Proof.
  split.
  - rewrite nth_error_app2 by lia. now rewrite Nat.sub_diag.
  - rewrite nth_error_app2 by lia.
    now replace (S (List.length l) - List.length l)%nat with 1%nat by lia.
Qed.

Lemma truediv_by_zero (x q : Q) :
  0 < x -> q == 0 -> truediv (Fin x) (Fin q) = PInf.
Proof.
  intros Hx Hq. simpl.
  apply Qeq_bool_iff in Hq. rewrite Hq.
  destruct (Qeq_bool x 0) eqn:E.
  - apply Qeq_bool_iff in E. rewrite E in Hx.
    exfalso. exact (Qlt_irrefl _ Hx).
  - apply Qltb_true in Hx. now rewrite Hx.
Qed.

(** C10: when two rows [t1], [t2] of the date-sorted frame ([with_columns],
    each row with its [max_distance] and [prev_max] cells) carry one calendar
    day and both exceed the running maximum, both are emitted, and the later
    one's speed is a positive [distance_diff] divided by a zero [time_diff]:
    the division is carried out, raises nothing and yields +inf. *)
Theorem same_day_infinite_speed
        (csv : list DailyExtent) (pre mid post : list (DailyExtent * Q * Q))
        (t1 t2 : DailyExtent * Q * Q) :
  with_columns csv = pre ++ t1 :: mid ++ t2 :: post ->
  is_breakthrough t1 = true ->
  is_breakthrough t2 = true ->
  day t1 = day t2 ->
  exists evs e1 e2 i,
    process_speed_data (Some csv) = Some evs
    /\ In e1 evs /\ core e1 = t1
    /\ nth_error evs (S i) = Some e2 /\ core e2 = t2
    /\ 0 < distance_diff e2
    /\ (exists q, time_diff e2 = Fin q /\ q == 0)
    /\ speed e2 = truediv (Fin (distance_diff e2)) (time_diff e2)
    /\ speed e2 = PInf.
Proof.
  intros Hcols H1 H2 Hday.
  pose proof (with_columns_sorted csv) as Hsorted.
  pose proof (columns_scan csv) as Hscan.
  pose proof (scan_first_gap
                (sort_values (fun r => to_datetime (date_only r)) csv)) as Hgap.
  rewrite <- Hscan in Hgap. clear Hscan.
  set (l := filter is_breakthrough (with_columns csv)) in *.
  assert (Hl : l = filter is_breakthrough pre
                   ++ (t1 :: filter is_breakthrough mid)
                   ++ t2 :: filter is_breakthrough post).
  { unfold l. rewrite Hcols, filter_app. simpl. rewrite H1.
    rewrite filter_app. simpl. now rewrite H2. }
  destruct (exists_last (l := t1 :: filter is_breakthrough mid))
    as [l' [a Hla]]; [discriminate|].
  assert (Ha : In a (t1 :: mid)).
  { assert (Hin : In a (t1 :: filter is_breakthrough mid))
      by (rewrite Hla; apply in_elt).
    destruct Hin as [<-|Hin]; [now left|right].
    now apply filter_In in Hin. }
  assert (Hda : day a = day t2).
  { rewrite Hcols in Hsorted. apply sorted_app_r in Hsorted.
    destruct Ha as [<-|Ha]; [exact Hday|].
    assert (day a <= day t2)%Z.
    { apply StronglySorted_inv in Hsorted. destruct Hsorted as [Hs _].
      apply sorted_before in Hs. rewrite Forall_forall in Hs.
      exact (Hs _ Ha). }
    assert (day t1 <= day a)%Z.
    { apply StronglySorted_inv in Hsorted. destruct Hsorted as [_ Hall].
      rewrite Forall_forall in Hall. apply Hall.
      apply in_or_app. now left. }
    lia. }
  rewrite Hla in Hl. rewrite <- app_assoc in Hl. simpl in Hl.
  rewrite app_assoc in Hl.
  destruct (nth_error_split (filter is_breakthrough pre ++ l')
              (filter is_breakthrough post) a t2) as [Hi HSi].
  rewrite <- Hl in Hi, HSi.
  set (i := List.length (filter is_breakthrough pre ++ l')) in *.
  pose proof (speed_columns_next l i a t2 Hi HSi) as He2.
  assert (Hin1 : In t1 l).
  { apply filter_In. split; [|exact H1].
    rewrite Hcols. apply in_elt. }
  rewrite <- (speed_columns_core l) in Hin1.
  apply in_map_iff in Hin1. destruct Hin1 as [e1 [Hc1 Hin1]].
  assert (Hin2 : In t2 l) by (apply nth_error_In with (n := S i); exact HSi).
  rewrite Forall_forall in Hgap. specialize (Hgap _ Hin2).
  rewrite Hda, Z.sub_diag in He2.
  destruct t2 as [[r m] p]. simpl in Hgap.
  assert (Hdd : 0 < (m - p) * 1000).
  { apply Qmult_lt_0_compat; [|reflexivity].
    unfold Qminus. rewrite <- (Qplus_opp_r p).
    apply Qplus_lt_l. exact Hgap. }
  exists (speed_columns l), e1, (finish (r, m, p) (Some 0%Z)), i.
  split; [reflexivity|].
  split; [exact Hin1|]. split; [exact Hc1|]. split; [exact He2|].
  split; [reflexivity|]. split; [exact Hdd|].
  split; [exists (inject_Z 0 / 3600); split; reflexivity|].
  split; [reflexivity|].
  change (speed (finish (r, m, p) (Some 0%Z)))
    with (truediv (Fin ((m - p) * 1000)) (Fin (inject_Z 0 / 3600))).
  apply truediv_by_zero; [exact Hdd|reflexivity].
Qed.

Lemma same_day_infinite_speed_witness :
  exists evs e1 e2 i,
    process_speed_data (Some same_day_rows) = Some evs
    /\ In e1 evs /\ core e1 = (mkDailyExtent 19723 "SNPP" 1 10 0 0 1, 1, 0)
    /\ nth_error evs (S i) = Some e2
    /\ core e2 = (mkDailyExtent 19723 "NOAA20" (3 # 2) 12 0 0 2, 3 # 2, 1)
    /\ 0 < distance_diff e2
    /\ (exists q, time_diff e2 = Fin q /\ q == 0)
    /\ speed e2 = truediv (Fin (distance_diff e2)) (time_diff e2)
    /\ speed e2 = PInf.
Proof.
  apply (same_day_infinite_speed same_day_rows [] [] []);
    reflexivity.
Defined.

End SameDay.

(** ** Merge into the per-source archive (FIRMS_download.py) *)
Section FrameFacts.
Import Pandas Firms Download.

Lemma optZ_eqb_eq (a b : option Z) : optZ_eqb a b = true <-> a = b.
Proof.
  destruct a as [x|], b as [y|]; simpl; try (split; congruence).
  rewrite Z.eqb_eq. split; congruence.
Qed.

Lemma key_eqb_eq (a b : subset_key) : key_eqb a b = true <-> a = b.
Proof.
  destruct a as [[[la lo] d] t], b as [[[la' lo'] d'] t'].
  unfold key_eqb. rewrite !andb_true_iff.
  rewrite !optZ_eqb_eq, Z.eqb_eq, String.eqb_eq.
  split; [intros [[[-> ->] ->] ->]; reflexivity|].
  intros [= -> -> -> ->]. tauto.
Qed.

Lemma seen_In (k : subset_key) (seen : list subset_key) :
  existsb (key_eqb k) seen = true <-> In k seen.
Proof.
  rewrite existsb_exists. split.
  - intros [x [Hin Heq]]. apply key_eqb_eq in Heq. now subst.
  - intro Hin. exists k. split; [exact Hin|]. now apply key_eqb_eq.
Qed.

Lemma seen_not_In (k : subset_key) (seen : list subset_key) :
  existsb (key_eqb k) seen = false <-> ~ In k seen.
Proof.
  rewrite <- seen_In. destruct (existsb (key_eqb k) seen); split; congruence.
Qed.

Lemma unique_In (x : Z) (l : list Z) : In x (unique l) <-> In x l.
Proof.
  induction l as [|y t IH]; simpl; [tauto|].
  rewrite filter_In, IH, negb_true_iff, Z.eqb_neq.
  destruct (Z.eq_dec y x); intuition congruence.
Qed.

Lemma isin_In (x : Z) (l : list Z) : isin x l = true <-> In x l.
Proof.
  unfold isin. rewrite existsb_exists. split.
  - intros [y [Hin Heq]]. apply Z.eqb_eq in Heq. now subst.
  - intro Hin. exists x. split; [exact Hin|apply Z.eqb_refl].
Qed.

Lemma in_refresh_window_In (df_new : list Detection) (r : Detection) :
  in_refresh_window df_new r = true <-> In (acq_date r) (map acq_date df_new).
Proof. unfold in_refresh_window. now rewrite isin_In, unique_In. Qed.

Lemma refresh_In (df_hist df_new : list Detection) (r : Detection) :
  In r (refresh df_hist df_new)
  <-> In r df_hist /\ ~ In (acq_date r) (map acq_date df_new).
Proof.
  unfold refresh. rewrite filter_In, negb_true_iff.
  rewrite <- in_refresh_window_In. unfold in_refresh_window.
  destruct (isin (acq_date r) (unique (map acq_date df_new)));
    intuition congruence.
Qed.

Lemma to_numeric_coerce (c : cell) : to_numeric (coerce c) = to_numeric c.
Proof. now destruct c. Qed.

Lemma key_coerce (r : Detection) : key (coerce_lat_lon r) = key r.
Proof.
  unfold key, acq_time_str. simpl. now rewrite !to_numeric_coerce.
Qed.

Lemma dropna_numeric (df : list Detection) (r : Detection) :
  In r (dropna (map coerce_lat_lon df)) ->
  exists la lo, latitude r = Num la /\ longitude r = Num lo.
Proof.
  unfold dropna. rewrite filter_In, in_map_iff.
  intros [[x [<- _]] Hna]. simpl in *.
  destruct (latitude x), (longitude x); simpl in *; try discriminate;
    do 2 eexists; split; reflexivity.
Qed.

Lemma coerce_numeric (r : Detection) :
  (exists la lo, latitude r = Num la /\ longitude r = Num lo) ->
  coerce_lat_lon r = r
  /\ negb (isna (latitude r) || isna (longitude r)) = true.
Proof.
  intros [la [lo [Hla Hlo]]]. destruct r as [a b d t f k]. simpl in *.
  subst. now split.
Qed.

(** Coercing and dropping again changes nothing on rows whose coordinates
    are numbers already. *)
Lemma clean_fixed (df : list Detection) :
  Forall (fun r => exists la lo, latitude r = Num la /\ longitude r = Num lo)
         df ->
  dropna (map coerce_lat_lon df) = df.
Proof.
  induction 1 as [|r t Hr Ht IH]; [reflexivity|].
  destruct (coerce_numeric r Hr) as [Hc Hk].
  unfold dropna in *. cbn [map filter]. rewrite Hc, Hk. now f_equal.
Qed.

End FrameFacts.

Section DedupFacts.
Import Pandas Firms Download.

Lemma dds_In (df : list Detection) : forall seen r,
  In r (drop_duplicates_seen seen df) -> In r df /\ ~ In (key r) seen.
Proof.
  induction df as [|x t IH]; intros seen r; simpl; [tauto|].
  destruct (existsb (key_eqb (key x)) seen) eqn:E.
  - intro H. apply IH in H. tauto.
  - apply seen_not_In in E. intros [<-|H]; [tauto|].
    apply IH in H. simpl in H. tauto.
Qed.

Lemma dds_NoDup (df : list Detection) : forall seen,
  NoDup (map key (drop_duplicates_seen seen df)).
Proof.
  induction df as [|x t IH]; intros seen; simpl; [constructor|].
  destruct (existsb (key_eqb (key x)) seen); [apply IH|].
  simpl. constructor; [|apply IH].
  rewrite in_map_iff. intros [y [Hk Hy]].
  apply dds_In in Hy. simpl in Hy. destruct Hy as [_ Hy].
  apply Hy. now left.
Qed.

(** Only membership in [seen] matters. *)
Lemma dds_ext (df : list Detection) : forall seen seen',
  (forall r, In r df -> (In (key r) seen <-> In (key r) seen')) ->
  drop_duplicates_seen seen df = drop_duplicates_seen seen' df.
Proof.
  induction df as [|x t IH]; intros seen seen' H; simpl; [reflexivity|].
  assert (E : existsb (key_eqb (key x)) seen
              = existsb (key_eqb (key x)) seen').
  { destruct (existsb (key_eqb (key x)) seen') eqn:E'.
    - apply seen_In. apply H; [now left|]. now apply seen_In.
    - apply seen_not_In. apply seen_not_In in E'.
      intro Hin. apply E'. apply H; [now left|exact Hin]. }
  rewrite E. destruct (existsb (key_eqb (key x)) seen').
  - apply IH. intros r Hr. apply H. now right.
  - f_equal. apply IH. intros r Hr. simpl.
    specialize (H r (or_intror Hr)). tauto.
Qed.

Lemma dds_app_disjoint (l1 l2 : list Detection) : forall seen,
  (forall a b, In a l1 -> In b l2 -> key a <> key b) ->
  drop_duplicates_seen seen (l1 ++ l2)
  = drop_duplicates_seen seen l1 ++ drop_duplicates_seen seen l2.
Proof.
  induction l1 as [|x t IH]; intros seen Hdis; simpl; [reflexivity|].
  assert (Ht : forall a b, In a t -> In b l2 -> key a <> key b).
  { intros a b Ha. apply Hdis. now right. }
  destruct (existsb (key_eqb (key x)) seen); [now apply IH|].
  simpl. f_equal. rewrite (IH _ Ht). f_equal.
  apply dds_ext. intros r Hr. simpl.
  assert (key x <> key r) by (apply Hdis; [now left|exact Hr]).
  tauto.
Qed.

Lemma dds_fixed (l : list Detection) : forall seen,
  NoDup (map key l) ->
  (forall r, In r l -> ~ In (key r) seen) ->
  drop_duplicates_seen seen l = l.
Proof.
  induction l as [|x t IH]; intros seen Hnd Hseen; simpl; [reflexivity|].
  inversion Hnd as [|k ks Hx Hnd']; subst.
  assert (E : existsb (key_eqb (key x)) seen = false).
  { apply seen_not_In. apply Hseen. now left. }
  rewrite E. f_equal. apply IH; [exact Hnd'|].
  intros r Hr [Hk|Hk].
  - apply Hx. rewrite Hk. now apply in_map.
  - apply (Hseen r); [now right|exact Hk].
Qed.

Lemma drop_duplicates_idem (l : list Detection) :
  drop_duplicates (drop_duplicates l) = drop_duplicates l.
Proof.
  unfold drop_duplicates at 1. apply dds_fixed.
  - apply dds_NoDup.
  - intros r _ [].
Qed.

(** A row survives exactly when no earlier row of the frame carries its
    key: the first-seen row of each key is the one kept. *)
Lemma dds_first_seen (df : list Detection) : forall seen r,
  In r (drop_duplicates_seen seen df)
  <-> (exists l1 l2, df = l1 ++ r :: l2
                     /\ forall x, In x l1 -> key x <> key r)
      /\ ~ In (key r) seen.
Proof.
  induction df as [|x t IH]; intros seen r; simpl.
  - split; [tauto|]. intros [[l1 [l2 [H _]]] _]. now destruct l1.
  - destruct (existsb (key_eqb (key x)) seen) eqn:E.
    + apply seen_In in E. rewrite IH. split.
      * intros [[l1 [l2 [-> Hl]]] Hs]. split; [|exact Hs].
        exists (x :: l1), l2. split; [reflexivity|].
        intros y [<-|Hy]; [congruence|now apply Hl].
      * intros [[l1 [l2 [Heq Hl]]] Hs]. split; [|exact Hs].
        destruct l1 as [|y l1]; simpl in Heq; injection Heq as -> ->.
        -- contradiction.
        -- exists l1, l2. split; [reflexivity|].
           intros z Hz. apply Hl. now right.
    + apply seen_not_In in E. split.
      * intros [<-|H].
        -- split; [|exact E]. exists [], t. split; [reflexivity|].
           intros z [].
        -- apply IH in H. destruct H as [[l1 [l2 [-> Hl]]] Hs].
           simpl in Hs. split; [|tauto].
           exists (x :: l1), l2. split; [reflexivity|].
           intros y [<-|Hy]; [intro; apply Hs; left; congruence|now apply Hl].
      * intros [[l1 [l2 [Heq Hl]]] Hs].
        destruct l1 as [|y l1]; simpl in Heq; injection Heq as -> ->.
        -- now left.
        -- right. apply IH. split.
           ++ exists l1, l2. split; [reflexivity|].
              intros z Hz. apply Hl. now right.
           ++ simpl. intros [Hk|Hk]; [|contradiction].
              apply (Hl y); [now left|exact Hk].
Qed.

(** No key of the frame disappears. *)
Lemma dds_key_kept (df : list Detection) : forall seen r,
  In r df -> ~ In (key r) seen ->
  exists r', In r' (drop_duplicates_seen seen df) /\ key r' = key r.
Proof.
  induction df as [|x t IH]; intros seen r; simpl; [tauto|].
  intros Hin Hs.
  destruct (existsb (key_eqb (key x)) seen) eqn:E.
  - apply seen_In in E. destruct Hin as [->|Hin]; [contradiction|].
    now apply IH.
  - destruct (key_eqb (key x) (key r)) eqn:Ek.
    + apply key_eqb_eq in Ek. exists x. split; [now left|exact Ek].
    + assert (key x <> key r).
      { intro Hk. apply key_eqb_eq in Hk. congruence. }
      destruct Hin as [->|Hin]; [congruence|].
      destruct (IH (key x :: seen) r Hin) as [r' [H1 H2]].
      * simpl. tauto.
      * exists r'. split; [now right|exact H2].
Qed.

End DedupFacts.

Section MergeFacts.
Import Pandas Firms Download.

Lemma merge_nonempty (src : source_id) (batch : list Detection)
      (existing : option (list Detection)) :
  batch <> [] -> merge src batch existing = Some (merge_frames existing batch).
Proof.
  intro H. unfold merge, process_source. simpl.
  destruct batch; [contradiction|reflexivity].
Qed.

Lemma clean_app (l1 l2 : list Detection) :
  clean (l1 ++ l2) = clean l1 ++ clean l2.
Proof. unfold clean, dropna. now rewrite map_app, filter_app. Qed.

Lemma clean_In (df : list Detection) (r : Detection) :
  In r (clean df) ->
  exists x, In x df /\ r = coerce_lat_lon x
            /\ exists la lo, latitude r = Num la /\ longitude r = Num lo.
Proof.
  intro H. pose proof (dropna_numeric _ _ H) as Hn.
  unfold clean, dropna in H. apply filter_In in H. destruct H as [H _].
  apply in_map_iff in H. destruct H as [x [Hx Hin]].
  exists x. now repeat split.
Qed.

Lemma clean_date (df : list Detection) (r : Detection) :
  In r (clean df) -> In (acq_date r) (map acq_date df).
Proof.
  intro H. apply clean_In in H. destruct H as [x [Hin [-> _]]].
  simpl. now apply in_map.
Qed.

Lemma clean_refresh_date (df_hist df_new : list Detection) (r : Detection) :
  In r (clean (refresh df_hist df_new)) ->
  ~ In (acq_date r) (map acq_date df_new).
Proof.
  intro H. apply clean_In in H. destruct H as [x [Hin [-> _]]].
  apply refresh_In in Hin. simpl. tauto.
Qed.

Lemma key_date (a b : Detection) : key a = key b -> acq_date a = acq_date b.
Proof. unfold key. congruence. Qed.

(** The frame written on the existing-archive path: the surviving archive
    rows, then the batch rows, each deduplicated on its own. *)
Lemma merge_frames_split (df_hist df_new : list Detection) :
  merge_frames (Some df_hist) df_new
  = drop_duplicates (clean (refresh df_hist df_new))
      ++ drop_duplicates (clean df_new).
Proof.
  unfold merge_frames, combine_frames. fold (clean (refresh df_hist df_new ++ df_new)).
  rewrite clean_app. apply dds_app_disjoint.
  intros a b Ha Hb Hk. apply key_date in Hk.
  apply clean_refresh_date in Ha. apply clean_date in Hb.
  rewrite Hk in Ha. contradiction.
Qed.

Lemma filter_none {A : Type} (f : A -> bool) (l : list A) :
  (forall x, In x l -> f x = false) -> filter f l = [].
Proof.
  induction l as [|x t IH]; intro H; simpl; [reflexivity|].
  rewrite (H x (or_introl eq_refl)). apply IH.
  intros y Hy. apply H. now right.
Qed.

Lemma filter_all {A : Type} (f : A -> bool) (l : list A) :
  (forall x, In x l -> f x = true) -> filter f l = l.
Proof.
  induction l as [|x t IH]; intro H; simpl; [reflexivity|].
  rewrite (H x (or_introl eq_refl)). f_equal. apply IH.
  intros y Hy. apply H. now right.
Qed.

Lemma kept_outside_window (df_hist df_new : list Detection) (r : Detection) :
  In r (drop_duplicates (clean (refresh df_hist df_new))) ->
  in_refresh_window df_new r = false.
Proof.
  intro H. apply dds_In in H. destruct H as [H _].
  apply clean_refresh_date in H.
  destruct (in_refresh_window df_new r) eqn:E; [|reflexivity].
  apply in_refresh_window_In in E. contradiction.
Qed.

Lemma batch_inside_window (df_new : list Detection) (r : Detection) :
  In r (drop_duplicates (clean df_new)) ->
  in_refresh_window df_new r = true.
Proof.
  intro H. apply dds_In in H. destruct H as [H _].
  apply in_refresh_window_In. now apply clean_date.
Qed.

Lemma merged_numeric (df_hist df_new : list Detection) (r : Detection) :
  In r (merge_frames (Some df_hist) df_new) ->
  exists la lo, latitude r = Num la /\ longitude r = Num lo.
Proof.
  unfold merge_frames, combine_frames. intro H.
  apply dds_In in H. destruct H as [H _].
  now apply dropna_numeric in H.
Qed.

Lemma deduplicated_clean (df : list Detection) :
  clean (drop_duplicates (clean df)) = drop_duplicates (clean df).
Proof.
  apply clean_fixed. apply Forall_forall. intros r H.
  apply dds_In in H. destruct H as [H _].
  now apply dropna_numeric in H.
Qed.

End MergeFacts.

Section MergeClaims.
Import Pandas Firms Download.

(** C1: merging a non-empty batch into an existing archive first removes
    from the archive every row whose acquisition date occurs in the batch,
    then appends the batch; on the refreshed dates the merged archive holds
    batch rows only, however many rows the archive held for them. *)
Theorem refresh_window_replaces
        (src : source_id) (hist batch : list Detection) :
  batch <> [] ->
  exists merged,
    merge src batch (Some hist) = Some merged
    /\ (forall r, In r (refresh hist batch)
                  <-> In r hist
                      /\ ~ In (acq_date r) (unique (map acq_date batch)))
    /\ merged = drop_duplicates (clean (refresh hist batch ++ batch))
    /\ filter (in_refresh_window batch) merged
       = drop_duplicates (clean batch).
Proof.
  intro Hne. exists (merge_frames (Some hist) batch).
  split; [now apply merge_nonempty|].
  split; [intro r; rewrite unique_In; apply refresh_In|].
  split; [reflexivity|].
  rewrite merge_frames_split, filter_app.
  rewrite (filter_none _ _ (kept_outside_window hist batch)).
  rewrite (filter_all _ _ (batch_inside_window batch)).
  reflexivity.
Qed.

Lemma refresh_window_replaces_witness :
  [spot_b] <> []
  /\ exists merged,
       merge MODIS_NRT [spot_b] (Some old_archive) = Some merged
       /\ (forall r, In r (refresh old_archive [spot_b])
                     <-> In r old_archive
                         /\ ~ In (acq_date r)
                                 (unique (map acq_date [spot_b])))
       /\ merged
          = drop_duplicates (clean (refresh old_archive [spot_b] ++ [spot_b]))
       /\ filter (in_refresh_window [spot_b]) merged
          = drop_duplicates (clean [spot_b]).
Proof.
  split; [discriminate|].
  apply (refresh_window_replaces MODIS_NRT old_archive [spot_b]).
  discriminate.
Defined.

(** The archive of the example after the refresh: the three rows of the
    refreshed day are gone, the single batch row stands for that day. *)
Example refresh_window_fewer_rows :
  merge MODIS_NRT [spot_b] (Some old_archive) = Some [day_before; spot_b].
Proof. vm_compute. reflexivity. Qed.

(** On the existing-archive path no two rows of the written frame share
    the dedup key. *)
Lemma merge_existing_no_duplicates
      (src : source_id) (hist batch : list Detection) :
  NoDup (map (dedup_key src) (merge_frames (Some hist) batch)).
Proof.
  unfold merge_frames, drop_duplicates.
  pose proof (dds_NoDup (combine_frames hist batch) []) as H.
  induction (drop_duplicates_seen [] (combine_frames hist batch))
    as [|x l IH]; simpl; [constructor|].
  inversion H as [|k ks Hx Hnd]; subst.
  constructor; [|now apply IH].
  rewrite in_map_iff. intros [y [Hy Hin]].
  apply Hx.
  replace (key x) with (key y) by (unfold dedup_key in Hy; congruence).
  now apply in_map.
Qed.

(** ... and the row kept for a key is the first one of the combined frame
    carrying it. *)
Lemma merge_existing_first_seen (hist batch : list Detection) (r : Detection) :
  In r (merge_frames (Some hist) batch)
  <-> exists l1 l2,
        clean (refresh hist batch ++ batch) = l1 ++ r :: l2
        /\ forall x, In x l1 -> key x <> key r.
Proof.
  unfold merge_frames, combine_frames, drop_duplicates.
  fold (clean (refresh hist batch ++ batch)).
  rewrite dds_first_seen. simpl. tauto.
Qed.

(** C2 at the failing input: a first merge (no archive file yet) writes
    the batch as it came, so two rows with one dedup key are both
    archived. *)
Theorem first_merge_keeps_duplicates :
  merge MODIS_NRT [spot_a; spot_b] None = Some [spot_a; spot_b]
  /\ dedup_key MODIS_NRT spot_a = dedup_key MODIS_NRT spot_b
  /\ ~ NoDup (map (dedup_key MODIS_NRT) [spot_a; spot_b]).
Proof.
  split; [reflexivity|].
  assert (Hk : dedup_key MODIS_NRT spot_a = dedup_key MODIS_NRT spot_b)
    by (vm_compute; reflexivity).
  split; [exact Hk|].
  simpl. rewrite Hk. intro H. inversion H as [|k l Hin _]; subst.
  apply Hin. now left.
Qed.

Lemma refresh_merged (hist batch : list Detection) :
  refresh (merge_frames (Some hist) batch) batch
  = drop_duplicates (clean (refresh hist batch)).
Proof.
  rewrite merge_frames_split.
  change (refresh ?h batch)
    with (filter (fun r => negb (in_refresh_window batch r)) h) at 1.
  rewrite filter_app.
  rewrite (filter_all (fun r => negb (in_refresh_window batch r))).
  - rewrite filter_none; [apply app_nil_r|].
    intros x Hx. cbv beta. now rewrite (batch_inside_window _ _ Hx).
  - intros x Hx. cbv beta. now rewrite (kept_outside_window _ _ _ Hx).
Qed.

(** On the existing-archive path a second merge of the same batch writes
    the very same frame. *)
Lemma merge_existing_idempotent
      (src : source_id) (hist batch : list Detection) :
  batch <> [] ->
  merge src batch (merge src batch (Some hist)) = merge src batch (Some hist).
Proof.
  intro Hne. rewrite !(merge_nonempty _ _ _ Hne). f_equal.
  rewrite (merge_frames_split (merge_frames (Some hist) batch)).
  rewrite refresh_merged, deduplicated_clean, drop_duplicates_idem.
  symmetry. apply merge_frames_split.
Qed.

(** C3 at the failing input: starting without an archive, the first merge
    writes both readings, the second merge of the same batch keeps one. *)
Theorem second_merge_after_first_differs :
  merge MODIS_NRT [spot_a; spot_b] None = Some [spot_a; spot_b]
  /\ merge MODIS_NRT [spot_a; spot_b]
           (merge MODIS_NRT [spot_a; spot_b] None)
     = Some [spot_a]
  /\ ~ In spot_b [spot_a].
Proof.
  split; [reflexivity|]. split; [vm_compute; reflexivity|].
  intros [H|[]]. discriminate H.
Qed.

End MergeClaims.

Section CoercionClaims.
Import Pandas Firms Download.

(** C4 (as stated) fails: a batch row whose frp does not parse is merged
    into the archive like any other row. *)
Lemma unparsable_frp_is_kept :
  ~ (forall src batch existing merged r,
        merge src batch existing = Some merged ->
        In r batch ->
        to_numeric (latitude r) = None \/ to_numeric (longitude r) = None
        \/ to_numeric (frp r) = None \/ to_numeric (track r) = None ->
        ~ In r merged).
Proof.
  intro H.
  apply (H MODIS_NRT [bad_frp] (Some [day_before]) [day_before; bad_frp]
           bad_frp).
  - reflexivity.
  - now left.
  - right. right. left. reflexivity.
  - right. now left.
Qed.

(** C4 (amended): a merge of a non-empty batch into an existing archive
    raises nothing and writes a frame whose rows all have numeric latitude
    and longitude; a batch row whose latitude or longitude does not parse
    is not in it, a batch row whose coordinates parse keeps its key in it
    whatever its frp and track hold; the log line reports the size of the
    batch as received and the size of the written frame. *)
Theorem merge_drops_unparsable_coordinates
        (src : source_id) (hist batch : list Detection) :
  batch <> [] ->
  exists merged,
    process_source src {| status_code := 200; text := batch |} (Some hist)
    = (Some merged, Merged src (List.length batch) (List.length merged))
    /\ (forall r, In r merged ->
          exists la lo, latitude r = Num la /\ longitude r = Num lo)
    /\ (forall r, In r batch ->
          to_numeric (latitude r) = None \/ to_numeric (longitude r) = None ->
          ~ In r merged /\ ~ In (coerce_lat_lon r) merged)
    /\ (forall r, In r batch ->
          to_numeric (latitude r) <> None ->
          to_numeric (longitude r) <> None ->
          exists r', In r' merged /\ key r' = key r
                     /\ acq_date r' = acq_date r).
Proof.
  intro Hne. exists (merge_frames (Some hist) batch).
  split; [destruct batch; [contradiction|reflexivity]|].
  split; [apply merged_numeric|]. split.
  - intros r _ Hbad.
    split; intro Hin; apply merged_numeric in Hin;
      destruct Hin as [la [lo [Hla Hlo]]]; simpl in Hla, Hlo;
      destruct (latitude r), (longitude r), Hbad; discriminate.
  - intros r Hin Hla Hlo.
    assert (Hc : In (coerce_lat_lon r) (combine_frames hist batch)).
    { unfold combine_frames, dropna. apply filter_In. split.
      - apply in_map, in_or_app. now right.
      - simpl. destruct (latitude r), (longitude r); simpl in *; congruence. }
    destruct (dds_key_kept _ [] _ Hc (fun H => H)) as [r' [Hr' Hk]].
    rewrite key_coerce in Hk.
    exists r'. split; [exact Hr'|]. split; [exact Hk|].
    now apply key_date.
Qed.

Lemma merge_drops_unparsable_coordinates_witness :
  [bad_latitude; bad_frp] <> []
  /\ exists merged,
    process_source MODIS_NRT
      {| status_code := 200; text := [bad_latitude; bad_frp] |}
      (Some [day_before])
    = (Some merged, Merged MODIS_NRT 2 (List.length merged))
    /\ (forall r, In r merged ->
          exists la lo, latitude r = Num la /\ longitude r = Num lo)
    /\ (forall r, In r [bad_latitude; bad_frp] ->
          to_numeric (latitude r) = None \/ to_numeric (longitude r) = None ->
          ~ In r merged /\ ~ In (coerce_lat_lon r) merged)
    /\ (forall r, In r [bad_latitude; bad_frp] ->
          to_numeric (latitude r) <> None ->
          to_numeric (longitude r) <> None ->
          exists r', In r' merged /\ key r' = key r
                     /\ acq_date r' = acq_date r).
Proof.
  split; [discriminate|].
  apply (merge_drops_unparsable_coordinates
           MODIS_NRT [day_before] [bad_latitude; bad_frp]).
  discriminate.
Defined.

(** The log line of the example counts the dropped row in the batch size
    and nowhere else. *)
Example dropped_row_in_batch_count :
  process_source MODIS_NRT
    {| status_code := 200; text := [bad_latitude; bad_frp] |}
    (Some [day_before])
  = (Some [day_before; bad_frp], Merged MODIS_NRT 2 2).
Proof. vm_compute. reflexivity. Qed.

(** Each source is merged into its own file from its own reply. *)
Lemma process_download_per_source
      (api : source_id -> response) (fs : files) (s : source_id) :
  fst (process_download api fs) s
  = fst (process_source s (api s) (fs s)).
Proof.
  unfold process_download, sources. simpl.
  destruct (process_source VIIRS_SNPP_NRT _ _) as [f1 e1] eqn:E1.
  destruct (process_source VIIRS_NOAA21_NRT _ _) as [f2 e2] eqn:E2.
  destruct (process_source VIIRS_NOAA20_NRT _ _) as [f3 e3] eqn:E3.
  destruct (process_source MODIS_NRT _ _) as [f4 e4] eqn:E4.
  unfold write in *; simpl in *.
  destruct s; simpl;
    [now rewrite E1 | now rewrite E2 | now rewrite E3 | now rewrite E4].
Qed.

End CoercionClaims.

(** ** Filtering and distance tagging (LavaFlow_mapper.py) *)
Section MapperFacts.
Import Pandas Firms Mapper.

Example snpp_loaded : load_and_tag_data one_archive = Some snpp_comb.
Proof. vm_compute. reflexivity. Qed.

Lemma get_setting (cfg : config) (k : string) (d : Q) :
  as_number (get cfg k (VFloat d)) = setting cfg k d.
Proof. unfold get, setting. now destruct (cfg k). Qed.

(** With numeric settings the run is [proceed]. *)
Lemma get_layout_numeric (cfg : config) (start_dt end_dt : Z)
      (glob : string -> list (list Detection)) (comb : list Tagged)
      (ft ff lat lon : Q) :
  load_and_tag_data glob = Some comb ->
  setting cfg "filter_track" 1 = Some ft ->
  setting cfg "filter_frp" 0 = Some ff ->
  setting cfg "lats_vent" 0 = Some lat ->
  setting cfg "longs_vent" 0 = Some lon ->
  get_layout cfg start_dt end_dt glob
  = proceed comb ft ff lat lon start_dt end_dt.
Proof.
  intros Hload Hft Hff Hlat Hlon. unfold get_layout, proceed.
  rewrite Hload, !get_setting, Hft, Hff, Hlat, Hlon.
  destruct comb as [|c comb]; [reflexivity|].
  now destruct (sort_values _ _).
Qed.

Lemma proceed_not_raised (comb : list Tagged) (ft ff lat lon : Q)
      (start_dt end_dt : Z) :
  proceed comb ft ff lat lon start_dt end_dt <> Raised.
Proof.
  unfold proceed. destruct comb; [discriminate|].
  destruct (sort_values _ _); discriminate.
Qed.

Lemma proceed_rows (comb : list Tagged) (ft ff lat lon : Q)
      (start_dt end_dt : Z) :
  filtered_rows (proceed comb ft ff lat lon start_dt end_dt)
  = sort_values date (filter (mask ft ff start_dt end_dt) comb).
Proof.
  unfold proceed. destruct comb as [|c comb]; [reflexivity|].
  destruct (sort_values _ _) as [|r rest]; [reflexivity|].
  unfold filtered_rows. rewrite map_map. simpl. f_equal. apply map_id.
Qed.

Lemma mask_true (ft ff : Q) (start_dt end_dt : Z) (r : Tagged) :
  mask ft ff start_dt end_dt r = true
  <-> (exists t, track (det r) = Num t /\ t <= ft)
      /\ (exists f, frp (det r) = Num f /\ ff <= f)
      /\ (start_dt <= date r <= end_dt)%Z.
Proof.
  unfold mask, cell_le, cell_ge.
  rewrite !andb_true_iff, !Z.leb_le. split.
  - intros [[[Ht Hf] Hs] He].
    destruct (track (det r)) as [t| |]; try discriminate.
    destruct (frp (det r)) as [f| |]; try discriminate.
    apply Qle_bool_iff in Ht, Hf. repeat split; eauto.
  - intros [[t [-> Ht]] [[f [-> Hf]] [Hs He]]].
    apply Qle_bool_iff in Ht, Hf. tauto.
Qed.

Lemma traverse_In {A B : Type} (f : A -> option B) (l : list A) :
  forall l' y, traverse f l = Some l' -> In y l' ->
               exists x, In x l /\ f x = Some y.
Proof.
  induction l as [|a t IH]; intros l' y; simpl.
  - intros [= <-] [].
  - destruct (f a) as [b|] eqn:E; [|discriminate].
    destruct (traverse f t) as [bs|]; [|discriminate].
    intros [= <-] [<-|Hin].
    + exists a. split; [now left|exact E].
    + destruct (IH bs y eq_refl Hin) as [x [Hx Hf]].
      exists x. split; [now right|exact Hf].
Qed.

(** Every row of [comb] is an archive row with its columns coerced and its
    [date] the acquisition date combined with the zero-padded time. *)
Lemma comb_rows (glob : string -> list (list Detection))
      (comb : list Tagged) (r : Tagged) :
  load_and_tag_data glob = Some comb -> In r comb ->
  exists raw s,
    det r = coerce_columns raw
    /\ strptime_HM (zfill 4 (NilEmpty.string_of_uint
                               (Nat.to_uint (acq_time raw)))) = Some s
    /\ date r = (86400 * acq_date raw + s)%Z.
Proof.
  unfold load_and_tag_data.
  destruct (traverse _ configs) as [all_data|] eqn:E; [|discriminate].
  intros [= <-] Hin.
  apply in_concat in Hin. destruct Hin as [frame [Hframe Hin]].
  apply in_concat in Hframe. destruct Hframe as [frames [Hframes Hframe]].
  destruct (traverse_In _ _ _ _ E Hframes) as [c [_ Hc]].
  destruct (traverse_In _ _ _ _ Hc Hframe) as [file [_ Hfile]].
  destruct (traverse_In _ _ _ _ Hfile Hin) as [raw [_ Hraw]].
  unfold tag_row, timestamp, acq_time_str in Hraw.
  destruct (strptime_HM _) as [s|] eqn:Es; [|discriminate].
  injection Hraw as <-. exists raw, s. now repeat split.
Qed.

End MapperFacts.

Section MapperClaims.
Import Pandas Firms Mapper.

(** C8: with the data loaded and numeric settings, the run does not raise;
    [filtered] holds exactly the rows of [comb] with track <= max_track,
    frp >= min_frp and start <= date <= end, the date being the
    acquisition date combined with the zero-padded time of day, and it is
    sorted ascending by that date. *)
Theorem filtered_exact_and_sorted
        (cfg : config) (start_dt end_dt : Z)
        (glob : string -> list (list Detection)) (comb : list Tagged)
        (max_track min_frp lat lon : Q) :
  load_and_tag_data glob = Some comb ->
  setting cfg "filter_track" 1 = Some max_track ->
  setting cfg "filter_frp" 0 = Some min_frp ->
  setting cfg "lats_vent" 0 = Some lat ->
  setting cfg "longs_vent" 0 = Some lon ->
  let out := get_layout cfg start_dt end_dt glob in
  out <> Raised
  /\ Permutation (filter (mask max_track min_frp start_dt end_dt) comb)
                 (filtered_rows out)
  /\ (forall r, In r (filtered_rows out)
                <-> In r comb
                    /\ (exists t, track (det r) = Num t /\ t <= max_track)
                    /\ (exists f, frp (det r) = Num f /\ min_frp <= f)
                    /\ (start_dt <= date r <= end_dt)%Z)
  /\ (forall r, In r (filtered_rows out) ->
        exists raw s,
          det r = coerce_columns raw
          /\ strptime_HM (zfill 4 (NilEmpty.string_of_uint
                                     (Nat.to_uint (acq_time raw)))) = Some s
          /\ date r = (86400 * acq_date raw + s)%Z)
  /\ StronglySorted (fun a b => (date a <= date b)%Z) (filtered_rows out).
Proof.
  intros Hload Hft Hff Hlat Hlon out.
  assert (Hout : filtered_rows out
                 = sort_values date
                     (filter (mask max_track min_frp start_dt end_dt) comb)).
  { unfold out.
    rewrite (get_layout_numeric _ _ _ _ _ _ _ _ _ Hload Hft Hff Hlat Hlon).
    apply proceed_rows. }
  assert (Hin : forall r, In r (filtered_rows out)
                <-> In r comb
                    /\ mask max_track min_frp start_dt end_dt r = true).
  { intro r. now rewrite Hout, sort_values_In, filter_In. }
  split; [|split; [|split; [|split]]].
  - unfold out.
    rewrite (get_layout_numeric _ _ _ _ _ _ _ _ _ Hload Hft Hff Hlat Hlon).
    apply proceed_not_raised.
  - rewrite Hout. apply sort_values_perm.
  - intro r. now rewrite Hin, mask_true.
  - intros r Hr. apply Hin in Hr. destruct Hr as [Hr _].
    exact (comb_rows glob comb r Hload Hr).
  - rewrite Hout. apply sort_values_sorted.
Qed.

Lemma filtered_exact_and_sorted_witness :
  let out := get_layout no_config 1704067200 1704153600 one_archive in
  out <> Raised
  /\ Permutation (filter (mask 1 0 1704067200 1704153600) snpp_comb)
                 (filtered_rows out)
  /\ (forall r, In r (filtered_rows out)
                <-> In r snpp_comb
                    /\ (exists t, track (det r) = Num t /\ t <= 1)
                    /\ (exists f, frp (det r) = Num f /\ 0 <= f)
                    /\ (1704067200 <= date r <= 1704153600)%Z)
  /\ (forall r, In r (filtered_rows out) ->
        exists raw s,
          det r = coerce_columns raw
          /\ strptime_HM (zfill 4 (NilEmpty.string_of_uint
                                     (Nat.to_uint (acq_time raw)))) = Some s
          /\ date r = (86400 * acq_date raw + s)%Z)
  /\ StronglySorted (fun a b => (date a <= date b)%Z) (filtered_rows out).
Proof.
  apply (filtered_exact_and_sorted no_config 1704067200 1704153600
           one_archive snpp_comb 1 0 0 0);
    [vm_compute; reflexivity | reflexivity ..].
Defined.

End MapperClaims.

Section DistanceClaims.
Import Pandas Firms Mapper.

Lemma get_layout_report (cfg : config) (start_dt end_dt : Z)
      (glob : string -> list (list Detection))
      (filtered : list FilteredDetection) :
  get_layout cfg start_dt end_dt glob = Report filtered ->
  exists lat lon rows,
    setting cfg "lats_vent" 0 = Some lat
    /\ setting cfg "longs_vent" 0 = Some lon
    /\ filtered = map (tag_distance lat lon) rows.
Proof.
  unfold get_layout. rewrite !get_setting.
  destruct (load_and_tag_data glob) as [[|c comb]|]; try discriminate.
  destruct (setting cfg "filter_track" 1) as [ft|]; [|discriminate].
  destruct (setting cfg "filter_frp" 0) as [ff|]; [|discriminate].
  destruct (sort_values _ _) as [|r rest]; [discriminate|].
  destruct (setting cfg "lats_vent" 0) as [lat|]; [|discriminate].
  destruct (setting cfg "longs_vent" 0) as [lon|]; [|discriminate].
  intros [= <-]. now exists lat, lon, (r :: rest).
Qed.

(** Lines 91-96 are the Haversine formula on the coordinates in radians. *)
Lemma distance_haversine (lat1 lon1 lat2 lon2 : R) :
  distance lat1 lon1 lat2 lon2
  = haversine (radians lat1) (radians lon1) (radians lat2) (radians lon2).
Proof.
  unfold distance, haversine, radians, R_mean.
  rewrite <- !Rsqr_pow2.
  replace (lat1 * (PI / 180))%R with (lat1 * PI / 180)%R by (unfold Rdiv; ring).
  replace (lat2 * (PI / 180))%R with (lat2 * PI / 180)%R by (unfold Rdiv; ring).
  replace (lon1 * (PI / 180))%R with (lon1 * PI / 180)%R by (unfold Rdiv; ring).
  replace (lon2 * (PI / 180))%R with (lon2 * PI / 180)%R by (unfold Rdiv; ring).
  ring.
Qed.

Lemma PI_bounds : (313 / 100 < PI < 315 / 100)%R.
Proof.
  pose proof (PI_2_3_7_ineq 0) as [L _].
  pose proof (PI_2_3_7_ineq 1) as [_ U].
  unfold sum_f_R0, tg_alt, PI_2_3_7_tg, Ratan_seq in L, U.
  simpl in L, U.
  split; lra.
Qed.

Lemma asin_sqrt_sin2 (x : R) :
  (0 <= x <= PI / 2)%R -> asin (sqrt ((sin x) ^ 2)) = x.
Proof.
  intros [H0 H1].
  rewrite <- Rsqr_pow2, sqrt_Rsqr.
  - apply asin_sin. lra.
  - apply sin_ge_0; pose proof PI_RGT_0; lra.
Qed.

(** From the reference point (0, 0) to (0, x degrees), 0 <= x <= 180, the
    distance is the arc R_earth * x * pi / 180. *)
Lemma distance_along_equator (x : R) :
  (0 <= x <= 180)%R ->
  distance 0 0 0 x = (6371 * x * PI / 180)%R.
Proof.
  intros [H0 H1]. unfold distance.
  rewrite !Rmult_0_l, Rminus_0_r, Rminus_0_r.
  replace (0 / 2)%R with 0%R by (unfold Rdiv; ring).
  rewrite sin_0, cos_0.
  replace (0 ^ 2 + 1 * 1 * sin (x * (PI / 180) / 2) ^ 2)%R
    with ((sin (x * (PI / 180) / 2)) ^ 2)%R by ring.
  pose proof PI_RGT_0 as Hpi.
  rewrite asin_sqrt_sin2.
  - field.
  - split.
    + apply Rmult_le_pos; [|lra]. apply Rmult_le_pos; [lra|].
      apply Rmult_le_pos; lra.
    + replace (x * (PI / 180) / 2)%R with (x / 180 * (PI / 2))%R
        by (unfold Rdiv; field).
      rewrite <- (Rmult_1_l (PI / 2)) at 2.
      apply Rmult_le_compat_r; lra.
Qed.

(** C7: the distance tagged on a detection is the Haversine distance
    2 R asin(sqrt(sin^2(dlat/2) + cos lat1 cos lat2 sin^2(dlon/2))) with
    R = 6371 km between the reference point and the detection, angles in
    radians; from (0, 0) to (0, 0.01 degrees) it is 1.11 km within 1%. *)
Theorem distance_is_haversine
        (cfg : config) (start_dt end_dt : Z)
        (glob : string -> list (list Detection))
        (filtered : list FilteredDetection) (f : FilteredDetection)
        (la lo : Q) :
  get_layout cfg start_dt end_dt glob = Report filtered ->
  In f filtered ->
  latitude (det (tagged f)) = Num la ->
  longitude (det (tagged f)) = Num lo ->
  exists lat lon d,
    setting cfg "lats_vent" 0 = Some lat
    /\ setting cfg "longs_vent" 0 = Some lon
    /\ distance_km f = Some d
    /\ d = haversine (radians (Q2R lat)) (radians (Q2R lon))
                     (radians (Q2R la)) (radians (Q2R lo))
    /\ (lat == 0 -> lon == 0 -> la == 0 -> lo == 1 # 100 ->
        (Rabs (d - 111 / 100) <= 111 / 10000)%R).
Proof.
  intros Hrun Hin Hla Hlo.
  destruct (get_layout_report _ _ _ _ _ Hrun) as [lat [lon [rows [Hlat [Hlon ->]]]]].
  apply in_map_iff in Hin. destruct Hin as [r [<- _]].
  simpl in Hla, Hlo.
  exists lat, lon, (distance (Q2R lat) (Q2R lon) (Q2R la) (Q2R lo)).
  split; [exact Hlat|]. split; [exact Hlon|].
  split; [simpl; now rewrite Hla, Hlo|].
  split; [apply distance_haversine|].
  intros E1 E2 E3 E4.
  apply Qeq_eqR in E1, E2, E3, E4.
  rewrite E1, E2, E3, E4.
  replace (Q2R 0) with 0%R by (unfold Q2R; simpl; lra).
  replace (Q2R (1 # 100)) with (1 / 100)%R by (unfold Q2R; simpl; lra).
  rewrite distance_along_equator by lra.
  pose proof PI_bounds as [L U].
  apply Rabs_le. lra.
Qed.

Lemma distance_is_haversine_witness :
  exists lat lon d,
    setting no_config "lats_vent" 0 = Some lat
    /\ setting no_config "longs_vent" 0 = Some lon
    /\ distance_km
         (tag_distance 0 0
            (mkTagged (mkDetection (Num 0) (Num (1 # 100)) 19724 1200
                                   (Num 20) (Num (3 # 10)))
                      1704196800 "SNPP" 1)) = Some d
    /\ d = haversine (radians (Q2R lat)) (radians (Q2R lon))
                     (radians (Q2R 0)) (radians (Q2R (1 # 100)))
    /\ (lat == 0 -> lon == 0 -> 0 == 0 -> 1 # 100 == 1 # 100 ->
        (Rabs (d - 111 / 100) <= 111 / 10000)%R).
Proof.
  apply (distance_is_haversine no_config 1704067200 1704196800 one_archive
           (map (tag_distance 0 0)
                [ mkTagged (mkDetection (Num (1 # 1000)) (Num 0) 19723 0
                                        (Num 10) (Num (3 # 10)))
                           1704067200 "SNPP" 1;
                  mkTagged (mkDetection (Num 0) (Num (1 # 100)) 19724 1200
                                        (Num 20) (Num (3 # 10)))
                           1704196800 "SNPP" 1 ])).
  - rewrite (get_layout_numeric no_config _ _ one_archive snpp_comb 1 0 0 0
               snpp_loaded eq_refl eq_refl eq_refl eq_refl).
    cbv - [tag_distance]. reflexivity.
  - simpl. right. left. reflexivity.
  - reflexivity.
  - reflexivity.
Defined.

End DistanceClaims.

(** ** Further properties of the download and merge (FIRMS_download.py) *)
Section DownloadRun.
Import Pandas Firms Download DownloadLog.

Lemma download_loop_log (api : source_id -> response) (srcs : list source_id) :
  forall fs log,
    map entry_source (snd (download_loop api srcs fs log))
    = map entry_source log ++ srcs.
Proof.
  induction srcs as [|s rest IH]; intros fs log; simpl.
  - now rewrite app_nil_r.
  - destruct (process_source s (api s) (fs s)) as [f e] eqn:E.
    rewrite IH, map_app. simpl. rewrite <- app_assoc. simpl.
    do 2 f_equal. unfold process_source in E.
    destruct (negb (status_code (api s) =? 200)%Z); [now inversion E|].
    destruct (text (api s)); now inversion E.
Qed.

(** X4: a run writes each source's file from that source's reply and that
    source's previous file alone. *)
Theorem download_sources_independent
        (api : source_id -> response) (fs : files) (s : source_id) :
  fst (process_download api fs) s = fst (process_source s (api s) (fs s)).
Proof. apply process_download_per_source. Qed.

(** X5: the returned log has exactly one line per source, in the order of
    [sources], whatever the replies. *)
Theorem download_log_one_line_per_source
        (api : source_id -> response) (fs : files) :
  map entry_source (snd (process_download api fs)) = sources.
Proof. unfold process_download. now rewrite download_loop_log. Qed.

End DownloadRun.

Section ArchiveInvariant.
Import Pandas Firms Download DownloadLog.

(** X1: whatever the archive file and the batch hold, the frame written on
    the existing-archive path has no two rows with one dedup key, only rows
    with numeric coordinates, and is left as it is by another round of
    coercing, dropping and deduplicating. *)
Theorem existing_merge_archive_invariant
        (src : source_id) (hist batch : list Detection) :
  let merged := merge_frames (Some hist) batch in
  NoDup (map (dedup_key src) merged)
  /\ Forall numeric_coordinates merged
  /\ drop_duplicates (clean merged) = merged.
Proof.
  intro merged. split; [apply merge_existing_no_duplicates|]. split.
  - apply Forall_forall. intros r Hr. exact (merged_numeric hist batch r Hr).
  - unfold merged, merge_frames, combine_frames.
    fold (clean (refresh hist batch ++ batch)).
    rewrite deduplicated_clean. apply drop_duplicates_idem.
Qed.

(** X2: of the rows of the combined frame (kept archive rows first, batch
    rows after) that share a dedup key, the one written is the earliest:
    a row is written exactly when no row before it carries its key. *)
Theorem existing_merge_keeps_first_seen
        (hist batch : list Detection) (r : Detection) :
  In r (merge_frames (Some hist) batch)
  <-> exists before after,
        clean (refresh hist batch ++ batch) = before ++ r :: after
        /\ forall x, In x before -> key x <> key r.
Proof. apply merge_existing_first_seen. Qed.

(** X3: merging the same non-empty batch a second time into the archive the
    first merge wrote (the archive file existing beforehand) writes the very
    same rows in the same order. *)
Theorem existing_merge_idempotent
        (src : source_id) (hist batch : list Detection) :
  batch <> [] ->
  merge src batch (merge src batch (Some hist)) = merge src batch (Some hist).
Proof. apply merge_existing_idempotent. Qed.

Lemma existing_merge_idempotent_witness :
  [spot_a; spot_b] <> []
  /\ merge MODIS_NRT [spot_a; spot_b]
           (merge MODIS_NRT [spot_a; spot_b] (Some old_archive))
     = merge MODIS_NRT [spot_a; spot_b] (Some old_archive).
Proof.
  split; [discriminate|].
  apply (existing_merge_idempotent MODIS_NRT old_archive [spot_a; spot_b]).
  discriminate.
Defined.

(** Rows selected from a frame with distinct keys have distinct keys. *)
Lemma selected_keys_distinct (keep : Detection -> bool) (df : list Detection) :
  NoDup (map key df) -> NoDup (map key (filter keep df)).
Proof.
  intro Hnd. induction df as [|r rest IH]; simpl; [constructor|].
  inversion Hnd as [|k ks Hr Hrest]; subst.
  destruct (keep r); simpl; [|exact (IH Hrest)].
  constructor; [|exact (IH Hrest)].
  intro Hin. apply Hr. apply in_map_iff in Hin.
  destruct Hin as [y [Hy Hin]]. rewrite <- Hy.
  apply in_map. apply filter_In in Hin. tauto.
Qed.

(** X7: when the archive rows have numeric coordinates and pairwise
    different dedup keys, a merge leaves every archive row of a date that
    does not occur in the batch exactly as it was, in the same order. *)
Theorem other_dates_untouched
        (src : source_id) (hist batch : list Detection) :
  batch <> [] ->
  Forall numeric_coordinates hist ->
  NoDup (map key hist) ->
  exists merged,
    merge src batch (Some hist) = Some merged
    /\ filter (fun r => negb (in_refresh_window batch r)) merged
       = filter (fun r => negb (in_refresh_window batch r)) hist.
Proof.
  intros Hne Hnum Hnd. exists (merge_frames (Some hist) batch).
  split; [now apply merge_nonempty|].
  rewrite merge_frames_split, filter_app.
  rewrite (filter_all (fun r => negb (in_refresh_window batch r))
             (drop_duplicates (clean (refresh hist batch)))).
  - rewrite filter_none.
    + rewrite app_nil_r.
      change (refresh hist batch)
        with (filter (fun r => negb (in_refresh_window batch r)) hist).
      unfold clean. rewrite clean_fixed.
      * apply dds_fixed; [now apply selected_keys_distinct|]. intros r _ [].
      * apply Forall_forall. intros r Hr. apply filter_In in Hr.
        rewrite Forall_forall in Hnum. now apply Hnum.
    + intros x Hx. cbv beta. now rewrite (batch_inside_window _ _ Hx).
  - intros x Hx. cbv beta. now rewrite (kept_outside_window _ _ _ Hx).
Qed.

Lemma other_dates_untouched_witness :
  [spot_b] <> []
  /\ Forall numeric_coordinates [day_before; elsewhere; spot_a]
  /\ NoDup (map key [day_before; elsewhere; spot_a])
  /\ exists merged,
       merge MODIS_NRT [spot_b] (Some [day_before; elsewhere; spot_a])
       = Some merged
       /\ filter (fun r => negb (in_refresh_window [spot_b] r)) merged
          = filter (fun r => negb (in_refresh_window [spot_b] r))
                   [day_before; elsewhere; spot_a].
Proof.
  assert (Hnum : Forall numeric_coordinates [day_before; elsewhere; spot_a]).
  { repeat constructor; do 2 eexists; split; reflexivity. }
  assert (Hnd : NoDup (map key [day_before; elsewhere; spot_a])).
  { vm_compute. repeat constructor; simpl; intuition discriminate. }
  split; [discriminate|]. split; [exact Hnum|]. split; [exact Hnd|].
  apply (other_dates_untouched MODIS_NRT [day_before; elsewhere; spot_a]
           [spot_b]); [discriminate | exact Hnum | exact Hnd].
Defined.

End ArchiveInvariant.

Section KeyPrecision.
Import Pandas Firms Download.

(** [rint] is a nearest integer. *)
Lemma rint_near (x : Q) :
  inject_Z (rint x) - (1 # 2) <= x /\ x <= inject_Z (rint x) + (1 # 2).
Proof.
  unfold rint.
  pose proof (Qfloor_le x) as Hlo. pose proof (Qlt_floor x) as Hhi.
  rewrite inject_Z_plus in Hhi.
  assert (H1 : Qltb (x - inject_Z (Qfloor x)) (1 # 2) = false ->
               (1 # 2) <= x - inject_Z (Qfloor x)).
  { intro E. apply Qnot_lt_le. intro H. apply Qltb_true in H. congruence. }
  assert (H2 : Qltb (1 # 2) (x - inject_Z (Qfloor x)) = false ->
               x - inject_Z (Qfloor x) <= (1 # 2)).
  { intro E. apply Qnot_lt_le. intro H. apply Qltb_true in H. congruence. }
  destruct (Qltb (x - inject_Z (Qfloor x)) (1 # 2)) eqn:E1;
    [apply Qltb_true in E1
    |specialize (H1 eq_refl);
     destruct (Qltb (1 # 2) (x - inject_Z (Qfloor x)));
     [|specialize (H2 eq_refl); destruct (Z.even (Qfloor x))]].
  all: try rewrite inject_Z_plus.
  all: change (inject_Z 1) with 1 in *.
  all: set (f := inject_Z (Qfloor x)) in *; clearbody f.
  all: split; Lqa.lra.
Qed.

(** Closeness alone does not make a key: 0.00004 and 0.00006 are 0.00002
    apart and round to different fourth decimals. *)
Example close_rows_different_keys :
  round4 (4 # 100000) = 0%Z /\ round4 (6 # 100000) = 1%Z.
Proof. split; vm_compute; reflexivity. Qed.

End KeyPrecision.

(** ** Further properties of the breakthrough tracker (LavaFlow_speed.py) *)
Section SpeedChain.
Import Pandas Speed SpeedReport.

Lemma np_maximum_not_above (p d : Q) :
  Qgtb d p = false -> np_maximum p d == p.
Proof.
  intro E. unfold np_maximum.
  destruct (Qle_bool p d) eqn:Ele; [|reflexivity].
  apply Qle_bool_iff in Ele.
  assert (d <= p).
  { apply Qnot_lt_le. intro H. apply Qgtb_true in H. congruence. }
  now apply Qle_antisym.
Qed.

End SpeedChain.

Section SpeedReportFacts.
Import Pandas Speed SpeedReport.

Lemma np_maximum_ge_r (a b : Q) : b <= np_maximum a b.
Proof.
  unfold np_maximum. destruct (Qle_bool a b) eqn:E; [apply Qle_refl|].
  apply Qlt_le_weak, Qnot_le_lt. intro H. apply Qle_bool_iff in H. congruence.
Qed.

Lemma last_cons {A : Type} (l : list A) (x d : A) : last (x :: l) d = last l x.
Proof.
  revert x d. induction l as [|y t IH]; intros x d; [reflexivity|].
  change (last (x :: y :: t) d) with (last (y :: t) d).
  now rewrite (IH y d), (IH y x).
Qed.

Lemma last_default {A : Type} (l : list A) (d d' : A) :
  l <> [] -> last l d = last l d'.
Proof.
  destruct l as [|x t]; [contradiction|]. intros _. now rewrite !last_cons.
Qed.

Lemma date_min_sorted (l : list Z) : forall x,
  StronglySorted Z.le (x :: l) -> date_min x l = x.
Proof.
  unfold date_min.
  induction l as [|y t IH]; intros x Hs; [reflexivity|].
  apply StronglySorted_inv in Hs. destruct Hs as [Hs Hall].
  simpl fold_left. inversion Hall as [|? ? Hxy Ht]; subst.
  rewrite Z.min_l by exact Hxy. apply IH.
  constructor; [now apply StronglySorted_inv in Hs|exact Ht].
Qed.

Lemma date_max_sorted (l : list Z) : forall x,
  StronglySorted Z.le (x :: l) -> date_max x l = last l x.
Proof.
  unfold date_max.
  induction l as [|y t IH]; intros x Hs; [reflexivity|].
  apply StronglySorted_inv in Hs. destruct Hs as [Hs Hall].
  simpl fold_left. inversion Hall as [|? ? Hxy Ht]; subst.
  rewrite Z.max_r by exact Hxy. rewrite IH by exact Hs.
  now rewrite last_cons.
Qed.

Lemma sorted_last {A : Type} (R : A -> A -> Prop) (l : list A) (x : A) :
  StronglySorted R (x :: l) -> l <> [] -> R x (last l x).
Proof.
  intros Hs Hne. apply StronglySorted_inv in Hs. destruct Hs as [_ Hall].
  rewrite Forall_forall in Hall. apply Hall.
  destruct (exists_last Hne) as [l' [a ->]].
  rewrite last_last. apply in_elt.
Qed.

Lemma sorted_of_map {A B : Type} (f : A -> B) (R : B -> B -> Prop) (l : list A) :
  StronglySorted (fun a b => R (f a) (f b)) l -> StronglySorted R (map f l).
Proof.
  induction 1 as [|x l Hs IH Hall]; simpl; constructor; [exact IH|].
  now apply Forall_map.
Qed.

End SpeedReportFacts.

Section SpeedReportClaims.
Import Pandas Speed SpeedReport.

Lemma last_map {A B : Type} (f : A -> B) (l : list A) (d : A) :
  last (map f l) (f d) = f (last l d).
Proof.
  revert d. induction l as [|x t IH]; intro d; [reflexivity|].
  cbn [map]. rewrite !last_cons. apply IH.
Qed.

Lemma get_layout_events (csv : list DailyExtent) (s e : Z) (md : Q)
      (ms av : float64) :
  get_layout (Some csv) = Propagation s e md ms av ->
  exists first rest,
    speed_columns (filter is_breakthrough (with_columns csv)) = first :: rest
    /\ s = date_min (date first) (map date rest)
    /\ e = date_max (date first) (map date rest)
    /\ md = column_max (max_distance first) (map max_distance rest)
    /\ ms = (if negb (forallb isna (map speed (first :: rest)))
             then series_max (map speed (first :: rest)) else Fin 0)
    /\ av = (if negb (forallb isna (map speed (first :: rest)))
             then series_mean (map speed (first :: rest)) else Fin 0).
Proof.
  unfold get_layout, process_speed_data.
  destruct (speed_columns _) as [|first rest]; [discriminate|].
  intros [= <- <- <- <- <-]. exists first, rest. repeat split.
Qed.

End SpeedReportClaims.

Section SpeedValues.
Import Pandas Speed SpeedReport.

Lemma sorted_adjacent {A : Type} (R : A -> A -> Prop) (l : list A) :
  StronglySorted R l -> forall i a b,
  nth_error l i = Some a -> nth_error l (S i) = Some b -> R a b.
Proof.
  induction 1 as [|x l Hs IH Hall]; intros i a b Ha Hb.
  - now destruct i.
  - destruct i as [|i]; simpl in Ha, Hb.
    + injection Ha as <-. rewrite Forall_forall in Hall.
      apply Hall. apply (nth_error_In l 0). exact Hb.
    + exact (IH i a b Ha Hb).
Qed.

Lemma breakthrough_days_sorted (csv : list DailyExtent) :
  StronglySorted (fun a b => (day a <= day b)%Z)
                 (filter is_breakthrough (with_columns csv)).
Proof. rewrite columns_scan. apply scan_days_sorted, sorted_days. Qed.

Lemma breakthrough_gap (csv : list DailyExtent) (t : DailyExtent * Q * Q) :
  In t (filter is_breakthrough (with_columns csv)) ->
  0 < (snd (fst t) - snd t) * 1000.
Proof.
  rewrite columns_scan. intro H.
  pose proof (scan_first_gap
                (sort_values (fun r => to_datetime (date_only r)) csv)) as Hg.
  rewrite Forall_forall in Hg. specialize (Hg _ H).
  apply Qmult_lt_0_compat; [|reflexivity].
  unfold Qminus. rewrite <- (Qplus_opp_r (snd t)).
  apply Qplus_lt_l. exact Hg.
Qed.

Lemma truediv_positive (x : Q) (s : Z) :
  0 < x -> (0 <= s)%Z ->
  truediv (Fin x) (Fin (inject_Z s / 3600)) = PInf
  \/ exists q, truediv (Fin x) (Fin (inject_Z s / 3600)) = Fin q /\ 0 < q.
Proof.
  intros Hx Hs. destruct (Z.eq_dec s 0) as [->|Hne].
  - left. apply truediv_by_zero; [exact Hx|reflexivity].
  - right. simpl. rewrite hours_nonzero by lia.
    eexists. split; [reflexivity|].
    apply Qlt_shift_div_l.
    + apply Qlt_shift_div_l; [reflexivity|].
      rewrite Qmult_0_l. change 0 with (inject_Z 0).
      rewrite <- Zlt_Qlt. lia.
    + now rewrite Qmult_0_l.
Qed.

(** The speed cells: NaN in the first row, then +inf or a positive number. *)
Lemma speed_shape (csv : list DailyExtent) (i : nat) (e : Breakthrough) :
  nth_error (speed_columns (filter is_breakthrough (with_columns csv))) i
  = Some e ->
  match i with
  | O => speed e = NaN
  | S _ => speed e = PInf \/ exists q, speed e = Fin q /\ 0 < q
  end.
Proof.
  set (l := filter is_breakthrough (with_columns csv)). intro He.
  destruct i as [|i].
  - apply speed_columns_first in He. destruct He as [[[r m] p] [_ ->]].
    reflexivity.
  - pose proof (event_core_nth _ _ _ He) as Ce.
    destruct (nth_error l i) as [a|] eqn:Ha.
    + rewrite (speed_columns_next l i a (core e) Ha Ce) in He.
      apply (f_equal (fun o => match o with Some x => x | None => e end)) in He.
      pose proof (sorted_adjacent _ _ (breakthrough_days_sorted csv)
                    i a (core e) Ha Ce) as Hd.
      pose proof (breakthrough_gap csv (core e) (nth_error_In _ _ Ce)) as Hg.
      rewrite <- He. destruct (core e) as [[r m] p]. cbn [fst snd] in Hg.
      apply truediv_positive; [exact Hg|].
      unfold day, to_datetime in *. cbn [fst] in *. lia.
    + exfalso. apply nth_error_None in Ha.
      assert (nth_error l (S i) = None) by (apply nth_error_None; lia).
      congruence.
Qed.

(** X11: every breakthrough after the first has a speed that is a positive
    number or +inf: never NaN, zero, negative or -inf. *)
Theorem later_speeds_positive
        (csv : list DailyExtent) (evs : list Breakthrough) (i : nat)
        (e : Breakthrough) :
  process_speed_data (Some csv) = Some evs ->
  nth_error evs (S i) = Some e ->
  speed e = PInf \/ exists q, speed e = Fin q /\ 0 < q.
Proof.
  intros [= <-] He. exact (speed_shape csv (S i) e He).
Qed.

Lemma later_speeds_positive_witness :
  speed (finish (mkDailyExtent 19723 "NOAA20" (3 # 2) 12 0 0 2, 3 # 2, 1)
                (Some 0%Z)) = PInf
  \/ exists q,
       speed (finish (mkDailyExtent 19723 "NOAA20" (3 # 2) 12 0 0 2, 3 # 2, 1)
                     (Some 0%Z)) = Fin q /\ 0 < q.
Proof.
  eapply (later_speeds_positive same_day_rows _ 0); reflexivity.
Defined.

End SpeedValues.

Section SpeedSummary.
Import Pandas Speed SpeedReport.

(** X12: with a single breakthrough there is no speed to report: the page
    shows 0 for "Max Speed" and for "Mean Speed" (not NaN). *)
Theorem lone_breakthrough_speed_zero
        (csv : list DailyExtent) (e : Breakthrough) :
  process_speed_data (Some csv) = Some [e] ->
  get_layout (Some csv)
  = Propagation (date e) (date e) (max_distance e) (Fin 0) (Fin 0).
Proof.
  intro H. unfold get_layout. rewrite H.
  injection H as H.
  assert (Hs : speed e = NaN).
  { apply (speed_shape csv 0 e). now rewrite H. }
  simpl. now rewrite Hs.
Qed.

Lemma lone_breakthrough_speed_zero_witness :
  get_layout (Some [mkDailyExtent 19723 "SNPP" 1 10 0 0 1])
  = Propagation 1704067200 1704067200 1 (Fin 0) (Fin 0).
Proof.
  apply (lone_breakthrough_speed_zero
           [mkDailyExtent 19723 "SNPP" 1 10 0 0 1]
           (finish (mkDailyExtent 19723 "SNPP" 1 10 0 0 1, 1, 0) None)).
  reflexivity.
Defined.

Lemma fold_fmax_pinf (l : list float64) : forall acc,
  (forall x, In x l -> x <> NaN) ->
  acc = PInf \/ In PInf l ->
  fold_left fmax l acc = PInf.
Proof.
  induction l as [|x t IH]; intros acc Hn H; simpl.
  - destruct H as [H|[]]. exact H.
  - apply IH; [intros y Hy; apply Hn; now right|].
    destruct H as [-> | [-> | H]].
    + left. assert (x <> NaN) by (apply Hn; now left). now destruct x.
    + left. now destruct acc.
    + now right.
Qed.

Lemma fold_fadd_pinf (l : list float64) : forall acc,
  (forall x, In x l -> x = PInf \/ exists q, x = Fin q) ->
  acc = PInf \/ ((exists q, acc = Fin q) /\ In PInf l) ->
  fold_left fadd l acc = PInf.
Proof.
  induction l as [|x t IH]; intros acc Hn H; simpl.
  - destruct H as [H|[_ []]]. exact H.
  - apply IH; [intros y Hy; apply Hn; now right|].
    destruct (Hn x (or_introl eq_refl)) as [-> | [q ->]].
    + left. destruct H as [-> | [[q' ->] _]]; reflexivity.
    + destruct H as [-> | [[q' ->] [Hx | Hin]]].
      * now left.
      * discriminate.
      * right. split; [eexists; reflexivity|exact Hin].
Qed.

(** X13: when two successive breakthroughs carry the same date, the page
    reports +inf both as "Max Speed" and as "Mean Speed". *)
Theorem same_day_report_infinite
        (csv : list DailyExtent) (s e : Z) (md : Q) (ms av : float64)
        (evs : list Breakthrough) (i : nat) (a b : Breakthrough) :
  get_layout (Some csv) = Propagation s e md ms av ->
  process_speed_data (Some csv) = Some evs ->
  nth_error evs i = Some a -> nth_error evs (S i) = Some b ->
  date a = date b ->
  speed b = PInf /\ ms = PInf /\ av = PInf.
Proof.
  intros Hrep [= <-] Ha Hb Hd.
  set (l := filter is_breakthrough (with_columns csv)) in *.
  apply get_layout_events in Hrep. fold l in Hrep.
  destruct Hrep as [first [rest [Hev [_ [_ [_ [Hms Hav]]]]]]].
  assert (Hinf : speed b = PInf).
  { pose proof (event_core_nth _ _ _ Ha) as Ca.
    pose proof (event_core_nth _ _ _ Hb) as Cb.
    pose proof (event_date l a (nth_error_In _ _ Ha)) as Da.
    pose proof (event_date l b (nth_error_In _ _ Hb)) as Db.
    pose proof (breakthrough_gap csv (core b) (nth_error_In _ _ Cb)) as Hg.
    pose proof Hb as Hb'.
    rewrite (speed_columns_next l i (core a) (core b) Ca Cb) in Hb'.
    apply (f_equal (fun o => match o with Some x => x | None => b end)) in Hb'.
    rewrite <- Da, <- Db, Hd, Z.sub_diag in Hb'.
    rewrite <- Hb'. destruct (core b) as [[r m] p]. cbn [fst snd] in Hg.
    change (speed (finish (r, m, p) (Some 0%Z)))
      with (truediv (Fin ((m - p) * 1000)) (Fin (inject_Z 0 / 3600))).
    apply truediv_by_zero; [exact Hg|reflexivity]. }
  split; [exact Hinf|].
  rewrite <- Hev in Hms, Hav.
  set (speeds := map speed (speed_columns l)) in *.
  assert (Hin : In PInf speeds).
  { rewrite <- Hinf. apply in_map. eapply nth_error_In, Hb. }
  assert (Hshape : forall x, In x speeds ->
            x = NaN \/ x = PInf \/ exists q, x = Fin q).
  { intros x Hx. apply in_map_iff in Hx. destruct Hx as [ev [<- Hev']].
    apply In_nth_error in Hev'. destruct Hev' as [n Hn].
    pose proof (speed_shape csv n ev Hn) as Hsh.
    destruct n; [now left|]. right.
    destruct Hsh as [-> | [q [-> _]]]; [now left|right; now exists q]. }
  assert (Hna : forallb isna speeds = false).
  { destruct (forallb isna speeds) eqn:E; [|reflexivity].
    rewrite forallb_forall in E. specialize (E _ Hin). discriminate. }
  rewrite Hna in Hms, Hav. simpl negb in Hms, Hav. cbv iota in Hms, Hav.
  assert (Hin' : In PInf (dropna speeds)).
  { apply filter_In. now split. }
  assert (Hvalid : forall x, In x (dropna speeds) ->
            x = PInf \/ exists q, x = Fin q).
  { intros x Hx. apply filter_In in Hx. destruct Hx as [Hx Hnx].
    destruct (Hshape x Hx) as [-> | H]; [discriminate|exact H]. }
  split.
  - rewrite Hms. unfold series_max. apply fold_fmax_pinf.
    + intros x Hx Hn. destruct (Hvalid x Hx) as [-> | [q ->]]; discriminate.
    + now right.
  - rewrite Hav. unfold series_mean.
    destruct (dropna speeds) as [|x xs] eqn:Ed; [contradiction|].
    rewrite fold_fadd_pinf.
    + reflexivity.
    + exact Hvalid.
    + right. split; [now exists 0|exact Hin'].
Qed.

Lemma same_day_report_infinite_witness :
  get_layout (Some same_day_rows)
  = Propagation 1704067200 1704067200 (3 # 2) PInf PInf
  /\ speed (finish (mkDailyExtent 19723 "NOAA20" (3 # 2) 12 0 0 2, 3 # 2, 1)
                   (Some 0%Z)) = PInf
  /\ PInf = PInf /\ PInf = PInf.
Proof.
  split; [reflexivity|].
  eapply (same_day_report_infinite same_day_rows 1704067200 1704067200
            (3 # 2) PInf PInf _ 0); reflexivity.
Defined.

End SpeedSummary.

(** ** Further properties of the mapper (LavaFlow_mapper.py) *)
Section MapperLoadFacts.
Import Pandas Firms Mapper MapperLoad.

Lemma hhmm_table : forallb hhmm_agrees (seq 0 (100 * 100)) = true.
Proof. vm_compute. reflexivity. Qed.

Lemma strptime_hhmm (n : nat) :
  (n < 100 * 100)%nat ->
  strptime_HM (zfill 4 (NilEmpty.string_of_uint (Nat.to_uint n)))
  = hhmm_seconds n.
Proof.
  intro Hn. pose proof hhmm_table as H.
  rewrite forallb_forall in H.
  assert (Hin : In n (seq 0 (100 * 100))) by (apply in_seq; lia).
  specialize (H n Hin). unfold hhmm_agrees in H.
  destruct (strptime_HM _) as [a|], (hhmm_seconds n) as [b|];
    try discriminate; [|reflexivity].
  apply Z.eqb_eq in H. now subst.
Qed.

(** X14: for an acquisition time below 10000, the [date] of a row is its
    acquisition day at HH:MM, where HH are the hundreds and MM the rest of
    the time, provided HH <= 23 and MM <= 59; otherwise parsing the time
    raises. *)
Theorem timestamp_of_hhmm (r : Detection) :
  (acq_time r < 100 * 100)%nat ->
  timestamp r
  = if ((acq_time r / 100 <=? 23) && (acq_time r mod 100 <=? 59))%nat
    then Some (86400 * acq_date r
               + (3600 * Z.of_nat (acq_time r / 100)
                  + 60 * Z.of_nat (acq_time r mod 100)))%Z
    else None.
Proof.
  intro Hn. unfold timestamp, acq_time_str.
  rewrite (strptime_hhmm _ Hn). unfold hhmm_seconds.
  now destruct ((acq_time r / 100 <=? 23) && (acq_time r mod 100 <=? 59))%nat.
Qed.

Lemma timestamp_of_hhmm_witness :
  (930 < 100 * 100)%nat
  /\ timestamp (mkDetection (Num 0) (Num 0) 19723 930 (Num 1) (Num 1))
     = Some (86400 * 19723 + (3600 * 9 + 60 * 30))%Z.
Proof.
  split; [vm_compute; lia|].
  exact (timestamp_of_hhmm
           (mkDetection (Num 0) (Num 0) 19723 930 (Num 1) (Num 1))
           ltac:(vm_compute; lia)).
Defined.

Lemma traverse_None {A B : Type} (f : A -> option B) (l : list A) (x : A) :
  In x l -> f x = None -> traverse f l = None.
Proof.
  induction l as [|a t IH]; simpl; [tauto|].
  intros [->|Hin] Hx.
  - now rewrite Hx.
  - rewrite (IH Hin Hx). now destruct (f a).
Qed.

Lemma traverse_Some {A B : Type} (f : A -> option B) (g : A -> B)
      (l : list A) :
  (forall x, In x l -> f x = Some (g x)) -> traverse f l = Some (map g l).
Proof.
  induction l as [|a t IH]; simpl; intro H; [reflexivity|].
  rewrite (H a (or_introl eq_refl)), IH; [reflexivity|].
  intros x Hx. apply H. now right.
Qed.

(** X15: one row with a time that does not parse, in any file matching one
    of the three patterns, makes the whole run raise, whatever the
    configuration and the window. *)
Theorem bad_time_fails_run
        (cfg : config) (start_dt end_dt : Z)
        (glob : string -> list (list Detection))
        (c : sat_config) (file : list Detection) (r : Detection) :
  In c configs -> In file (glob (pattern c)) -> In r file ->
  timestamp r = None ->
  get_layout cfg start_dt end_dt glob = Raised.
Proof.
  intros Hc Hfile Hr Ht. unfold get_layout, load_and_tag_data.
  rewrite (traverse_None _ configs c Hc); [reflexivity|].
  apply (traverse_None _ _ file Hfile).
  apply (traverse_None _ _ r Hr).
  unfold tag_row. now rewrite Ht.
Qed.

Lemma bad_time_fails_run_witness :
  get_layout no_config 0 0 bad_time_archive = Raised.
Proof.
  apply (bad_time_fails_run no_config 0 0 bad_time_archive
           {| pattern := "*SNPP*.csv"; name := "SNPP"; id := 1 |}
           [ mkDetection (Num 0) (Num (1 # 100)) 19724 1200 (Num 20) (Num (3 # 10));
             mkDetection (Num 0) (Num (1 # 100)) 19724 2460 (Num 20) (Num (3 # 10)) ]
           (mkDetection (Num 0) (Num (1 # 100)) 19724 2460 (Num 20) (Num (3 # 10)))).
  - now left.
  - now left.
  - right. now left.
  - vm_compute. reflexivity.
Defined.

End MapperLoadFacts.

Section MapperLoadContent.
Import Pandas Firms Mapper MapperLoad.

Lemma tag_row_parsed (c : sat_config) (r : Detection) :
  timestamp r <> None -> tag_row c r = Some (tag_parsed c r).
Proof.
  unfold tag_row, tag_parsed. destruct (timestamp r); [reflexivity|congruence].
Qed.

Lemma cells_of_files (c : sat_config) (files : list (list Detection)) :
  map tagged_cells (List.concat (map (map (tag_parsed c)) files))
  = map (fun r => (coerce_columns r, name c, id c)) (List.concat files).
Proof.
  rewrite !concat_map, !map_map. f_equal.
  apply map_ext. intro file. now rewrite map_map.
Qed.

(** X16: when every time in the matched files parses, the archives are
    loaded whole: [comb] holds the rows of the SNPP files, then those of the
    NOAA20 files, then those of the NOAA21 files, each with its four numeric
    columns coerced and tagged with the satellite name and number of its
    pattern; no other file contributes. *)
Theorem archives_loaded_in_order
        (glob : string -> list (list Detection)) :
  (forall c file r,
      In c configs -> In file (glob (pattern c)) -> In r file ->
      timestamp r <> None) ->
  exists comb,
    load_and_tag_data glob = Some comb
    /\ map tagged_cells comb
       = flat_map (fun c => map (fun r => (coerce_columns r, name c, id c))
                                (rows_of glob c))
                  configs.
Proof.
  intro Hok.
  exists (List.concat
            (List.concat
               (map (fun c => map (map (tag_parsed c)) (glob (pattern c)))
                    configs))).
  split.
  - unfold load_and_tag_data.
    rewrite (traverse_Some _
               (fun c => map (map (tag_parsed c)) (glob (pattern c)))
               configs); [reflexivity|].
    intros c Hc. apply traverse_Some. intros file Hfile.
    apply traverse_Some. intros r Hr.
    apply tag_row_parsed. exact (Hok c file r Hc Hfile Hr).
  - unfold configs, rows_of. cbn [map flat_map List.concat].
    rewrite !concat_app, !map_app, !cells_of_files. reflexivity.
Qed.

Lemma archives_loaded_in_order_witness :
  exists comb,
    load_and_tag_data one_archive = Some comb
    /\ map tagged_cells comb
       = flat_map (fun c => map (fun r => (coerce_columns r, name c, id c))
                                (rows_of one_archive c))
                  configs.
Proof.
  apply (archives_loaded_in_order one_archive).
  intros c file r Hc Hfile Hr.
  destruct Hc as [<- | [<- | [<- | []]]]; simpl in Hfile;
    try contradiction.
  destruct Hfile as [<- | []].
  destruct Hr as [<- | [<- | [<- | []]]]; vm_compute; discriminate.
Defined.

End MapperLoadContent.

Section KeyOrder.
Import Pandas DailySummary.

Lemma ascii_compare_lt_trans (a b c : ascii) :
  Ascii.compare a b = Lt -> Ascii.compare b c = Lt -> Ascii.compare a c = Lt.
Proof.
  unfold Ascii.compare. rewrite !N.compare_lt_iff. apply N.lt_trans.
Qed.

Lemma string_compare_lt_trans (s1 : string) : forall s2 s3,
  String.compare s1 s2 = Lt -> String.compare s2 s3 = Lt ->
  String.compare s1 s3 = Lt.
Proof.
  induction s1 as [|a s1 IH]; intros [|b s2] [|c s3]; simpl;
    try discriminate; try reflexivity.
  destruct (Ascii.compare a b) eqn:Eab; try discriminate;
    destruct (Ascii.compare b c) eqn:Ebc; try discriminate.
  - apply Ascii.compare_eq_iff in Eab, Ebc. subst.
    replace (Ascii.compare c c) with Eq.
    + apply IH.
    + symmetry. unfold Ascii.compare. apply N.compare_refl.
  - apply Ascii.compare_eq_iff in Eab. subst. now rewrite Ebc.
  - apply Ascii.compare_eq_iff in Ebc. subst. now rewrite Eab.
  - now rewrite (ascii_compare_lt_trans _ _ _ Eab Ebc).
Qed.

Lemma string_compare_refl (s : string) : String.compare s s = Eq.
Proof.
  induction s as [|a s IH]; simpl; [reflexivity|].
  unfold Ascii.compare. now rewrite N.compare_refl.
Qed.

Lemma key_lt_trans (a b c : Z * string) : key_lt a b -> key_lt b c -> key_lt a c.
Proof.
  unfold key_lt, key_compare.
  destruct (Z.compare_spec (fst a) (fst b)) as [Hab|Hab|Hab];
    destruct (Z.compare_spec (fst b) (fst c)) as [Hbc|Hbc|Hbc];
    try discriminate; intros H1 H2.
  - rewrite Hab, Hbc, Z.compare_refl.
    exact (string_compare_lt_trans _ _ _ H1 H2).
  - rewrite Hab. now apply Z.compare_lt_iff in Hbc as ->.
  - rewrite <- Hbc. now apply Z.compare_lt_iff in Hab as ->.
  - assert (H : (fst a < fst c)%Z) by lia.
    now apply Z.compare_lt_iff in H as ->.
Qed.

Lemma key_compare_eq (a b : Z * string) : key_compare a b = Eq -> a = b.
Proof.
  unfold key_compare. destruct a as [d s], b as [d' s']. simpl.
  destruct (Z.compare_spec d d') as [->|H|H]; try discriminate.
  intro H. apply String.compare_eq_iff in H. now subst.
Qed.

Lemma key_compare_gt (a b : Z * string) : key_compare a b = Gt -> key_lt b a.
Proof.
  unfold key_lt, key_compare. destruct a as [d s], b as [d' s']. simpl.
  destruct (Z.compare_spec d d') as [->|H|H]; try discriminate; intro Hc.
  - rewrite Z.compare_refl. rewrite String.compare_antisym, Hc. reflexivity.
  - now apply Z.compare_lt_iff in H as ->.
Qed.

Lemma key_lt_irrefl (a : Z * string) : ~ key_lt a a.
Proof.
  unfold key_lt, key_compare. rewrite Z.compare_refl.
  destruct a as [d s]. simpl.
  rewrite string_compare_refl. discriminate.
Qed.

Lemma group_key_eqb_eq (a b : Z * string) : key_eqb a b = true <-> a = b.
Proof.
  unfold key_eqb. destruct a as [d s], b as [d' s']. simpl.
  rewrite andb_true_iff, Z.eqb_eq, String.eqb_eq.
  split; [intros [-> ->]; reflexivity|intros [= -> ->]; tauto].
Qed.

Lemma insert_key_In (k x : Z * string) (l : list (Z * string)) :
  In x (insert_key k l) <-> x = k \/ In x l.
Proof.
  induction l as [|h t IH]; simpl; [intuition congruence|].
  destruct (key_compare k h) eqn:E; simpl.
  - apply key_compare_eq in E. subst. intuition congruence.
  - intuition congruence.
  - rewrite IH. intuition congruence.
Qed.

Lemma insert_key_sorted (k : Z * string) (l : list (Z * string)) :
  StronglySorted key_lt l -> StronglySorted key_lt (insert_key k l).
Proof.
  induction 1 as [|h t Hs IH Hall]; simpl; [repeat constructor|].
  destruct (key_compare k h) eqn:E.
  - now constructor.
  - constructor; [now constructor|]. constructor; [exact E|].
    eapply Forall_impl; [|exact Hall].
    intros x Hx. exact (key_lt_trans _ _ _ E Hx).
  - constructor; [exact IH|]. apply Forall_forall. intros x Hx.
    apply insert_key_In in Hx. destruct Hx as [->|Hx].
    + now apply key_compare_gt.
    + rewrite Forall_forall in Hall. now apply Hall.
Qed.

Lemma group_keys_sorted (rows : list Mapper.FilteredDetection) :
  StronglySorted key_lt (group_keys rows).
Proof.
  induction rows as [|f t IH]; simpl; [constructor|].
  now apply insert_key_sorted.
Qed.

Lemma group_keys_In (rows : list Mapper.FilteredDetection) (k : Z * string) :
  In k (group_keys rows) <-> exists f, In f rows /\ group_key f = k.
Proof.
  induction rows as [|f t IH]; simpl.
  - split; [tauto|]. now intros [f [[] _]].
  - rewrite insert_key_In, IH. split.
    + intros [->|[g [Hg Hk]]]; [exists f; tauto|exists g; tauto].
    + intros [g [[<-|Hg] Hk]]; [now left|right; now exists g].
Qed.

Lemma sorted_NoDup (l : list (Z * string)) :
  StronglySorted key_lt l -> NoDup l.
Proof.
  induction 1 as [|h t Hs IH Hall]; constructor; [|exact IH].
  intro Hin. rewrite Forall_forall in Hall.
  exact (key_lt_irrefl h (Hall h Hin)).
Qed.

End KeyOrder.

(** A running maximum that skips missing cells, over any total preorder
    with a maximum. *)
Section SkippingMax.
Variable A : Type.
Variable le : A -> A -> Prop.
Variable mx : A -> A -> A.
Hypothesis le_refl : forall a, le a a.
Hypothesis le_trans : forall a b c, le a b -> le b c -> le a c.
Hypothesis mx_l : forall a b, le a (mx a b).
Hypothesis mx_r : forall a b, le b (mx a b).
Hypothesis mx_case : forall a b, mx a b = a \/ mx a b = b.

Variable step : option A -> option A -> option A.
Hypothesis step_none : forall y, step None y = y.
Hypothesis step_skip : forall a, step (Some a) None = Some a.
Hypothesis step_max : forall a b, step (Some a) (Some b) = Some (mx a b).

Lemma skipping_max_from (l : list (option A)) : forall a,
  exists m,
    fold_left step l (Some a) = Some m
    /\ le a m
    /\ (forall d, In (Some d) l -> le d m)
    /\ (m = a \/ In (Some m) l).
Proof.
  induction l as [|x t IH]; intro a; simpl.
  - exists a. repeat split; [apply le_refl|intros d []|now left].
  - destruct x as [b|]; [rewrite step_max|rewrite step_skip].
    + destruct (IH (mx a b)) as [m [Hf [Hle [Hall Hin]]]].
      exists m. split; [exact Hf|]. split; [|split].
      * eapply le_trans; [apply mx_l|exact Hle].
      * intros d [[= ->]|Hd]; [|now apply Hall].
        eapply le_trans; [apply mx_r|exact Hle].
      * destruct Hin as [->|Hin]; [|right; now right].
        destruct (mx_case a b) as [-> | ->]; [now left|right; now left].
    + destruct (IH a) as [m [Hf [Hle [Hall Hin]]]].
      exists m. split; [exact Hf|]. split; [exact Hle|]. split.
      * intros d [Hd|Hd]; [discriminate|now apply Hall].
      * destruct Hin as [->|Hin]; [now left|right; now right].
Qed.

Lemma skipping_max (l : list (option A)) (d : A) :
  In (Some d) l ->
  exists m,
    fold_left step l None = Some m /\ le d m /\ In (Some m) l.
Proof.
  induction l as [|x t IH]; simpl; [tauto|].
  rewrite step_none. destruct x as [b|].
  - intro Hd. destruct (skipping_max_from t b) as [m [Hf [Hle [Hall Hin]]]].
    exists m. split; [exact Hf|]. split.
    + destruct Hd as [[= ->]|Hd]; [exact Hle|now apply Hall].
    + destruct Hin as [->|Hin]; [now left|now right].
  - intros [Hd|Hd]; [discriminate|].
    destruct (IH Hd) as [m [Hf [Hle Hin]]].
    exists m. split; [exact Hf|]. split; [exact Hle|now right].
Qed.

End SkippingMax.

Section DailySummaryClaims.
Import Pandas DailySummary.

Lemma agg_max_spec (l : list (option R)) (d : R) :
  In (Some d) l ->
  exists m, agg_max l = Some m /\ (d <= m)%R /\ In (Some m) l.
Proof.
  apply (skipping_max R Rle Rmax).
  - apply Rle_refl.
  - apply Rle_trans.
  - apply Rmax_l.
  - apply Rmax_r.
  - intros a b. unfold Rmax. destruct (Rle_dec a b); tauto.
  - reflexivity.
  - reflexivity.
  - reflexivity.
Qed.

Lemma agg_max_Q_spec (l : list (option Q)) (d : Q) :
  In (Some d) l ->
  exists m, agg_max_Q l = Some m /\ d <= m /\ In (Some m) l.
Proof.
  apply (skipping_max Q Qle np_maximum).
  - apply Qle_refl.
  - apply Qle_trans.
  - apply np_maximum_ge.
  - apply np_maximum_ge_r.
  - intros a b. unfold np_maximum. destruct (Qle_bool a b); tauto.
  - reflexivity.
  - reflexivity.
  - reflexivity.
Qed.

Lemma summary_keys (filtered : list Mapper.FilteredDetection) :
  map day_key (summary filtered) = group_keys filtered.
Proof.
  unfold summary. rewrite map_map. rewrite <- (map_id (group_keys filtered)) at 2.
  apply map_ext. now intros [d s].
Qed.

Lemma summary_row (filtered : list Mapper.FilteredDetection) (s : DailyMax) :
  In s (summary filtered) -> s = aggregate filtered (day_key s).
Proof.
  unfold summary. rewrite in_map_iff. intros [[d n] [<- _]]. reflexivity.
Qed.

(** X17: the summary has exactly one row for each (day, satellite) pair
    that occurs among the filtered rows, sorted by day and then by satellite
    name; two of its rows with the same day belong to different
    satellites. *)
Theorem summary_one_row_per_day_and_satellite
        (filtered : list Mapper.FilteredDetection) :
  StronglySorted key_lt (map day_key (summary filtered))
  /\ NoDup (map day_key (summary filtered))
  /\ (forall k, In k (map day_key (summary filtered))
                <-> exists f, In f filtered /\ group_key f = k).
Proof.
  rewrite summary_keys. split; [apply group_keys_sorted|]. split.
  - apply sorted_NoDup, group_keys_sorted.
  - apply group_keys_In.
Qed.

(** X18: the distance of a summary row is the largest distance among the
    filtered rows of its day and satellite that have one: no such row
    exceeds it and one of them attains it. *)
Theorem summary_distance_is_group_maximum
        (filtered : list Mapper.FilteredDetection) (s : DailyMax)
        (f : Mapper.FilteredDetection) (d : R) :
  In s (summary filtered) ->
  In f filtered -> group_key f = day_key s ->
  Mapper.distance_km f = Some d ->
  exists m,
    distance_km s = Some m /\ (d <= m)%R
    /\ exists f', In f' filtered /\ group_key f' = day_key s
                  /\ Mapper.distance_km f' = Some m.
Proof.
  intros Hs Hf Hk Hd. rewrite (summary_row _ _ Hs). cbn [distance_km aggregate].
  assert (Hin : In (Some d)
                   (map Mapper.distance_km (group_of filtered (day_key s)))).
  { rewrite <- Hd. apply in_map. apply filter_In.
    split; [exact Hf|]. now apply group_key_eqb_eq. }
  destruct (agg_max_spec _ _ Hin) as [m [Hm [Hle Hmem]]].
  exists m. split; [exact Hm|]. split; [exact Hle|].
  apply in_map_iff in Hmem. destruct Hmem as [f' [Hf' Hin']].
  apply filter_In in Hin'. destruct Hin' as [Hin' Hk'].
  apply group_key_eqb_eq in Hk'. now exists f'.
Qed.

Lemma summary_distance_is_group_maximum_witness :
  exists m,
    distance_km (aggregate two_satellites (19723%Z, "SNPP"%string)) = Some m
    /\ (1 <= m)%R
    /\ exists f', In f' two_satellites
                  /\ group_key f' = (19723%Z, "SNPP"%string)
                  /\ Mapper.distance_km f' = Some m.
Proof.
  apply (summary_distance_is_group_maximum two_satellites
           (aggregate two_satellites (19723%Z, "SNPP"%string))
           (Mapper.mkFiltered
              (Mapper.mkTagged
                 (Firms.mkDetection (Firms.Num 0) (Firms.Num 0) 19723 10
                                    (Firms.Num 10) (Firms.Num (3 # 10)))
                 1704067800 "SNPP" 1) (Some 1%R)) 1%R).
  - unfold summary.
    replace (group_keys two_satellites)
      with [(19723%Z, "NOAA20"%string); (19723%Z, "SNPP"%string)]
      by (vm_compute; reflexivity).
    right. now left.
  - now left.
  - vm_compute. reflexivity.
  - reflexivity.
Defined.

(** X19: the frp of a summary row is the largest numeric frp among the
    filtered rows of its day and satellite. *)
Theorem summary_frp_is_group_maximum
        (filtered : list Mapper.FilteredDetection) (s : DailyMax)
        (f : Mapper.FilteredDetection) (q : Q) :
  In s (summary filtered) ->
  In f filtered -> group_key f = day_key s ->
  Firms.frp (Mapper.det (Mapper.tagged f)) = Firms.Num q ->
  exists m,
    frp s = Some m /\ q <= m
    /\ exists f', In f' filtered /\ group_key f' = day_key s
                  /\ Firms.to_numeric
                       (Firms.frp (Mapper.det (Mapper.tagged f'))) = Some m.
Proof.
  intros Hs Hf Hk Hq. rewrite (summary_row _ _ Hs). cbn [frp aggregate].
  rewrite map_map.
  assert (Hin : In (Some q)
                   (map (fun x => Firms.to_numeric
                                    (Firms.frp (Mapper.det (Mapper.tagged x))))
                        (group_of filtered (day_key s)))).
  { apply in_map_iff. exists f. split; [now rewrite Hq|].
    apply filter_In. split; [exact Hf|]. now apply group_key_eqb_eq. }
  destruct (agg_max_Q_spec _ _ Hin) as [m [Hm [Hle Hmem]]].
  exists m. split; [exact Hm|]. split; [exact Hle|].
  apply in_map_iff in Hmem. destruct Hmem as [f' [Hf' Hin']].
  apply filter_In in Hin'. destruct Hin' as [Hin' Hk'].
  apply group_key_eqb_eq in Hk'. now exists f'.
Qed.

Lemma summary_frp_is_group_maximum_witness :
  exists m,
    frp (aggregate two_satellites (19723%Z, "SNPP"%string)) = Some m
    /\ 10 <= m
    /\ exists f', In f' two_satellites
                  /\ group_key f' = (19723%Z, "SNPP"%string)
                  /\ Firms.to_numeric
                       (Firms.frp (Mapper.det (Mapper.tagged f'))) = Some m.
Proof.
  apply (summary_frp_is_group_maximum two_satellites
           (aggregate two_satellites (19723%Z, "SNPP"%string))
           (Mapper.mkFiltered
              (Mapper.mkTagged
                 (Firms.mkDetection (Firms.Num 0) (Firms.Num 0) 19723 10
                                    (Firms.Num 10) (Firms.Num (3 # 10)))
                 1704067800 "SNPP" 1) (Some 1%R)) 10).
  - unfold summary.
    replace (group_keys two_satellites)
      with [(19723%Z, "NOAA20"%string); (19723%Z, "SNPP"%string)]
      by (vm_compute; reflexivity).
    right. now left.
  - now left.
  - vm_compute. reflexivity.
  - reflexivity.
Defined.

End DailySummaryClaims.

(** ** The configuration loader *)
Section ConfigFacts.
Import Mapper Config.
Variable py_float : string -> option Q.
Variable py_int : string -> option Z.

Lemma read_line_lookup (cfg : config) (raw k : string) :
  read_line py_float py_int cfg raw k
  = match parse_line raw with
    | Some (k', v) =>
        if String.eqb k k' then Some (classify py_float py_int v) else cfg k
    | None => cfg k
    end.
Proof.
  unfold read_line. destruct (parse_line raw) as [[k' v]|]; reflexivity.
Qed.

Lemma fold_read_lookup (lines : list string) : forall cfg k,
  fold_left (read_line py_float py_int) lines cfg k
  = match last_assignment k lines with
    | Some v => Some (classify py_float py_int v)
    | None => cfg k
    end.
Proof.
  induction lines as [|raw rest IH]; intros cfg k; simpl; [reflexivity|].
  rewrite IH. destruct (last_assignment k rest); [reflexivity|].
  rewrite read_line_lookup.
  destruct (parse_line raw) as [[k' v]|]; [|reflexivity].
  now destruct (String.eqb k k').
Qed.

(** X20: the value the loader returns for a key is the classified value of
    the last line of config.txt that assigns the key; lines that hold no
    "=" or start with "#" play no part, and a key no line assigns is
    missing.  A missing config.txt gives the empty configuration. *)
Theorem last_assignment_wins (lines : list string) (k : string) :
  load_global_config py_float py_int (Some lines) k
  = option_map (classify py_float py_int) (last_assignment k lines)
  /\ load_global_config py_float py_int None k = None.
Proof.
  split; [|reflexivity].
  unfold load_global_config. rewrite fold_read_lookup.
  now destruct (last_assignment k lines).
Qed.

End ConfigFacts.

Section StripFacts.
Import Mapper Config.
Local Open Scope string_scope.

Lemma lstrip_app (a b : string) (c : ascii) :
  is_space c = false -> lstrip (a ++ String c b) = lstrip a ++ String c b.
Proof.
  intro Hc. induction a as [|x a IH]; simpl.
  - now rewrite Hc.
  - destruct (is_space x); [exact IH|reflexivity].
Qed.

Lemma rstrip_nonspace (c : ascii) (s : string) :
  is_space c = false -> rstrip (String c s) = String c (rstrip s).
Proof.
  intro Hc. simpl. rewrite Hc. now destruct (rstrip s).
Qed.

Lemma rstrip_app (a b : string) (c : ascii) :
  is_space c = false -> rstrip (a ++ String c b) = a ++ String c (rstrip b).
Proof.
  intro Hc. induction a as [|x a IH].
  - simpl append. now apply rstrip_nonspace.
  - change (String x a ++ String c b) with (String x (a ++ String c b)).
    cbn [rstrip]. rewrite IH.
    now destruct a.
Qed.

Lemma lstrip_idem (s : string) : lstrip (lstrip s) = lstrip s.
Proof.
  induction s as [|c s IH]; simpl; [reflexivity|].
  destruct (is_space c) eqn:E; [exact IH|]. simpl. now rewrite E.
Qed.

Lemma lstrip_rstrip (s : string) : lstrip (rstrip s) = rstrip (lstrip s).
Proof.
  induction s as [|c s IH]; [reflexivity|].
  cbn [lstrip]. destruct (is_space c) eqn:E.
  - rewrite <- IH. cbn [rstrip]. rewrite E.
    destruct (rstrip s) as [|x r]; [reflexivity|].
    cbn [lstrip]. now rewrite E.
  - rewrite (rstrip_nonspace c s E). cbn [lstrip]. now rewrite E.
Qed.

Lemma rstrip_idem (s : string) : rstrip (rstrip s) = rstrip s.
Proof.
  induction s as [|c s IH]; [reflexivity|].
  cbn [rstrip]. destruct (rstrip s) as [|x r] eqn:Er.
  - destruct (is_space c) eqn:E; [reflexivity|]. simpl. now rewrite E.
  - cbn [rstrip]. cbn [rstrip] in IH. rewrite IH. reflexivity.
Qed.

Lemma strip_lstrip (s : string) : strip (lstrip s) = strip s.
Proof. unfold strip. now rewrite lstrip_idem. Qed.

Lemma strip_rstrip (s : string) : strip (rstrip s) = strip s.
Proof. unfold strip. now rewrite lstrip_rstrip, rstrip_idem. Qed.

Lemma contains_lstrip (c : ascii) (s : string) :
  contains c s = false -> contains c (lstrip s) = false.
Proof.
  induction s as [|x s IH]; simpl; [reflexivity|].
  intro H. apply orb_false_iff in H. destruct H as [Hx Hs].
  destruct (is_space x); [now apply IH|]. simpl. now rewrite Hx, Hs.
Qed.

Lemma contains_app_eq (a b : string) :
  contains "=" (a ++ String "=" b) = true.
Proof.
  induction a as [|x a IH]; simpl; [reflexivity|].
  rewrite IH. apply orb_true_r.
Qed.

Lemma split_eq_app (a b : string) :
  contains "=" a = false -> split_eq (a ++ String "=" b) = (a, b).
Proof.
  induction a as [|x a IH]; simpl; [reflexivity|].
  intro H. apply orb_false_iff in H. destruct H as [Hx Ha].
  rewrite Hx, (IH Ha). reflexivity.
Qed.

Lemma is_comment_app (a b : string) :
  is_comment a = false -> contains "=" a = false ->
  is_comment (a ++ String "=" b) = false.
Proof.
  destruct a as [|x a]; [reflexivity|]. simpl. tauto.
Qed.

(** X21: a line "key=value" whose key part holds no "=" and does not begin
    (after leading blanks) with "#" is read as the key and the value with
    the blanks around each removed; the value may itself hold "=" or "#". *)
Theorem line_split_at_first_equals (key value : string) :
  contains "=" key = false ->
  is_comment (lstrip key) = false ->
  parse_line (key ++ String "=" value) = Some (strip key, strip value).
Proof.
  intros Hk Hc. unfold parse_line.
  assert (He : is_space "=" = false) by reflexivity.
  assert (Hline : strip (key ++ String "=" value)
                  = lstrip key ++ String "=" (rstrip value)).
  { unfold strip. now rewrite (lstrip_app _ _ _ He), (rstrip_app _ _ _ He). }
  rewrite Hline, contains_app_eq.
  rewrite is_comment_app by (try exact Hc; now apply contains_lstrip).
  simpl andb. cbv iota.
  rewrite split_eq_app by (now apply contains_lstrip).
  now rewrite strip_lstrip, strip_rstrip.
Qed.

Lemma line_split_at_first_equals_witness :
  parse_line ("  map_key " ++ String "=" " a=b#c  ")
  = Some (strip "  map_key ", strip " a=b#c  ").
Proof.
  apply (line_split_at_first_equals "  map_key " " a=b#c  "); reflexivity.
Defined.

Example line_split_values :
  parse_line "  map_key = a=b#c  " = Some ("map_key", "a=b#c").
Proof. vm_compute. reflexivity. Qed.

End StripFacts.

Section FirmsConfig.
Import Mapper Config.
Variable py_float : string -> option Q.
Variable py_int : string -> option Z.

Lemma dict_defined (l : list (string * value)) (k : string) :
  In k (map fst l) -> dict l k <> None.
Proof.
  induction l as [|[k' v] t IH]; simpl; [tauto|].
  intros [->|Hin].
  - now rewrite String.eqb_refl.
  - destruct (String.eqb k k'); [discriminate|now apply IH].
Qed.

(** X22: the downloader's configuration defines every key of
    [default_params] whatever config.txt holds: a key the file assigns has
    the file's (last) value, any other key its default.  A missing
    config.txt is created with the default lines, an existing one is left as
    it is. *)
Theorem firms_config_has_defaults (config_txt : option (list string))
        (k : string) :
  (In k (map fst default_params) ->
   fst (load_global_config_firms py_float py_int config_txt) k <> None)
  /\ (forall lines, config_txt = Some lines ->
        fst (load_global_config_firms py_float py_int config_txt) k
        = match last_assignment k lines with
          | Some v => Some (classify py_float py_int v)
          | None => dict default_params k
          end
        /\ snd (load_global_config_firms py_float py_int config_txt) = lines)
  /\ (config_txt = None ->
        fst (load_global_config_firms py_float py_int config_txt) k
        = dict default_params k
        /\ snd (load_global_config_firms py_float py_int config_txt)
           = default_lines).
Proof.
  split; [|split].
  - intro Hin. pose proof (dict_defined default_params k Hin) as Hd.
    destruct config_txt as [lines|]; [|exact Hd].
    cbn [load_global_config_firms fst]. unfold update.
    now destruct (fold_left _ lines empty k).
  - intros lines ->. cbn [load_global_config_firms fst snd]. unfold update.
    rewrite fold_read_lookup. split; [|reflexivity].
    now destruct (last_assignment k lines).
  - intros ->. now split.
Qed.

Hypothesis float_0 : py_float "0.0" = Some 0.
Hypothesis float_half : py_float "0.5" = Some (1 # 2).
Hypothesis int_0 : py_int "0" = Some 0%Z.
Hypothesis int_3000 : py_int "3000" = Some 3000%Z.
Hypothesis int_text :
  forall s, In s [ "Volcano Name"; "01/01/2024 00:00"; "01/01/2026 00:00";
                   "INSERT_YOUR_MAP_KEY_HERE"; ""; "Reference Point";
                   "circle" ]%string ->
            py_int s = None.

Lemma defaults_read_back :
  fold_left (read_line py_float py_int) default_lines empty
  = fold_left (fun cfg kv => assign cfg (fst kv) (snd kv))
      [ ("volcano", VStr "Volcano Name");
        ("lats_vent", VFloat 0);
        ("longs_vent", VFloat 0);
        ("start_day_str", VStr "01/01/2024 00:00");
        ("end_day_str", VStr "01/01/2026 00:00");
        ("filter_frp", VInt 0);
        ("filter_track", VFloat (1 # 2));
        ("map_key", VStr "INSERT_YOUR_MAP_KEY_HERE");
        ("include_reference_radius", VBool true);
        ("ref_radius_m", VInt 3000);
        ("include_shapefile", VBool false);
        ("shapefile_path", VStr "");
        ("include_reference_waypoint", VBool false);
        ("wpt_names", VStr "Reference Point");
        ("wpt_lats", VFloat 0);
        ("wpt_lons", VFloat 0);
        ("wpt_symbols", VStr "circle") ]%string
      empty.
Proof.
  unfold default_lines. cbn [map fold_left].
  unfold read_line.
  repeat match goal with
  | |- context [parse_line ?l] =>
      let r := eval vm_compute in (parse_line l) in
      change (parse_line l) with r; cbv iota beta
  end.
  unfold classify.
  repeat match goal with
  | |- context [String.eqb (lower ?v) ?t] =>
      let r := eval vm_compute in (String.eqb (lower v) t) in
      change (String.eqb (lower v) t) with r; cbv iota
  | |- context [contains ?c ?v] =>
      let r := eval vm_compute in (contains c v) in
      change (contains c v) with r; cbv iota
  end.
  rewrite float_0, float_half, int_0, int_3000.
  rewrite !int_text by (simpl; tauto).
  reflexivity.
Qed.

(** X23: reading back the config.txt that the downloader creates when none
    exists gives the configuration of the first call again, except that
    'wpt_lats' and 'wpt_lons', the texts '0.0' in the first call, come back
    as the float 0.0; the file is not rewritten. *)
Theorem default_config_round_trip :
  let first := load_global_config_firms py_float py_int None in
  let second := load_global_config_firms py_float py_int (Some (snd first)) in
  snd second = snd first
  /\ (forall k, k <> "wpt_lats"%string -> k <> "wpt_lons"%string ->
                fst second k = fst first k)
  /\ fst first "wpt_lats"%string = Some (VStr "0.0")
  /\ fst second "wpt_lats"%string = Some (VFloat 0)
  /\ fst first "wpt_lons"%string = Some (VStr "0.0")
  /\ fst second "wpt_lons"%string = Some (VFloat 0).
Proof.
  cbn zeta. cbn [load_global_config_firms fst snd].
  rewrite defaults_read_back.
  split; [reflexivity|]. split; [|repeat split].
  intros k H1 H2. unfold update, assign. cbn [fold_left fst snd dict default_params].
  repeat match goal with
  | |- context [String.eqb k ?s] =>
      destruct (String.eqb_spec k s) as [->|?];
      [try reflexivity; congruence|]
  end.
  reflexivity.
Qed.

End FirmsConfig.

Section FirmsConfigWitness.
Import Mapper Config.

Lemma default_config_round_trip_witness :
  let first := load_global_config_firms float_of_defaults int_of_defaults None in
  let second := load_global_config_firms float_of_defaults int_of_defaults
                  (Some (snd first)) in
  snd second = snd first
  /\ (forall k, k <> "wpt_lats"%string -> k <> "wpt_lons"%string ->
                fst second k = fst first k)
  /\ fst first "wpt_lats"%string = Some (VStr "0.0")
  /\ fst second "wpt_lats"%string = Some (VFloat 0)
  /\ fst first "wpt_lons"%string = Some (VStr "0.0")
  /\ fst second "wpt_lons"%string = Some (VFloat 0).
Proof.
  apply (default_config_round_trip float_of_defaults int_of_defaults);
    try reflexivity.
  intros s Hs. simpl in Hs.
  repeat (destruct Hs as [<-|Hs]; [reflexivity|]). contradiction.
Defined.

End FirmsConfigWitness.

(** ** The bounding box of the download (FIRMS_download.py) *)
Section BboxFacts.
Import Bbox.
Local Open Scope R_scope.

Lemma rint_R_near (x : R) :
  IZR (rint_R x) - 1 / 2 <= x <= IZR (rint_R x) + 1 / 2.
Proof.
  unfold rint_R. destruct (base_Int_part x) as [Hlo Hhi].
  destruct (Rlt_dec (x - IZR (Int_part x)) (1 / 2)) as [H1|H1]; [lra|].
  destruct (Rlt_dec (1 / 2) (x - IZR (Int_part x))) as [H2|H2].
  - rewrite plus_IZR. lra.
  - destruct (Z.even (Int_part x)); [|rewrite plus_IZR]; lra.
Qed.

Lemma rint_R_monotone (x y : R) : x <= y -> (rint_R x <= rint_R y)%Z.
Proof.
  intros [Hlt | ->]; [|lia].
  destruct (Z_le_gt_dec (rint_R x) (rint_R y)) as [H|H]; [exact H|].
  exfalso.
  assert (Hz : (rint_R y + 1 <= rint_R x)%Z) by lia.
  apply IZR_le in Hz. rewrite plus_IZR in Hz.
  pose proof (rint_R_near x). pose proof (rint_R_near y). lra.
Qed.

Lemma round5_monotone (x y : R) : x <= y -> round5 x <= round5 y.
Proof.
  intro H. unfold round5.
  apply Rmult_le_compat_r; [lra|].
  apply IZR_le, rint_R_monotone. lra.
Qed.

Lemma round5_near (x : R) : Rabs (round5 x - x) <= 5 / 1000000.
Proof.
  unfold round5. pose proof (rint_R_near (x * 100000)) as [H1 H2].
  apply Rabs_le. split; lra.
Qed.

(** X24: for a radius that is not negative and a latitude strictly between
    -90 and 90 degrees, the box is well formed (min_lon <= max_lon and
    min_lat <= max_lat) and each of its four numbers is within 0.000005 of
    the exact value: longitude -+ radius / (111320 cos(lat)) and
    latitude -+ radius / 111320. *)
Theorem bbox_well_formed (lat lon radius_m : R) :
  0 <= radius_m -> -90 < lat < 90 ->
  exists min_lon min_lat max_lon max_lat,
    bbox lat lon radius_m = [min_lon; min_lat; max_lon; max_lat]
    /\ min_lon <= max_lon /\ min_lat <= max_lat
    /\ Rabs (min_lon - (lon - radius_m / (111320 * cos (lat * (PI / 180)))))
       <= 5 / 1000000
    /\ Rabs (max_lon - (lon + radius_m / (111320 * cos (lat * (PI / 180)))))
       <= 5 / 1000000
    /\ Rabs (min_lat - (lat - radius_m / 111320)) <= 5 / 1000000
    /\ Rabs (max_lat - (lat + radius_m / 111320)) <= 5 / 1000000.
Proof.
  intros Hr [Hl1 Hl2]. unfold bbox. do 4 eexists.
  split; [reflexivity|].
  assert (Hcos : 0 < cos (lat * (PI / 180))).
  { pose proof PI_RGT_0 as Hpi. apply cos_gt_0.
    - replace (- (PI / 2)) with (-90 * (PI / 180)) by field.
      apply Rmult_lt_compat_r; lra.
    - replace (PI / 2) with (90 * (PI / 180)) by field.
      apply Rmult_lt_compat_r; lra. }
  assert (Hoff : 0 <= radius_m / (111320 * cos (lat * (PI / 180)))).
  { apply Rmult_le_pos; [exact Hr|].
    apply Rlt_le, Rinv_0_lt_compat. apply Rmult_lt_0_compat; lra. }
  split; [apply round5_monotone; lra|].
  split; [apply round5_monotone; lra|].
  repeat split; apply round5_near.
Qed.

Lemma bbox_well_formed_witness :
  0 <= 3000 /\ -90 < 0 < 90
  /\ exists min_lon min_lat max_lon max_lat,
       bbox 0 0 3000 = [min_lon; min_lat; max_lon; max_lat]
       /\ min_lon <= max_lon /\ min_lat <= max_lat
       /\ Rabs (min_lon - (0 - 3000 / (111320 * cos (0 * (PI / 180)))))
          <= 5 / 1000000
       /\ Rabs (max_lon - (0 + 3000 / (111320 * cos (0 * (PI / 180)))))
          <= 5 / 1000000
       /\ Rabs (min_lat - (0 - 3000 / 111320)) <= 5 / 1000000
       /\ Rabs (max_lat - (0 + 3000 / 111320)) <= 5 / 1000000.
Proof.
  split; [lra|]. split; [lra|].
  apply (bbox_well_formed 0 0 3000); lra.
Defined.

(** The number of days requested is at least 1, and the inclusive count
    when the end is not before the start. *)
Lemma request_days_bounds (start_date end_date : Z) :
  (1 <= request_days start_date end_date)%Z
  /\ ((start_date <= end_date)%Z ->
      request_days start_date end_date = (end_date - start_date + 1)%Z).
Proof.
  unfold request_days.
  destruct (end_date - start_date + 1 <? 1)%Z eqn:E.
  - apply Z.ltb_lt in E. split; lia.
  - apply Z.ltb_ge in E. split; lia.
Qed.

End BboxFacts.

(** ** Further properties of the distance (LavaFlow_mapper.py, lines 91-96) *)
Section DistanceFacts.
Import Mapper.
Local Open Scope R_scope.

Lemma sin_sqr_swap (x y : R) : sin ((x - y) / 2) ^ 2 = sin ((y - x) / 2) ^ 2.
Proof.
  replace ((x - y) / 2) with (- ((y - x) / 2)) by field.
  rewrite sin_neg. ring.
Qed.

(** X25: the distance does not depend on which of the two points is the
    reference, and it is 0 from a point to itself. *)
Theorem distance_symmetric (lat1 lon1 lat2 lon2 : R) :
  distance lat1 lon1 lat2 lon2 = distance lat2 lon2 lat1 lon1
  /\ distance lat1 lon1 lat1 lon1 = 0.
Proof.
  unfold distance. split.
  - rewrite (sin_sqr_swap (lat2 * (PI / 180)) (lat1 * (PI / 180))).
    rewrite (sin_sqr_swap (lon2 * (PI / 180)) (lon1 * (PI / 180))).
    rewrite (Rmult_comm (cos (lat1 * (PI / 180)))). reflexivity.
  - replace ((lat1 * (PI / 180) - lat1 * (PI / 180)) / 2) with 0 by field.
    replace ((lon1 * (PI / 180) - lon1 * (PI / 180)) / 2) with 0 by field.
    rewrite sin_0.
    replace (0 ^ 2 + cos (lat1 * (PI / 180)) * cos (lat1 * (PI / 180)) * 0 ^ 2)
      with 0 by ring.
    rewrite sqrt_0, asin_0. ring.
Qed.

Lemma cos_product_bound (x y : R) : cos x * cos y <= cos ((y - x) / 2) ^ 2.
Proof.
  pose proof (cos_2a_cos ((y - x) / 2)) as H2.
  replace (2 * ((y - x) / 2)) with (y - x) in H2 by field.
  rewrite cos_minus in H2.
  pose proof (COS_bound (x + y)) as [_ Hb]. rewrite cos_plus in Hb.
  nra.
Qed.

Lemma asin_nonneg (x : R) : 0 <= x <= 1 -> 0 <= asin x.
Proof.
  intros [H0 H1]. destruct (Rle_lt_dec 0 (asin x)) as [H|H]; [exact H|].
  exfalso. pose proof (asin_bound x) as [Hlo _]. pose proof PI_RGT_0.
  assert (Hs : sin (asin x) < 0) by (apply sin_lt_0_var; lra).
  rewrite sin_asin in Hs by lra. lra.
Qed.

Lemma cos_degrees_nonneg (lat : R) : -90 <= lat <= 90 -> 0 <= cos (lat * (PI / 180)).
Proof.
  intros [H1 H2]. pose proof PI_RGT_0 as Hpi. apply cos_ge_0.
  - replace (- (PI / 2)) with (-90 * (PI / 180)) by field.
    apply Rmult_le_compat_r; lra.
  - replace (PI / 2) with (90 * (PI / 180)) by field.
    apply Rmult_le_compat_r; lra.
Qed.

(** X26: for latitudes between -90 and 90 degrees, the quantity under the
    square root lies between 0 and 1 (so the square root and the arcsine are
    taken inside their domains), and the distance lies between 0 and half
    the circumference, 6371 pi km. *)
Theorem distance_range (LATS_vent LONGS_vent latitude longitude : R) :
  -90 <= LATS_vent <= 90 -> -90 <= latitude <= 90 ->
  exists a,
    a = sin ((latitude * (PI / 180) - LATS_vent * (PI / 180)) / 2) ^ 2
        + cos (LATS_vent * (PI / 180)) * cos (latitude * (PI / 180))
          * sin ((longitude * (PI / 180) - LONGS_vent * (PI / 180)) / 2) ^ 2
    /\ 0 <= a <= 1
    /\ distance LATS_vent LONGS_vent latitude longitude
       = 6371 * 2 * asin (sqrt a)
    /\ 0 <= distance LATS_vent LONGS_vent latitude longitude <= 6371 * PI.
Proof.
  intros Hv Hl. eexists. split; [reflexivity|].
  set (x := LATS_vent * (PI / 180)). set (y := latitude * (PI / 180)).
  set (s1 := sin ((y - x) / 2)).
  set (s2 := sin ((longitude * (PI / 180) - LONGS_vent * (PI / 180)) / 2)).
  pose proof (cos_degrees_nonneg _ Hv) as Hc1. fold x in Hc1.
  pose proof (cos_degrees_nonneg _ Hl) as Hc2. fold y in Hc2.
  pose proof (cos_product_bound x y) as Hp.
  pose proof (sin2_cos2 ((y - x) / 2)) as Hsc. unfold Rsqr in Hsc. fold s1 in Hsc.
  assert (Hs2 : 0 <= s2 ^ 2 <= 1).
  { pose proof (SIN_bound
                  ((longitude * (PI / 180) - LONGS_vent * (PI / 180)) / 2))
      as [Ha Hb]. fold s2 in Ha, Hb. nra. }
  assert (Hprod : 0 <= cos x * cos y) by (now apply Rmult_le_pos).
  assert (Ha : 0 <= s1 ^ 2 + cos x * cos y * s2 ^ 2 <= 1) by nra.
  split; [exact Ha|]. split; [reflexivity|].
  unfold distance. fold x y s1 s2.
  set (a := s1 ^ 2 + cos x * cos y * s2 ^ 2) in *.
  assert (Hq : 0 <= sqrt a <= 1).
  { split; [apply sqrt_pos|]. rewrite <- sqrt_1. apply sqrt_le_1; lra. }
  pose proof (asin_nonneg _ Hq). pose proof (asin_bound (sqrt a)) as [_ Hub].
  split; lra.
Qed.

Lemma distance_range_witness :
  -90 <= 0 <= 90 /\ -90 <= 0 <= 90
  /\ exists a,
       a = sin ((0 * (PI / 180) - 0 * (PI / 180)) / 2) ^ 2
           + cos (0 * (PI / 180)) * cos (0 * (PI / 180))
             * sin ((1 / 100 * (PI / 180) - 0 * (PI / 180)) / 2) ^ 2
       /\ 0 <= a <= 1
       /\ distance 0 0 0 (1 / 100) = 6371 * 2 * asin (sqrt a)
       /\ 0 <= distance 0 0 0 (1 / 100) <= 6371 * PI.
Proof.
  split; [lra|]. split; [lra|].
  apply (distance_range 0 0 0 (1 / 100)); lra.
Defined.

End DistanceFacts.

Section FilterMonotone.
Import Pandas Firms Mapper.

Lemma mask_monotone (ft ff ft' ff' : Q) (s e s' e' : Z) (r : Tagged) :
  ft <= ft' -> ff' <= ff -> (s' <= s)%Z -> (e <= e')%Z ->
  mask ft ff s e r = true -> mask ft' ff' s' e' r = true.
Proof.
  intros H1 H2 H3 H4. rewrite !mask_true.
  intros [[t [Ht Hle]] [[f [Hf Hge]] Hw]].
  split; [exists t; split; [exact Ht|eapply Qle_trans; eassumption]|].
  split; [exists f; split; [exact Hf|eapply Qle_trans; eassumption]|lia].
Qed.

(** X27: loosening the filter never loses a row: with a larger max_track, a
    smaller min_frp and a wider window, every row that was in [filtered] is
    still in it (the reference point plays no part in the selection). *)
Theorem wider_filter_keeps_rows
        (cfg cfg' : config) (s e s' e' : Z)
        (glob : string -> list (list Detection)) (comb : list Tagged)
        (ft ff lat lon ft' ff' lat' lon' : Q) :
  load_and_tag_data glob = Some comb ->
  setting cfg "filter_track" 1 = Some ft ->
  setting cfg "filter_frp" 0 = Some ff ->
  setting cfg "lats_vent" 0 = Some lat ->
  setting cfg "longs_vent" 0 = Some lon ->
  setting cfg' "filter_track" 1 = Some ft' ->
  setting cfg' "filter_frp" 0 = Some ff' ->
  setting cfg' "lats_vent" 0 = Some lat' ->
  setting cfg' "longs_vent" 0 = Some lon' ->
  ft <= ft' -> ff' <= ff -> (s' <= s)%Z -> (e <= e')%Z ->
  incl (filtered_rows (get_layout cfg s e glob))
       (filtered_rows (get_layout cfg' s' e' glob)).
Proof.
  intros Hload A1 A2 A3 A4 B1 B2 B3 B4 H1 H2 H3 H4 r.
  rewrite (get_layout_numeric _ _ _ _ _ _ _ _ _ Hload A1 A2 A3 A4).
  rewrite (get_layout_numeric _ _ _ _ _ _ _ _ _ Hload B1 B2 B3 B4).
  rewrite !proceed_rows, !sort_values_In, !filter_In.
  intros [Hin Hm]. split; [exact Hin|].
  exact (mask_monotone _ _ _ _ _ _ _ _ r H1 H2 H3 H4 Hm).
Qed.

Lemma wider_filter_keeps_rows_witness :
  incl (filtered_rows (get_layout no_config 1704067200 1704153600 one_archive))
       (filtered_rows (get_layout no_config 1704067200 1704240000 one_archive)).
Proof.
  apply (wider_filter_keeps_rows no_config no_config
           1704067200 1704153600 1704067200 1704240000
           one_archive snpp_comb 1 0 0 0 1 0 0 0);
    try reflexivity; vm_compute; discriminate.
Defined.

End FilterMonotone.

(** ** The weekly bins (Anomalies_count.py) *)
Section WeeklyFacts.
Import Weekly.

(** X29: for a week starting day between 0 (Monday) and 6 (Sunday), the
    week label of a date is the one day within the seven days ending at the
    date that falls on the chosen weekday: a label [w] is the label of [d]
    exactly when [w <= d < w + 7] and [w] is such a weekday. *)
Theorem week_label_is_week_start (week_day d w : Z) :
  (0 <= week_day <= 6)%Z ->
  week_label week_day d = w
  <-> (w <= d < w + 7)%Z /\ dayofweek w = week_day.
Proof.
  intro Hw. unfold week_label, dayofweek. split.
  - intros <-. split; Z.div_mod_to_equations; lia.
  - intros [Hd Hk]. Z.div_mod_to_equations. lia.
Qed.

Lemma week_label_is_week_start_witness :
  (0 <= 3 <= 6)%Z
  /\ (week_label 3 19729 = 19726%Z
      <-> (19726 <= 19729 < 19726 + 7)%Z /\ dayofweek 19726 = 3%Z).
Proof.
  split; [lia|]. apply (week_label_is_week_start 3 19729 19726). lia.
Defined.

(** Sunday 7 January 2024 (day 19729) with weeks starting on Thursday falls
    in the week of Thursday 4 January (day 19726). *)
Example week_of_a_sunday :
  week_label 3 19729 = 19726%Z /\ dayofweek 19729 = 6%Z.
Proof. split; reflexivity. Qed.

End WeeklyFacts.

(** ** The mapper run with its date window (LavaFlow_mapper.py, lines 73-99) *)
Section MapperRunFacts.
Import Pandas Firms Mapper.







End MapperRunFacts.

Section MapperRunClaims.
Import Pandas Firms Mapper.




End MapperRunClaims.
(** ** Requests and replies that fail (FIRMS_download.py, lines 107-151) *)
Section DownloadReplyFacts.
Import Pandas Firms Download DownloadLog.

Lemma reply_per_source
      (api : source_id -> DownloadReply.reply) (fs : files) (s : source_id) :
  fst (DownloadReply.process_download api fs) s
  = fst (DownloadReply.process_source s (api s) (fs s))
  /\ In (snd (DownloadReply.process_source s (api s) (fs s)))
        (snd (DownloadReply.process_download api fs)).
Proof.
  unfold DownloadReply.process_download, sources. simpl.
  destruct (DownloadReply.process_source VIIRS_SNPP_NRT _ _) as [f1 e1] eqn:E1.
  destruct (DownloadReply.process_source VIIRS_NOAA21_NRT _ _) as [f2 e2] eqn:E2.
  destruct (DownloadReply.process_source VIIRS_NOAA20_NRT _ _) as [f3 e3] eqn:E3.
  destruct (DownloadReply.process_source MODIS_NRT _ _) as [f4 e4] eqn:E4.
  unfold write in *; simpl in *.
  destruct s; simpl;
    [rewrite E1 | rewrite E2 | rewrite E3 | rewrite E4]; simpl; tauto.
Qed.

(** With every request answered and every body readable the loop is the
    one of [Download.process_download]. *)
Lemma readable_replies (api : source_id -> response) (s : source_id)
      (file : option (list Detection)) :
  DownloadReply.process_source
    s (DownloadReply.Reply (status_code (api s))
                           (DownloadReply.Frame (text (api s)))) file
  = (fst (process_source s (api s) file),
     DownloadReply.Line (snd (process_source s (api s) file))).
Proof.
  unfold DownloadReply.process_source, process_source.
  destruct (negb (status_code (api s) =? 200)%Z); [reflexivity|].
  now destruct (text (api s)).
Qed.

(** X6: a request that raises, a reply with a status other than 200, a
    body that cannot be read (an empty body among them) and a frame without
    rows each leave the archive file of their source as it was (absent
    stays absent) and put one line in the log: Error, API error, Error and
    No data in that order. *)
Theorem failed_reply_keeps_archive
        (api : source_id -> DownloadReply.reply) (fs : files)
        (s : source_id) (line : DownloadReply.log_line) :
  DownloadReply.no_merge s (api s) line ->
  fst (DownloadReply.process_download api fs) s = fs s
  /\ In line (snd (DownloadReply.process_download api fs)).
Proof.
  intro H.
  assert (Hs : DownloadReply.process_source s (api s) (fs s) = (fs s, line)).
  { inversion H as [Ha | code body Hcode Ha | Ha | Ha];
      unfold DownloadReply.process_source; try reflexivity.
    apply Z.eqb_neq in Hcode. now rewrite Hcode. }
  destruct (reply_per_source api fs s) as [Hf Hl].
  rewrite Hs in Hf, Hl. now split.
Qed.

Lemma failed_reply_keeps_archive_witness :
  fst (DownloadReply.process_download DownloadReply.snpp_empty_body modis_only)
      VIIRS_SNPP_NRT
  = modis_only VIIRS_SNPP_NRT
  /\ In (DownloadReply.Error VIIRS_SNPP_NRT)
        (snd (DownloadReply.process_download DownloadReply.snpp_empty_body
                                             modis_only)).
Proof.
  apply (failed_reply_keeps_archive DownloadReply.snpp_empty_body modis_only
           VIIRS_SNPP_NRT (DownloadReply.Error VIIRS_SNPP_NRT)).
  apply DownloadReply.body_unreadable.
Defined.

End DownloadReplyFacts.
(** ** The dedup key under float64 rounding (FIRMS_download.py, lines 137-142) *)
Section FloatKey.
Import Pandas Firms Download.

(** The product of a coordinate and 10**4 is stored to within the float64
    rounding error. *)
Variable fl : Q -> Q.
Hypothesis fl_near :
  forall y, Qabs y <= 1800000 ->
            Qabs (fl y - y) <= DownloadFloat.u * (1 + Qabs y).

Lemma float_round4_near (x : Q) :
  Qabs x <= 180 ->
  Qabs (inject_Z (DownloadFloat.round4 fl x) - x * 10000)
  <= (1 # 2) + 1800001 * DownloadFloat.u.
Proof.
  intro Hx. unfold DownloadFloat.round4.
  pose proof (rint_near (fl (x * 10000))) as [Hr1 Hr2].
  assert (Hy : Qabs (x * 10000) <= 1800000).
  { apply Qabs_Qle_condition in Hx. apply Qabs_Qle_condition.
    destruct Hx as [H1 H2]. split; Lqa.lra. }
  pose proof (fl_near (x * 10000) Hy) as Hfl.
  pose proof (Qabs_nonneg (x * 10000)) as Hpos.
  apply Qabs_Qle_condition in Hfl. destruct Hfl as [Hf1 Hf2].
  apply Qabs_Qle_condition.
  set (k := inject_Z (rint (fl (x * 10000)))) in *; clearbody k.
  set (f := fl (x * 10000)) in *; clearbody f.
  set (a := Qabs (x * 10000)) in *; clearbody a.
  unfold DownloadFloat.u in *. split; Lqa.lra.
Qed.

Lemma float_round4_close (x y : Q) :
  Qabs x <= 180 -> Qabs y <= 180 ->
  DownloadFloat.round4 fl x = DownloadFloat.round4 fl y ->
  Qabs (x - y) <= (1 # 10000) + 361 * DownloadFloat.u.
Proof.
  intros Hx Hy H.
  pose proof (float_round4_near x Hx) as Hx'.
  pose proof (float_round4_near y Hy) as Hy'.
  rewrite H in Hx'.
  apply Qabs_Qle_condition in Hx', Hy'. apply Qabs_Qle_condition.
  destruct Hx' as [Hx1 Hx2]. destruct Hy' as [Hy1 Hy2].
  set (k := inject_Z (DownloadFloat.round4 fl y)) in *; clearbody k.
  unfold DownloadFloat.u in *. split; Lqa.lra.
Qed.

(** X8: two rows with coordinates in degrees (at most 180 in size) that
    share the dedup key carry the same date and zero-padded time, and their
    latitudes, and their longitudes, differ by at most 0.0001 degrees plus
    361 units of float64 roundoff (about 4e-14). *)
Theorem same_key_rows_are_close
        (a b : Detection) (la lo la' lo' : Q) :
  latitude a = Num la -> longitude a = Num lo ->
  latitude b = Num la' -> longitude b = Num lo' ->
  Qabs la <= 180 -> Qabs lo <= 180 -> Qabs la' <= 180 -> Qabs lo' <= 180 ->
  DownloadFloat.key fl a = DownloadFloat.key fl b ->
  Qabs (la - la') <= (1 # 10000) + 361 * DownloadFloat.u
  /\ Qabs (lo - lo') <= (1 # 10000) + 361 * DownloadFloat.u
  /\ acq_date a = acq_date b
  /\ acq_time_str a = acq_time_str b.
Proof.
  intros Ha1 Ha2 Hb1 Hb2 Hla Hlo Hla' Hlo' Hk. unfold DownloadFloat.key in Hk.
  rewrite Ha1, Ha2, Hb1, Hb2 in Hk. simpl in Hk.
  injection Hk as H1 H2 H3 H4.
  split; [now apply float_round4_close|].
  split; [now apply float_round4_close|].
  now split.
Qed.

End FloatKey.

Section FloatKeyWitness.
Import Pandas Firms Download.

Lemma same_key_rows_are_close_witness :
  Qabs ((1940001 # 100000) - (1940002 # 100000))
  <= (1 # 10000) + 361 * DownloadFloat.u
  /\ Qabs ((-15528 # 100) - (-15528 # 100))
     <= (1 # 10000) + 361 * DownloadFloat.u
  /\ acq_date spot_a = acq_date spot_b
  /\ acq_time_str spot_a = acq_time_str spot_b.
Proof.
  apply (same_key_rows_are_close DownloadFloat.exact) with (lo := -15528 # 100)
    (lo' := -15528 # 100); try reflexivity; try (vm_compute; discriminate).
  intros y _. unfold DownloadFloat.exact.
  assert (E : y - y == 0) by ring. rewrite E. simpl Qabs.
  pose proof (Qabs_nonneg y). unfold DownloadFloat.u.
  set (a := Qabs y) in *; clearbody a. Lqa.lra.
Defined.

(** Float rounding can put two products on either side of a tie that exact
    rounding sends the same way: exact half-to-even gives 19.40105 the key
    194010, a product stored just above the tie gives 194011. *)
Example tie_depends_on_roundoff :
  DownloadFloat.round4 DownloadFloat.exact (1940105 # 100000) = 194010%Z
  /\ DownloadFloat.round4 (fun y => y + (1 # 100000000000)) (1940105 # 100000)
     = 194011%Z.
Proof. split; vm_compute; reflexivity. Qed.

End FloatKeyWitness.
(** ** The breakthrough tracker with empty cells and any order of same-day
    rows (LavaFlow_speed.py) *)
Section SpeedFrameFacts.
Import Pandas SpeedFrame.

Lemma frame_columns_scan_from (df : list DailyExtent) : forall m p,
  filter is_breakthrough
    (combine (combine df (cummax_from m (map distance_km df)))
             (shift p (cummax_from m (map distance_km df))))
  = scan p m df.
Proof.
  induction df as [|r t IH]; intros m p; simpl; [reflexivity|].
  destruct (distance_km r) as [x|] eqn:E; simpl;
    unfold is_breakthrough at 1; simpl; rewrite E, IH.
  - destruct p as [q|]; simpl; [destruct (Qgtb x q)|]; reflexivity.
  - reflexivity.
Qed.

Lemma frame_columns_scan (sort_values : list DailyExtent -> list DailyExtent)
      (csv : list DailyExtent) :
  filter is_breakthrough (with_columns sort_values csv)
  = scan (Some 0) None (sort_values csv).
Proof. unfold with_columns, cummax. apply frame_columns_scan_from. Qed.

Lemma frame_core_finish (t : DailyExtent * option Q * option Q)
      (d : option Z) :
  core (finish t d) = t.
Proof. now destruct t as [[r m] p]. Qed.

Lemma frame_later_core (l : list (DailyExtent * option Q * option Q)) :
  forall prev,
  map core
    (Speed.zip_with finish l
       (diff_from prev
          (map (fun t => Speed.to_datetime (date_only (fst (fst t)))) l)))
  = l.
Proof.
  induction l as [|t l IH]; intros prev; simpl; [reflexivity|].
  now rewrite frame_core_finish, IH.
Qed.

Lemma frame_speed_columns_core
      (l : list (DailyExtent * option Q * option Q)) :
  map core (speed_columns l) = l.
Proof.
  destruct l as [|t l]; [reflexivity|].
  unfold speed_columns. simpl. now rewrite frame_core_finish, frame_later_core.
Qed.

Lemma frame_event_core_nth (l : list (DailyExtent * option Q * option Q))
      (i : nat) (e : Breakthrough) :
  nth_error (speed_columns l) i = Some e -> nth_error l i = Some (core e).
Proof.
  intro H. rewrite <- (frame_speed_columns_core l) at 1.
  rewrite nth_error_map, H. reflexivity.
Qed.

Lemma frame_event_core_in (l : list (DailyExtent * option Q * option Q))
      (e : Breakthrough) :
  In e (speed_columns l) -> In (core e) l.
Proof.
  intro H. rewrite <- (frame_speed_columns_core l). now apply in_map.
Qed.

(** An emitted row carries its own distance as [max_distance], above its
    [prev_max]; both are numbers. *)
Lemma frame_scan_shape (df : list DailyExtent) : forall p m,
  p = None \/ m = None \/ p = m ->
  Forall (fun t => exists x q,
              distance_km (fst (fst t)) = Some x /\ snd (fst t) = Some x
              /\ snd t = Some q /\ q < x)
         (scan p m df).
Proof.
  induction df as [|r t IH]; intros p m Hok; simpl; [constructor|].
  destruct (distance_km r) as [x|] eqn:E; [|apply IH; now left].
  apply Forall_app. split; [|apply IH; now right; right].
  destruct p as [q|]; simpl; [|constructor].
  destruct (Qgtb x q) eqn:G; constructor; [|constructor].
  apply Qgtb_true in G. exists x, q. cbn [fst snd].
  split; [exact E|]. split; [|split; [reflexivity|exact G]].
  destruct Hok as [H|[->|H]]; [discriminate|reflexivity|].
  rewrite <- H. now rewrite (np_maximum_gt _ _ G).
Qed.

Lemma frame_scan_rising (df : list DailyExtent) : forall p c lo,
  p = None \/ p = Some c -> lo <= c -> rising lo (scan p (Some c) df).
Proof.
  induction df as [|r t IH]; intros p c lo Hp Hlo; simpl; [exact I|].
  destruct (distance_km r) as [x|]; [|apply IH; [now left|exact Hlo]].
  assert (Hrest : rising lo (scan (Some (np_maximum c x))
                                  (Some (np_maximum c x)) t)).
  { apply IH; [now right|].
    eapply Qle_trans; [exact Hlo|apply np_maximum_ge]. }
  destruct p as [q|]; simpl; [|exact Hrest].
  destruct Hp as [Hp|Hp]; [discriminate|]. injection Hp as ->.
  destruct (Qgtb x c) eqn:G; simpl; [|exact Hrest].
  apply Qgtb_true in G. rewrite (np_maximum_gt _ _ G).
  exists x, c. cbn [fst snd].
  split; [reflexivity|]. split; [reflexivity|].
  split; [exact Hlo|]. split; [exact G|].
  apply IH; [now right|apply Qle_refl].
Qed.

(** From the first output row on, the rows are [rising]. *)
Lemma frame_scan_linked (df : list DailyExtent) : forall p m,
  match scan p m df with
  | [] => True
  | t :: rest => forall x, snd (fst t) = Some x -> rising x rest
  end.
Proof.
  induction df as [|r t IH]; intros p m; simpl; [exact I|].
  destruct (distance_km r) as [x|]; [|apply IH].
  destruct p as [q|]; simpl; [|apply IH].
  destruct (Qgtb x q); simpl; [|apply IH].
  intros y [= <-]. apply frame_scan_rising; [now right|apply Qle_refl].
Qed.

Lemma rising_nth (evs : list (DailyExtent * option Q * option Q)) :
  forall lo i a b,
    rising lo evs ->
    nth_error evs i = Some a -> nth_error evs (S i) = Some b ->
    exists x q, snd (fst a) = Some x /\ snd b = Some q /\ x <= q.
Proof.
  induction evs as [|t rest IH]; intros lo i a b Hr Ha Hb.
  - now destruct i.
  - destruct Hr as [x [q [Hx [Hq [_ [_ Hrest]]]]]].
    destruct i as [|i]; simpl in Ha, Hb.
    + injection Ha as <-. destruct rest as [|t' rest]; [discriminate|].
      injection Hb as <-.
      destruct Hrest as [x' [q' [_ [Hq' [Hle _]]]]].
      now exists x, q'.
    + exact (IH x i a b Hrest Ha Hb).
Qed.

(** Without empty cells every [prev_max] is the running maximum. *)
Lemma frame_scan_chained (df : list DailyExtent) :
  Forall (fun r => distance_km r <> None) df ->
  forall c lo, c == lo -> chained lo (scan (Some c) (Some c) df).
Proof.
  induction 1 as [|r t Hr Ht IH]; intros c lo Hc; simpl; [exact I|].
  destruct (distance_km r) as [x|]; [|contradiction].
  destruct (Qgtb x c) eqn:G; simpl.
  - exists (np_maximum c x), c. cbn [fst snd].
    split; [reflexivity|]. split; [reflexivity|]. split; [exact Hc|].
    apply IH. reflexivity.
  - apply IH. rewrite <- Hc. now apply np_maximum_not_above.
Qed.

Lemma frame_scan_first_chained (df : list DailyExtent) :
  Forall (fun r => distance_km r <> None) df ->
  exists lo, chained lo (scan (Some 0) None df)
             /\ (Forall (fun r => forall x, distance_km r = Some x -> 0 <= x)
                        df -> lo == 0).
Proof.
  intros Hall. destruct Hall as [|r t Hr Ht]; simpl.
  - exists 0. split; [exact I|reflexivity].
  - destruct (distance_km r) as [x|] eqn:E; [|contradiction].
    destruct (Qgtb x 0) eqn:G; simpl.
    + exists 0. split; [|reflexivity].
      exists x, 0. cbn [fst snd].
      split; [reflexivity|]. split; [reflexivity|]. split; [reflexivity|].
      apply frame_scan_chained; [exact Ht|reflexivity].
    + exists x. split; [apply frame_scan_chained; [exact Ht|reflexivity]|].
      intro Hpos. apply Qle_antisym.
      * apply Qnot_lt_le. intro H. apply Qgtb_true in H. congruence.
      * inversion Hpos as [|? ? H0 _]; subst. now apply H0.
Qed.

Lemma chained_nth (evs : list (DailyExtent * option Q * option Q)) :
  forall lo i a b,
    chained lo evs ->
    nth_error evs i = Some a -> nth_error evs (S i) = Some b ->
    exists x q, snd (fst a) = Some x /\ snd b = Some q /\ q == x.
Proof.
  induction evs as [|t rest IH]; intros lo i a b Hc Ha Hb.
  - now destruct i.
  - destruct Hc as [x [q [Hx [Hq [_ Hrest]]]]].
    destruct i as [|i]; simpl in Ha, Hb.
    + injection Ha as <-. destruct rest as [|t' rest]; [discriminate|].
      injection Hb as <-.
      destruct Hrest as [x' [q' [_ [Hq' [He _]]]]].
      now exists x, q'.
    + exact (IH x i a b Hrest Ha Hb).
Qed.

Lemma frame_scan_consecutive (df : list DailyExtent) (i : nat)
      (a b : DailyExtent * option Q * option Q) :
  nth_error (scan (Some 0) None df) i = Some a ->
  nth_error (scan (Some 0) None df) (S i) = Some b ->
  exists x q, snd (fst a) = Some x /\ snd b = Some q /\ x <= q.
Proof.
  intros Ha Hb.
  pose proof (frame_scan_linked df (Some 0) None) as Hl.
  pose proof (frame_scan_shape df (Some 0) None
                (or_intror (or_introl eq_refl))) as Hs.
  destruct (scan (Some 0) None df) as [|t rest]; [now destruct i|].
  inversion Hs as [|? ? [x [q [_ [Hx _]]]] _]; subst.
  specialize (Hl x Hx).
  destruct i as [|i]; simpl in Ha, Hb.
  - injection Ha as <-. destruct rest as [|t' rest]; [discriminate|].
    injection Hb as <-. destruct Hl as [x' [q' [_ [Hq' [Hle _]]]]].
    now exists x, q'.
  - exact (rising_nth rest x i a b Hl Ha Hb).
Qed.

Lemma frame_scan_consecutive_eq (df : list DailyExtent) (i : nat)
      (a b : DailyExtent * option Q * option Q) :
  Forall (fun r => distance_km r <> None) df ->
  nth_error (scan (Some 0) None df) i = Some a ->
  nth_error (scan (Some 0) None df) (S i) = Some b ->
  exists x q, snd (fst a) = Some x /\ snd b = Some q /\ q == x.
Proof.
  intros Hall Ha Hb.
  destruct (frame_scan_first_chained df Hall) as [lo [Hc _]].
  exact (chained_nth _ lo i a b Hc Ha Hb).
Qed.

End SpeedFrameFacts.

Section SpeedFrameChain.
Import Pandas SpeedFrame.

Variable sort_values : list DailyExtent -> list DailyExtent.
Hypothesis sort_values_rows : forall l, Permutation l (sort_values l).

(** X9: whatever the order of same-day rows and wherever cells are empty,
    every breakthrough carries its own distance as [max_distance], a
    number above its [prev_max], and the [prev_max] of each later
    breakthrough is at least the [max_distance] of the one before.  When
    no distance cell is empty the two are equal: each [distance_diff] is
    measured from the previous breakthrough; when moreover no distance is
    negative the [prev_max] of the first breakthrough is 0. *)
Theorem prev_max_is_previous_breakthrough (csv : list DailyExtent) :
  exists evs,
    process_speed_data sort_values (Some csv) = Some evs
    /\ (forall e, In e evs ->
          exists x q, distance_km (row e) = Some x /\ max_distance e = Some x
                      /\ prev_max e = Some q /\ q < x)
    /\ (forall i a e,
          nth_error evs i = Some a -> nth_error evs (S i) = Some e ->
          exists x q, max_distance a = Some x /\ prev_max e = Some q
                      /\ x <= q)
    /\ (Forall (fun r => distance_km r <> None) csv ->
        (forall i a e,
            nth_error evs i = Some a -> nth_error evs (S i) = Some e ->
            exists x q, max_distance a = Some x /\ prev_max e = Some q
                        /\ q == x)
        /\ (Forall (fun r => forall x, distance_km r = Some x -> 0 <= x) csv ->
            forall e, nth_error evs 0 = Some e ->
                      exists q, prev_max e = Some q /\ q == 0)).
Proof.
  eexists. split; [reflexivity|].
  rewrite frame_columns_scan.
  set (df := sort_values csv).
  assert (Hdf : Forall (fun r => distance_km r <> None) csv ->
                Forall (fun r => distance_km r <> None) df).
  { intro H. exact (Permutation_Forall (sort_values_rows csv) H). }
  split; [|split; [|split; [|intros Hpos e He]]].
  - intros e He. apply frame_event_core_in in He.
    pose proof (frame_scan_shape df (Some 0) None
                  (or_intror (or_introl eq_refl))) as Hs.
    rewrite Forall_forall in Hs. exact (Hs _ He).
  - intros i a e Ha He. apply frame_event_core_nth in Ha, He.
    exact (frame_scan_consecutive df i (core a) (core e) Ha He).
  - intros i a e Ha He. apply frame_event_core_nth in Ha, He.
    exact (frame_scan_consecutive_eq df i (core a) (core e) (Hdf H) Ha He).
  - apply frame_event_core_nth in He.
    destruct (frame_scan_first_chained df (Hdf H)) as [lo [Hc Hlo]].
    assert (Hpos' : Forall (fun r => forall x, distance_km r = Some x -> 0 <= x)
                           df).
    { exact (Permutation_Forall (sort_values_rows csv) Hpos). }
    specialize (Hlo Hpos').
    destruct (scan (Some 0) None df) as [|t rest]; [discriminate|].
    injection He as ->.
    destruct Hc as [x [q [_ [Hq [Hql _]]]]].
    exists q. split; [exact Hq|]. now rewrite Hql.
Qed.

Lemma in_file_order_rows (l : list DailyExtent) :
  Permutation l (in_file_order l).
Proof. apply sort_values_perm. Qed.

End SpeedFrameChain.

Section SpeedFrameChainWitness.
Import Pandas SpeedFrame.

Lemma prev_max_is_previous_breakthrough_witness :
  exists evs,
    process_speed_data in_file_order (Some three_days) = Some evs
    /\ (forall e, In e evs ->
          exists x q, distance_km (row e) = Some x /\ max_distance e = Some x
                      /\ prev_max e = Some q /\ q < x)
    /\ (forall i a e,
          nth_error evs i = Some a -> nth_error evs (S i) = Some e ->
          exists x q, max_distance a = Some x /\ prev_max e = Some q
                      /\ x <= q)
    /\ (Forall (fun r => distance_km r <> None) three_days ->
        (forall i a e,
            nth_error evs i = Some a -> nth_error evs (S i) = Some e ->
            exists x q, max_distance a = Some x /\ prev_max e = Some q
                        /\ q == x)
        /\ (Forall (fun r => forall x, distance_km r = Some x -> 0 <= x)
                   three_days ->
            forall e, nth_error evs 0 = Some e ->
                      exists q, prev_max e = Some q /\ q == 0)).
Proof.
  apply (prev_max_is_previous_breakthrough in_file_order in_file_order_rows
           three_days).
Defined.

(** An empty cell breaks the chain: on distances 1, empty, 2, 3 the row
    after the gap is passed over, and the second breakthrough (3) has
    [prev_max] 2, not the 1 of the first. *)
Example gap_breaks_the_chain :
  option_map (map (fun e => (max_distance e, prev_max e)))
             (process_speed_data in_file_order (Some gap_days))
  = Some [ (Some 1, Some 0); (Some 3, Some 2) ].
Proof. vm_compute. reflexivity. Qed.

End SpeedFrameChainWitness.
Section SpeedFrameReportFacts.
Import Pandas SpeedFrame.

Lemma frame_scan_rows (df : list DailyExtent) : forall p m x,
  In x (scan p m df) -> In (fst (fst x)) df.
Proof.
  induction df as [|r t IH]; intros p m x; simpl; [tauto|].
  destruct (distance_km r) as [d|].
  - rewrite in_app_iff. intros [H|H]; [|right; eapply IH, H].
    destruct p as [q|]; simpl in H; [|tauto].
    destruct (Qgtb d q); simpl in H; [|tauto].
    destruct H as [<-|[]]. now left.
  - intro H. right. eapply IH, H.
Qed.

Lemma frame_scan_days_sorted (df : list DailyExtent) : forall p m,
  by_date df ->
  StronglySorted
    (fun a b => (date_only (fst (fst a)) <= date_only (fst (fst b)))%Z)
    (scan p m df).
Proof.
  unfold by_date.
  induction df as [|r t IH]; intros p m Hs; simpl; [constructor|].
  apply StronglySorted_inv in Hs. destruct Hs as [Ht Hall].
  destruct (distance_km r) as [d|]; [|now apply IH].
  destruct p as [q|]; simpl; [|now apply IH].
  destruct (Qgtb d q); simpl; [|now apply IH].
  constructor; [now apply IH|].
  apply Forall_forall. intros x Hx. apply frame_scan_rows in Hx.
  rewrite Forall_forall in Hall. exact (Hall _ Hx).
Qed.

Lemma frame_later_dates (l : list (DailyExtent * option Q * option Q)) :
  forall prev,
  map date
    (Speed.zip_with finish l
       (diff_from prev
          (map (fun t => Speed.to_datetime (date_only (fst (fst t)))) l)))
  = map (fun t => Speed.to_datetime (date_only (fst (fst t)))) l.
Proof.
  induction l as [|t l IH]; intros prev; simpl; [reflexivity|].
  rewrite IH. now destruct t as [[r m] p].
Qed.

Lemma frame_dates (l : list (DailyExtent * option Q * option Q)) :
  map date (speed_columns l)
  = map (fun t => Speed.to_datetime (date_only (fst (fst t)))) l.
Proof.
  destruct l as [|t l]; [reflexivity|].
  unfold speed_columns. simpl. rewrite frame_later_dates.
  now destruct t as [[r m] p].
Qed.

Lemma frame_dates_sorted (l : list (DailyExtent * option Q * option Q)) :
  StronglySorted
    (fun a b => (date_only (fst (fst a)) <= date_only (fst (fst b)))%Z) l ->
  StronglySorted Z.le (map date (speed_columns l)).
Proof.
  intro H. rewrite frame_dates. apply sorted_of_map.
  induction H as [|a l Hs IH Hall]; constructor; [exact IH|].
  eapply Forall_impl; [|exact Hall].
  unfold Speed.to_datetime. intros; lia.
Qed.

(** The largest of [rising] [max_distance] cells is the last. *)
Lemma rising_series_max (rest : list (DailyExtent * option Q * option Q)) :
  forall x,
    rising x rest ->
    fold_left SpeedReport.fmax
              (SpeedReport.dropna
                 (map (fun t => cell_float (snd (fst t))) rest))
              (Fin x)
    = cell_float (last (map (fun t => snd (fst t)) rest) (Some x)).
Proof.
  induction rest as [|t rest IH]; intros x Hr; [reflexivity|].
  destruct Hr as [x' [q [Hx' [_ [Hle [Hlt Hrest]]]]]].
  cbn [map]. rewrite Hx', last_cons.
  cbn [cell_float SpeedReport.dropna filter SpeedReport.isna negb fold_left].
  cbn [SpeedReport.fmax].
  rewrite np_maximum_gt by (eapply Qle_lt_trans; eassumption).
  apply IH, Hrest.
Qed.

(** Without empty cells the last [max_distance] emitted from a state bounds
    the state and every row read. *)
Lemma frame_scan_top (df : list DailyExtent) :
  Forall (fun r => distance_km r <> None) df ->
  forall c,
  exists top,
    last (map (fun t => snd (fst t)) (scan (Some c) (Some c) df)) (Some c)
    = Some top
    /\ c <= top
    /\ Forall (fun r => forall y, distance_km r = Some y -> y <= top) df.
Proof.
  induction 1 as [|r t Hr Ht IH]; intro c; simpl.
  - exists c. split; [reflexivity|]. split; [apply Qle_refl|constructor].
  - destruct (distance_km r) as [x|] eqn:E; [|contradiction].
    destruct (IH (np_maximum c x)) as [top [Hlast [Hm Hall]]].
    assert (Hc : c <= top).
    { eapply Qle_trans; [apply np_maximum_ge|exact Hm]. }
    assert (Hx : x <= top).
    { eapply Qle_trans; [apply np_maximum_ge_r|exact Hm]. }
    assert (Hrow : forall y, distance_km r = Some y -> y <= top).
    { intros y Hy. rewrite E in Hy. now injection Hy as <-. }
    destruct (Qgtb x c) eqn:G; simpl app.
    + exists top. cbn [map]. rewrite last_cons. cbn [fst snd].
      split; [exact Hlast|]. split; [exact Hc|]. now constructor.
    + destruct (scan (Some (np_maximum c x)) (Some (np_maximum c x)) t)
        as [|e es] eqn:Es.
      * simpl in Hlast. injection Hlast as <-.
        pose proof (np_maximum_not_above _ _ G) as Heq.
        exists c. simpl. split; [reflexivity|]. split; [apply Qle_refl|].
        constructor.
        -- intros y Hy. rewrite E in Hy. injection Hy as <-.
           rewrite <- Heq. apply np_maximum_ge_r.
        -- eapply Forall_impl; [|exact Hall]. intros a Ha y Hy.
           rewrite <- Heq. now apply Ha.
      * exists top.
        rewrite (last_default (map _ (e :: es)) (Some c)
                   (Some (np_maximum c x))) by discriminate.
        split; [exact Hlast|]. split; [exact Hc|]. now constructor.
Qed.

Lemma frame_scan_first_top (df : list DailyExtent)
      (t0 : DailyExtent * option Q * option Q)
      (ts : list (DailyExtent * option Q * option Q)) (x : Q) :
  Forall (fun r => distance_km r <> None) df ->
  scan (Some 0) None df = t0 :: ts ->
  last (map (fun t => snd (fst t)) ts) (snd (fst t0)) = Some x ->
  Forall (fun r => forall y, distance_km r = Some y -> y <= x) df.
Proof.
  intros Hall. destruct Hall as [|r t Hr Ht]; simpl; [discriminate|].
  destruct (distance_km r) as [d|] eqn:E; [|contradiction].
  destruct (frame_scan_top t Ht d) as [top [Hlast [Hm Htop]]].
  assert (Hrow : forall y, distance_km r = Some y -> y <= top).
  { intros y Hy. rewrite E in Hy. now injection Hy as <-. }
  destruct (Qgtb d 0) eqn:G; simpl; intros Hs Hx.
  - injection Hs as <- <-. cbn [fst snd] in Hx.
    rewrite Hlast in Hx. injection Hx as <-. now constructor.
  - rewrite Hs in Hlast. cbn [map] in Hlast. rewrite last_cons in Hlast.
    rewrite Hlast in Hx. injection Hx as <-. now constructor.
Qed.

End SpeedFrameReportFacts.

Section SpeedFrameReport.
Import Pandas SpeedFrame.

Variable sort_values : list DailyExtent -> list DailyExtent.
Hypothesis sort_values_rows : forall l, Permutation l (sort_values l).
Hypothesis sort_values_sorted : forall l, by_date (sort_values l).

(** X10: when the page shows a propagation summary, whatever the order of
    same-day rows and wherever cells are empty, the period in its title
    runs from the date of the first breakthrough to the date of the last,
    and "Max Distance" is the [max_distance] of the last breakthrough, a
    number that is the distance of one of the input rows.  When no
    distance cell is empty, no distance of the input exceeds it. *)
Theorem report_extremes
        (csv : list DailyExtent) (s e : Z) (md ms av : float64) :
  get_layout sort_values (Some csv) = Propagation s e md ms av ->
  exists first rest x,
    process_speed_data sort_values (Some csv) = Some (first :: rest)
    /\ s = date first /\ e = date (last rest first) /\ (s <= e)%Z
    /\ max_distance (last rest first) = Some x /\ md = Fin x
    /\ (exists r, In r csv /\ distance_km r = Some x)
    /\ (Forall (fun r => distance_km r <> None) csv ->
        forall r y, In r csv -> distance_km r = Some y -> y <= x).
Proof.
  unfold get_layout, process_speed_data. rewrite frame_columns_scan.
  set (df := sort_values csv).
  pose proof (frame_speed_columns_core (scan (Some 0) None df)) as Hcore.
  pose proof (frame_dates_sorted (scan (Some 0) None df)
                (frame_scan_days_sorted df (Some 0) None
                   (sort_values_sorted csv))) as Hst.
  assert (Hmax : map (fun x => cell_float (max_distance x))
                     (speed_columns (scan (Some 0) None df))
                 = map (fun t => cell_float (snd (fst t)))
                       (scan (Some 0) None df)).
  { rewrite <- Hcore at 2. now rewrite map_map. }
  pose proof (frame_scan_linked df (Some 0) None) as Hl.
  pose proof (frame_scan_shape df (Some 0) None
                (or_intror (or_introl eq_refl))) as Hs.
  destruct (speed_columns (scan (Some 0) None df)) as [|first rest] eqn:Hev;
    [discriminate|].
  intros [= <- <- <- _ _].
  cbn [map] in Hcore, Hst. symmetry in Hcore.
  rewrite Hcore in Hl, Hs.
  inversion Hs as [|? ? [x0 [q0 [_ [Hx0 _]]]] Hs']; subst.
  change (snd (fst (core first))) with (max_distance first) in Hx0.
  specialize (Hl x0 Hx0).
  assert (Hlast : cell_float (max_distance (last rest first))
                  = SpeedReport.series_max
                      (map (fun x => cell_float (max_distance x))
                           (first :: rest))).
  { rewrite Hmax, Hcore. unfold SpeedReport.series_max. cbn [map].
    change (snd (fst (core first))) with (max_distance first).
    rewrite Hx0.
    cbn [cell_float SpeedReport.dropna filter SpeedReport.isna negb
         fold_left SpeedReport.fmax].
    change (filter (fun x => negb (SpeedReport.isna x))
                   (map (fun t => cell_float (snd (fst t))) (map core rest)))
      with (SpeedReport.dropna
              (map (fun t => cell_float (snd (fst t))) (map core rest))).
    rewrite (rising_series_max _ _ Hl), <- Hx0.
    rewrite map_map.
    change (map (fun x => snd (fst (core x))) rest)
      with (map max_distance rest).
    now rewrite last_map. }
  assert (Hin : In (core (last rest first)) (core first :: map core rest)).
  { destruct rest as [|y ys]; [now left|]. right.
    apply in_map. destruct (@exists_last _ (y :: ys)) as [l' [a Hla]];
      [discriminate|].
    rewrite Hla, last_last. apply in_elt. }
  rewrite Forall_forall in Hs.
  destruct (Hs _ Hin) as [x [q [Hrow [Hx _]]]].
  change (snd (fst (core (last rest first))))
    with (max_distance (last rest first)) in Hx.
  change (fst (fst (core (last rest first))))
    with (row (last rest first)) in Hrow.
  exists first, rest, x.
  split; [reflexivity|].
  split; [now apply date_min_sorted|].
  split; [rewrite date_max_sorted by exact Hst; apply last_map|].
  split.
  { rewrite date_min_sorted by exact Hst.
    rewrite date_max_sorted by exact Hst.
    destruct rest as [|y ys]; [simpl; lia|].
    apply (sorted_last Z.le (map date (y :: ys)) (date first) Hst).
    discriminate. }
  split; [exact Hx|].
  split; [cbn [map] in Hlast; now rewrite <- Hlast, Hx|].
  split.
  - exists (row (last rest first)). split; [|exact Hrow].
    rewrite <- Hcore in Hin. apply frame_scan_rows in Hin.
    exact (Permutation_in _ (Permutation_sym (sort_values_rows csv)) Hin).
  - intros Hall r y Hr Hy.
    assert (Hdf : Forall (fun r => distance_km r <> None) df).
    { exact (Permutation_Forall (sort_values_rows csv) Hall). }
    assert (Hl' : last (map (fun t => snd (fst t)) (map core rest))
                       (snd (fst (core first))) = Some x).
    { rewrite map_map.
      change (map (fun x => snd (fst (core x))) rest)
        with (map max_distance rest).
      change (snd (fst (core first))) with (max_distance first).
      now rewrite last_map. }
    pose proof (frame_scan_first_top df (core first) (map core rest) x
                  Hdf Hcore Hl') as Htop.
    rewrite Forall_forall in Htop.
    apply (Htop r); [|exact Hy].
    exact (Permutation_in _ (sort_values_rows csv) Hr).
Qed.

End SpeedFrameReport.

Section SpeedFrameReportWitness.
Import Pandas SpeedFrame.

Lemma in_file_order_sorted (l : list DailyExtent) : by_date (in_file_order l).
Proof.
  unfold by_date, in_file_order.
  pose proof (sort_values_sorted _
                (fun r => Speed.to_datetime (date_only r)) l) as H.
  induction H as [|a t Hs IH Hall]; constructor; [exact IH|].
  eapply Forall_impl; [|exact Hall].
  unfold le_key, Speed.to_datetime. intros; lia.
Qed.

Lemma report_extremes_witness :
  exists first rest x,
    process_speed_data in_file_order (Some three_days) = Some (first :: rest)
    /\ 1704067200%Z = date first /\ 1704240000%Z = date (last rest first)
    /\ (1704067200 <= 1704240000)%Z
    /\ max_distance (last rest first) = Some x /\ Fin (22 # 10) = Fin x
    /\ (exists r, In r three_days /\ distance_km r = Some x)
    /\ (Forall (fun r => distance_km r <> None) three_days ->
        forall r y, In r three_days -> distance_km r = Some y -> y <= x).
Proof.
  eapply (report_extremes in_file_order in_file_order_rows
            in_file_order_sorted three_days 1704067200 1704240000
            (Fin (22 # 10))).
  reflexivity.
Defined.

(** An empty cell can hide a larger distance: on distances 2, empty, 5 the
    row after the gap is passed over and the summary shows 2. *)
Example gap_hides_distance :
  get_layout in_file_order
    (Some [ mkDailyExtent 19723 "SNPP" (Some 2) (Some 10) (Some 0) (Some 0) 1;
            mkDailyExtent 19724 "SNPP" None None None None 1;
            mkDailyExtent 19725 "SNPP" (Some 5) (Some 12) (Some 0) (Some 0) 1 ])
  = Propagation 1704067200 1704067200 (Fin 2) (Fin 0) (Fin 0).
Proof. vm_compute. reflexivity. Qed.

End SpeedFrameReportWitness.
Section SortedFrames.
Import Pandas SpeedFrame.

Lemma filter_rows_perm {A : Type} (f : A -> bool) (l l' : list A) :
  Permutation l l' -> Permutation (filter f l) (filter f l').
Proof.
  induction 1 as [|x l l' H IH|x y l|l l' l'' H1 IH1 H2 IH2]; simpl.
  - constructor.
  - destruct (f x); [now constructor|exact IH].
  - destruct (f x), (f y); try reflexivity. apply perm_swap.
  - now transitivity (filter f l').
Qed.

Lemma by_date_filter (f : DailyExtent -> bool) (l : list DailyExtent) :
  by_date l -> by_date (filter f l).
Proof.
  unfold by_date. induction 1 as [|x l Hs IH Hall]; simpl; [constructor|].
  destruct (f x); [|exact IH]. constructor; [exact IH|].
  rewrite Forall_forall in *. intros y Hy. apply Hall.
  apply filter_In in Hy. tauto.
Qed.

(** A frame in date order whose rows of one kind all come before, by date,
    the rows of the other kind is the rows of the first kind followed by
    the rows of the second. *)
Lemma by_date_split (old : DailyExtent -> bool) (l : list DailyExtent) :
  by_date l ->
  (forall a b, In a l -> In b l -> old a = true -> old b = false ->
               (date_only a < date_only b)%Z) ->
  l = filter old l ++ filter (fun r => negb (old r)) l.
Proof.
  unfold by_date. induction 1 as [|x l Hs IH Hall]; intro Hlt; simpl;
    [reflexivity|].
  assert (Hlt' : forall a b, In a l -> In b l -> old a = true ->
                             old b = false -> (date_only a < date_only b)%Z).
  { intros a b Ha Hb. apply Hlt; now right. }
  destruct (old x) eqn:E; simpl.
  - f_equal. now apply IH.
  - assert (Hnew : forall y, In y l -> old y = false).
    { intros y Hy. destruct (old y) eqn:Ey; [|reflexivity].
      pose proof (Hlt y x (or_intror Hy) (or_introl eq_refl) Ey E) as H1.
      rewrite Forall_forall in Hall. specialize (Hall y Hy). lia. }
    rewrite (filter_none old l Hnew). simpl. f_equal. symmetry.
    apply filter_all. intros y Hy. now rewrite (Hnew y Hy).
Qed.

(** Rows with pairwise different dates have one date order only. *)
Lemma by_date_unique (l1 : list DailyExtent) : forall l2,
  by_date l1 -> by_date l2 -> Permutation l1 l2 ->
  NoDup (map date_only l1) -> l1 = l2.
Proof.
  unfold by_date.
  induction l1 as [|a t1 IH]; intros l2 H1 H2 Hp Hnd.
  - apply Permutation_nil in Hp. now subst.
  - destruct l2 as [|b t2].
    { apply Permutation_sym, Permutation_nil in Hp. discriminate. }
    apply StronglySorted_inv in H1. destruct H1 as [Hs1 Ha].
    apply StronglySorted_inv in H2. destruct H2 as [Hs2 Hb].
    rewrite Forall_forall in Ha, Hb.
    inversion Hnd as [|? ? Hnot Hnd']; subst.
    assert (Hab : a = b).
    { assert (Hina : In a (b :: t2)).
      { apply (Permutation_in a Hp). now left. }
      assert (Hinb : In b (a :: t1)).
      { apply (Permutation_in b (Permutation_sym Hp)). now left. }
      destruct Hina as [->|Hina]; [reflexivity|].
      destruct Hinb as [->|Hinb]; [reflexivity|].
      exfalso. apply Hnot.
      assert (E : date_only a = date_only b).
      { specialize (Ha b Hinb). specialize (Hb a Hina). lia. }
      rewrite E. now apply in_map. }
    subst b. f_equal. apply IH; try assumption.
    exact (Permutation_cons_inv Hp).
Qed.

Lemma frame_scan_app (l later : list DailyExtent) : forall p m,
  exists p' m', scan p m (l ++ later) = scan p m l ++ scan p' m' later.
Proof.
  induction l as [|r l IH]; intros p m; simpl.
  - now exists p, m.
  - destruct (distance_km r) as [x|].
    + destruct (IH (Some (match m with
                          | None => x
                          | Some c => np_maximum c x
                          end))
                   (Some (match m with
                          | None => x
                          | Some c => np_maximum c x
                          end))) as [p' [m' E]].
      exists p', m'. rewrite E. now rewrite app_assoc.
    + destruct (IH None m) as [p' [m' E]]. now exists p', m'.
Qed.

Lemma frame_later_rows_app
      (l l' : list (DailyExtent * option Q * option Q)) : forall prev,
  exists more,
    Speed.zip_with finish (l ++ l')
      (diff_from prev
         (map (fun t => Speed.to_datetime (date_only (fst (fst t))))
              (l ++ l')))
    = Speed.zip_with finish l
        (diff_from prev
           (map (fun t => Speed.to_datetime (date_only (fst (fst t)))) l))
      ++ more.
Proof.
  induction l as [|t l IH]; intro prev; simpl.
  - eexists. reflexivity.
  - destruct (IH (Speed.to_datetime (date_only (fst (fst t))))) as [more E].
    exists more. now rewrite E.
Qed.

Lemma frame_speed_columns_app
      (l l' : list (DailyExtent * option Q * option Q)) :
  exists more, speed_columns (l ++ l') = speed_columns l ++ more.
Proof.
  destruct l as [|t l]; [eexists; reflexivity|].
  unfold speed_columns. simpl.
  destruct (frame_later_rows_app l l'
              (Speed.to_datetime (date_only (fst (fst t))))) as [more E].
  exists more. now rewrite E.
Qed.

End SortedFrames.

Section SpeedFramePrefix.
Import Pandas SpeedFrame.

Variable sort_values : list DailyExtent -> list DailyExtent.
Hypothesis sort_values_rows : forall l, Permutation l (sort_values l).
Hypothesis sort_values_sorted : forall l, by_date (sort_values l).

(** Rows of later days are sorted behind rows whose dates are pairwise
    different, and these keep their one date order. *)
Lemma sort_values_later (csv later : list DailyExtent) :
  NoDup (map date_only csv) ->
  (forall a b, In a csv -> In b later -> (date_only a < date_only b)%Z) ->
  exists rest, sort_values (csv ++ later) = sort_values csv ++ rest.
Proof.
  intros Hnd Hlt.
  set (old := fun r => existsb (fun a => (date_only a =? date_only r)%Z) csv).
  assert (Hold : forall r, In r csv -> old r = true).
  { intros r Hr. apply existsb_exists. exists r. split; [exact Hr|].
    apply Z.eqb_refl. }
  assert (Hnew : forall r, In r later -> old r = false).
  { intros r Hr. destruct (old r) eqn:E; [|reflexivity].
    apply existsb_exists in E. destruct E as [a [Ha Hd]].
    apply Z.eqb_eq in Hd. specialize (Hlt a r Ha Hr). lia. }
  set (df := sort_values (csv ++ later)).
  assert (Hdf : forall r, In r df -> In r csv \/ In r later).
  { intros r Hr. apply in_app_or.
    exact (Permutation_in _ (Permutation_sym (sort_values_rows _)) Hr). }
  assert (Hsplit : df = filter old df ++ filter (fun r => negb (old r)) df).
  { apply by_date_split; [apply sort_values_sorted|].
    intros a b Ha Hb Ea Eb.
    apply existsb_exists in Ea. destruct Ea as [c [Hc Hd]].
    apply Z.eqb_eq in Hd. rewrite <- Hd. apply Hlt; [exact Hc|].
    destruct (Hdf b Hb) as [H|H]; [|exact H].
    rewrite (Hold b H) in Eb. discriminate. }
  exists (filter (fun r => negb (old r)) df).
  rewrite Hsplit at 1. f_equal. symmetry.
  apply by_date_unique.
  - apply sort_values_sorted.
  - apply by_date_filter, sort_values_sorted.
  - transitivity csv; [symmetry; apply sort_values_rows|].
    rewrite <- (filter_all old csv Hold) at 1.
    rewrite <- (app_nil_r (filter old csv)).
    rewrite <- (filter_none old later Hnew), <- filter_app.
    apply filter_rows_perm, sort_values_rows.
  - apply (Permutation_NoDup (l := map date_only csv)); [|exact Hnd].
    apply Permutation_map, sort_values_rows.
Qed.

(** X28: rows for later days never change what was found before, provided
    the rows already present have pairwise different dates (their order
    after sorting is then the same in both runs): when every added row has
    a later day than every row already present, the breakthroughs of the
    longer input begin with exactly those of the shorter one. *)
Theorem later_rows_keep_breakthroughs
        (csv later : list DailyExtent) (evs : list Breakthrough) :
  NoDup (map date_only csv) ->
  (forall a b, In a csv -> In b later -> (date_only a < date_only b)%Z) ->
  process_speed_data sort_values (Some csv) = Some evs ->
  exists more,
    process_speed_data sort_values (Some (csv ++ later)) = Some (evs ++ more).
Proof.
  intros Hnd Hlt [= <-]. unfold process_speed_data.
  rewrite !frame_columns_scan.
  destruct (sort_values_later csv later Hnd Hlt) as [rest ->].
  destruct (frame_scan_app (sort_values csv) rest (Some 0) None)
    as [p' [m' ->]].
  destruct (frame_speed_columns_app (scan (Some 0) None (sort_values csv))
              (scan p' m' rest)) as [more ->].
  now exists more.
Qed.

End SpeedFramePrefix.

Section SpeedFramePrefixWitness.
Import Pandas SpeedFrame.

Lemma later_rows_keep_breakthroughs_witness :
  exists more,
    process_speed_data in_file_order
      (Some ([ mkDailyExtent 19723 "SNPP" (Some 1) (Some 10) (Some 0) (Some 0) 1;
               mkDailyExtent 19724 "SNPP" (Some (1 # 2)) (Some 11) (Some 0)
                             (Some 0) 1 ]
             ++ [ mkDailyExtent 19725 "SNPP" (Some (22 # 10)) (Some 12)
                                (Some 0) (Some 0) 1 ]))
    = Some ([ finish (mkDailyExtent 19723 "SNPP" (Some 1) (Some 10) (Some 0)
                                    (Some 0) 1, Some 1, Some 0) None ]
            ++ more).
Proof.
  apply (later_rows_keep_breakthroughs in_file_order in_file_order_rows
           in_file_order_sorted
           [ mkDailyExtent 19723 "SNPP" (Some 1) (Some 10) (Some 0) (Some 0) 1;
             mkDailyExtent 19724 "SNPP" (Some (1 # 2)) (Some 11) (Some 0)
                           (Some 0) 1 ]
           [ mkDailyExtent 19725 "SNPP" (Some (22 # 10)) (Some 12)
                              (Some 0) (Some 0) 1 ]).
  - repeat constructor; simpl; intuition discriminate.
  - intros a b [<- | [<- | []]] [<- | []]; simpl; lia.
  - reflexivity.
Defined.

(** Two rows of one day: which of them is a breakthrough depends on the
    order the sort leaves them in. *)
Example same_day_order_matters :
  List.length (scan (Some 0) None
                 [ mkDailyExtent 19723 "SNPP" (Some 1) None None None 1;
                   mkDailyExtent 19723 "NOAA20" (Some 2) None None None 2 ])
  = 2%nat
  /\ List.length (scan (Some 0) None
                    [ mkDailyExtent 19723 "NOAA20" (Some 2) None None None 2;
                      mkDailyExtent 19723 "SNPP" (Some 1) None None None 1 ])
     = 1%nat.
Proof. split; vm_compute; reflexivity. Qed.

End SpeedFramePrefixWitness.
